(** * Downloader bot: a shallow embedding of the download-and-relay pipeline

    The development follows the four source files of the bot:
    - [main.py]: progress notices, platform routing and the per-message
      handler;
    - [downloaders/tiktok.py], [downloaders/youtube.py]: the two video
      adapters;
    - [downloaders/soundcloud.py]: the audio adapter, the converter lookup
      and the ID3 tagger.

    Python [str] values are sequences of Unicode code points, dictionaries
    are finite maps, and every call to a collaborator (the messaging API,
    the extraction engine, the tag library, HTTP) is an entry in a log whose
    outcome is decided by an environment of oracles. *)

From Stdlib Require Import ZArith NArith Ascii String List Bool Lia.
From stdpp Require Import gmap strings list fin_maps.

Set Default Proof Using "Type".
Local Open Scope N_scope.

(** ** Python strings *)

Module Str.

(** A [str] is a list of code points. *)
Definition pystr := list N.

(** An ASCII literal of the source, as code points. *)
Definition lit (s : string) : pystr :=
  map N_of_ascii (list_ascii_of_string s).
Arguments lit s%_string.

(** [s.startswith(p)] *)
Fixpoint startswith (p s : pystr) : bool :=
  match p, s with
  | [], _ => true
  | _ :: _, [] => false
  | a :: p', b :: s' => (a =? b) && startswith p' s'
  end.

(** [s.startswith((p1, p2, ...))] *)
Definition startswith_any (ps : list pystr) (s : pystr) : bool :=
  existsb (fun p => startswith p s) ps.

(** [needle in hay] *)
Fixpoint contains (needle hay : pystr) : bool :=
  startswith needle hay ||
  match hay with
  | [] => false
  | _ :: t => contains needle t
  end.

(** [s.endswith(suf)] *)
Definition endswith (suf s : pystr) : bool :=
  startswith (rev suf) (rev s).

(** [s.endswith((suf1, suf2, ...))] *)
Definition endswith_any (sufs : list pystr) (s : pystr) : bool :=
  existsb (fun suf => endswith suf s) sufs.

(** [str.lower] on one code point.  Only the ASCII capitals are mapped:
    the lowercase form of a code point outside ASCII contains no ASCII
    letter except for U+0130 (i) and U+212A (k), and the program compares
    lowered text only with ["ffmpeg"] and [".mp3"]. *)
Definition lower_cp (c : N) : N :=
  if (65 <=? c) && (c <=? 90) then c + 32 else c.

Definition lower (s : pystr) : pystr := map lower_cp s.

(** The code points [str.strip()] removes (CPython's
    [_PyUnicode_IsWhitespace]). *)
Definition is_space (c : N) : bool :=
  ((9 <=? c) && (c <=? 13)) || ((28 <=? c) && (c <=? 32))
  || (c =? 133) || (c =? 160) || (c =? 5760)
  || ((8192 <=? c) && (c <=? 8202))
  || (c =? 8232) || (c =? 8233) || (c =? 8239) || (c =? 8287)
  || (c =? 12288).

Fixpoint lstrip (s : pystr) : pystr :=
  match s with
  | [] => []
  | c :: t => if is_space c then lstrip t else s
  end.

Definition rstrip (s : pystr) : pystr := rev (lstrip (rev s)).

(** [s.strip()] *)
Definition strip (s : pystr) : pystr := rstrip (lstrip s).

(** Truthiness of a [str]. *)
Definition nonempty (s : pystr) : bool :=
  match s with [] => false | _ :: _ => true end.

(** [s.rfind(c)] for a one-character [c]: the last index, or [-1]. *)
Fixpoint rfind_from (c : N) (s : pystr) (i : Z) (found : Z) : Z :=
  match s with
  | [] => found
  | x :: t => rfind_from c t (i + 1)%Z (if x =? c then i else found)
  end.

Definition rfind (c : N) (s : pystr) : Z := rfind_from c s 0%Z (-1)%Z.

(** Slices [s[:i]], [s[i:]] and [s[i:j]] for indices that are not
    negative. *)
Definition upto (i : Z) (s : pystr) : pystr := take (Z.to_nat i) s.
Definition from (i : Z) (s : pystr) : pystr := drop (Z.to_nat i) s.
Definition slice (i j : Z) (s : pystr) : pystr := upto (j - i) (from i s).

Definition dot : N := 46.
Definition slash : N := 47.

(** [s.rsplit('.', 1)[0]] *)
Definition rsplit_dot_head (s : pystr) : pystr :=
  let i := rfind dot s in
  if (i <? 0)%Z then s else upto i s.

End Str.
Export Str.

(** ** Paths ([posixpath]) *)

Module Path.

(** [os.path.join(a, b)] *)
Definition join (a b : pystr) : pystr :=
  if startswith [slash] b then b
  else if negb (nonempty a) || endswith [slash] a then a ++ b
  else a ++ [slash] ++ b.

(** [os.path.basename(p)] *)
Definition basename (p : pystr) : pystr := from (rfind slash p + 1) p.

Fixpoint drop_slashes (s : pystr) : pystr :=
  match s with
  | [] => []
  | c :: t => if c =? slash then drop_slashes t else s
  end.

(** [os.path.dirname(p)] *)
Definition dirname (p : pystr) : pystr :=
  let head := upto (rfind slash p + 1) p in
  if nonempty head && negb (forallb (N.eqb slash) head)
  then rev (drop_slashes (rev head)) else head.

(** [os.path.splitext(p)[1]]: the extension starts at the last dot of the
    last component, unless that component consists of leading dots up to
    there. *)
Definition splitext_ext (p : pystr) : pystr :=
  let sepIndex := rfind slash p in
  let dotIndex := rfind dot p in
  if (sepIndex <? dotIndex)%Z
     && existsb (fun c => negb (c =? dot)) (slice (sepIndex + 1) dotIndex p)
  then from dotIndex p else [].

End Path.
Export Path.

(** ** Python values, dictionaries and exceptions *)

Module Py.

(** The values that occur in an info record of the extraction engine. *)
Inductive value :=
| VNone
| VStr (s : pystr)
| VNum (n : Z).

(** [bool(v)] *)
Definition truthy (v : value) : bool :=
  match v with
  | VNone => false
  | VStr s => nonempty s
  | VNum n => negb (n =? 0)%Z
  end.

(** A [dict] with the literal keys of the source. *)
Abbreviation dict := (gmap string value).

(** [d.get(k, default)] *)
Definition get (d : dict) (k : string) (default : value) : value :=
  match d !! k with
  | Some v => v
  | None => default
  end.

Inductive exn_kind :=
| Exception
| ValueError
| AttributeError
| ImportError
| OSError.

(** A raised exception; [msg] is [str(e)]. *)
Record exn := Exn { kind : exn_kind; msg : pystr }.

Inductive result (A : Type) :=
| Ok (a : A)
| Raise (e : exn).
Arguments Ok {A} a.
Arguments Raise {A} e.

End Py.
Export Py.

(** ** Collaborators, the log and the file system *)

(** Options handed to the extraction engine.  [outtmpl] of the source is
    [join out_dir out_template]. *)
Record ydl_opts := YdlOpts {
  format : pystr;
  out_dir : pystr;
  out_template : pystr;
  noplaylist : bool;
  extract_audio_mp3 : bool;
  ffmpeg_location : option pystr
}.

(** The three option sets of the source ([quiet] and [no_warnings], set
    in all of them, are left out). *)
Definition YTDL_OPTS (dest_folder : pystr) : ydl_opts :=
  YdlOpts (lit "best[ext=mp4]/best") dest_folder (lit "%(id)s.%(ext)s")
          true false None.

(** ID3 frames; all of them are built with [encoding=3]. *)
Inductive frame :=
| TIT2 (text : pystr)
| TPE1 (text : pystr)
| TALB (text : value)
| APIC (mime : pystr) (type : Z) (desc : pystr) (data : list N).

(** One entry per call to a collaborator, whether it succeeds or raises. *)
Inductive event :=
| EditMessageText (chat_id message_id : Z) (text : pystr)
| SendMessage (chat_id : Z) (text : pystr)
| DeleteMessage (chat_id message_id : Z)
| SendAudio (chat_id : Z) (path caption : pystr)
| AnswerVideo (chat_id : Z) (path : pystr)
| Answer (chat_id : Z) (text : pystr)
| MkDtemp
| ExtractInfo (url : pystr) (opts : ydl_opts)
| Mp3Open (path : pystr) (id3 : bool)
| AddTags (id3 : bool)
| TagAdd (f : frame)
| TagSave (path : pystr)
| HttpGet (url : value)
| HttpRead.

(** A directory maps to the regular files in it, in listing order, with
    their sizes in bytes. *)
Abbreviation filesystem := (gmap pystr (list (pystr * N))).

(** What a successful [extract_info] hands back: the info record and the
    file name the output template evaluates to on it. *)
Record ydl_reply := YdlReply { info : dict; out_name : pystr }.

(** The environment decides every outcome from the log at the time of the
    call (most recent entry first). *)
Record env := Env {
  fails : list event -> event -> option exn;
  sent_id : list event -> Z;
  tmp_candidates : list event -> list pystr;
  ydl : list event -> ydl_reply;
  ydl_files : list event -> list (pystr * N);
  mp3_has_tags : list event -> bool;
  saved_size : list event -> N;
  http_status : list event -> Z;
  http_body : list event -> list N;
  which : pystr -> option pystr;
  os_name_nt : bool;
  TOOLS_PATH : pystr
}.

Record state := State {
  log : list event;
  fs : filesystem
}.

(** ** The effect monad: state and exceptions *)

Definition M (A : Type) : Type := state -> result A * state.

Definition ret {A} (a : A) : M A := fun st => (Ok a, st).

Definition bind {A B} (m : M A) (k : A -> M B) : M B :=
  fun st =>
    match m st with
    | (Ok a, st') => k a st'
    | (Raise e, st') => (Raise e, st')
    end.

Definition raise {A} (e : exn) : M A := fun st => (Raise e, st).

(** [try: m  except Exception as e: h e] *)
Definition try_except {A} (m : M A) (h : exn -> M A) : M A :=
  fun st =>
    match m st with
    | (Ok a, st') => (Ok a, st')
    | (Raise e, st') => h e st'
    end.

Definition gets {A} (f : state -> A) : M A := fun st => (Ok (f st), st).

Definition modify_fs (f : filesystem -> filesystem) : M unit :=
  fun st => (Ok tt, State (log st) (f (fs st))).

(** Sequencing is written as in stdpp, [x ← m; k] and [m;; k]. *)
Declare Scope py_scope.
Delimit Scope py_scope with py.
Notation "x ← y ; z" := (bind y (fun x => z))
  (at level 20, y at level 100, z at level 200, only parsing) : py_scope.
Notation "x ;; z" := (bind x (fun _ => z))
  (at level 100, z at level 200, only parsing, right associativity) : py_scope.
Open Scope py_scope.

(** The status line [f"<U+1F504> *{text}*"] of a progress notice. *)
Definition progress_text (text : pystr) : pystr :=
  [128260] ++ lit " *" ++ text ++ lit "*".

(** The new entries of the log, oldest first. *)
Definition events_since (st st' : state) : list event :=
  rev (take (length (log st') - length (log st)) (log st')).

(** *** File system queries *)

Definition is_dir (f : filesystem) (p : pystr) : bool :=
  bool_decide (is_Some (f !! p)).

Fixpoint entry_size (name : pystr) (entries : list (pystr * N)) : option N :=
  match entries with
  | [] => None
  | (n, size) :: rest =>
      if bool_decide (n = name) then Some size else entry_size name rest
  end.

(** The size of the regular file at [p], if there is one. *)
Definition file_size (f : filesystem) (p : pystr) : option N :=
  match f !! dirname p with
  | Some entries => entry_size (basename p) entries
  | None => None
  end.

(** [os.path.exists(p)] *)
Definition path_exists (f : filesystem) (p : pystr) : bool :=
  is_dir f p || bool_decide (is_Some (file_size f p)).

(** [os.listdir(d)] *)
Definition listdir (f : filesystem) (d : pystr) : list pystr :=
  match f !! d with
  | Some entries => fst <$> entries
  | None => []
  end.

Section Program.

Variable E : env.

(** A call to a collaborator: logged, then it raises or returns as the
    environment says. *)
Definition call (ev : event) : M unit :=
  fun st =>
    let st' := State (ev :: log st) (fs st) in
    match fails E (log st) ev with
    | Some x => (Raise x, st')
    | None => (Ok tt, st')
    end.

(** What the collaborator answered to the call just logged. *)
Definition reply {A} (oracle : env -> list event -> A) : M A :=
  gets (fun st => oracle E (log st)).

Definition os_path_exists (p : pystr) : M bool :=
  gets (fun st => path_exists (fs st) p).

Definition os_listdir (d : pystr) : M (list pystr) :=
  gets (fun st => listdir (fs st) d).

(** *** downloaders/soundcloud.py *)

(** [get_ffmpeg_path], lines 78-111. *)
Definition get_ffmpeg_path : M (option pystr) :=
  gets (fun st =>
    if negb (path_exists (fs st) (TOOLS_PATH E)) then None
    else
      let possible_names :=
        if os_name_nt E then [lit "ffmpeg.exe"; lit "ffmpeg"]
        else [lit "ffmpeg"] in
      match find (fun name => path_exists (fs st) (join (TOOLS_PATH E) name))
                 possible_names with
      | Some name => Some (join (TOOLS_PATH E) name)
      | None =>
          match which E (lit "ffmpeg") with
          | Some system_ffmpeg =>
              if nonempty system_ffmpeg then Some system_ffmpeg else None
          | None => None
          end
      end).

(** [ydl.extract_info(url, download=True)]: the engine leaves the files
    the environment names in the output directory, then raises or returns
    its reply. *)
Definition extract_info (url : pystr) (opts : ydl_opts) : M ydl_reply :=
  fun st =>
    let st' := State (ExtractInfo url opts :: log st)
                     (<[out_dir opts := ydl_files E (log st)]> (fs st)) in
    match fails E (log st) (ExtractInfo url opts) with
    | Some x => (Raise x, st')
    | None => (Ok (ydl E (log st)), st')
    end.

(** [ydl.prepare_filename(info)] *)
Definition prepare_filename (opts : ydl_opts) (r : ydl_reply) : pystr :=
  join (out_dir opts) (out_name r).

(** The dictionary [run_yt_dlp] returns. *)
Record ydl_result := YdlResult {
  success : bool;
  filename : option pystr;
  result_info : option dict;
  error : option pystr
}.

(** [run_yt_dlp], lines 17-75.  The output template arrives as its
    directory and its pattern. *)
Definition run_yt_dlp (url dest_folder pattern : pystr) : M ydl_result :=
  ffmpeg_executable ← get_ffmpeg_path;
  let ydl_opts :=
    YdlOpts (lit "bestaudio/best") dest_folder pattern true true
            (dirname <$> ffmpeg_executable) in
  try_except
    (reply ← extract_info url ydl_opts;
     let filename := prepare_filename ydl_opts reply in
     let mp3_filename := rsplit_dot_head filename ++ lit ".mp3" in
     mp3_exists ← os_path_exists mp3_filename;
     let final_filename := if mp3_exists then mp3_filename else filename in
     ret (YdlResult true (Some final_filename) (Some (info reply)) None))
    (fun e => ret (YdlResult false None None (Some (msg e)))).

(** [v.strip()] on a value taken from the info record. *)
Definition value_strip (v : value) : M pystr :=
  match v with
  | VStr s => ret (strip s)
  | VNone =>
      raise (Exn AttributeError
                 (lit "'NoneType' object has no attribute 'strip'"))
  | VNum _ =>
      raise (Exn AttributeError (lit "'int' object has no attribute 'strip'"))
  end.

(** [add_cover_art], lines 164-188. *)
Definition add_cover_art (thumbnail_url : value) : M unit :=
  try_except
    (call (HttpGet thumbnail_url);;
     status ← reply http_status;
     if (status =? 200)%Z then
       call HttpRead;;
       cover_data ← reply http_body;
       call (TagAdd (APIC (lit "image/jpeg") 3 (lit "Cover") cover_data))
     else ret tt)
    (fun _ => ret tt).

Fixpoint resize (name : pystr) (size : N) (entries : list (pystr * N))
  : list (pystr * N) :=
  match entries with
  | [] => []
  | (n, s) :: rest =>
      if bool_decide (n = name) then (n, size) :: rest
      else (n, s) :: resize name size rest
  end.

(** [audio.save()]: the tags are written into the file, which changes its
    size. *)
Definition save (filepath : pystr) : M unit :=
  call (TagSave filepath);;
  size ← reply saved_size;
  modify_fs (alter (resize (basename filepath) size) (dirname filepath)).

(** [add_metadata_to_mp3], lines 114-161. *)
Definition add_metadata_to_mp3 (filepath : pystr) (track_info : dict) : M bool :=
  try_except
    (present ← os_path_exists filepath;
     if negb present then ret false
     else
       has_tags ← try_except
                    (call (Mp3Open filepath true);;
                     reply mp3_has_tags)
                    (fun _ =>
                       call (Mp3Open filepath false);;
                       call (AddTags true);;
                       ret true);
       (if has_tags then ret tt else call (AddTags false));;
       title ← value_strip (get track_info "title" (VStr []));
       uploader ← value_strip (get track_info "uploader" (VStr []));
       artist ← (if nonempty uploader then ret uploader
                 else value_strip (get track_info "creator" (VStr [])));
       (if nonempty title then call (TagAdd (TIT2 title)) else ret tt);;
       (if nonempty artist then call (TagAdd (TPE1 artist)) else ret tt);;
       let genre := get track_info "genre" (VStr []) in
       (if truthy genre then call (TagAdd (TALB genre)) else ret tt);;
       let thumbnail := get track_info "thumbnail" VNone in
       (if truthy thumbnail then add_cover_art thumbnail else ret tt);;
       save filepath;;
       ret true)
    (fun _ => ret false).

(** [download_without_conversion], lines 265-293. *)
Definition download_without_conversion (url dest_folder : pystr) : M pystr :=
  let ydl_opts :=
    YdlOpts (lit "bestaudio/best") dest_folder (lit "%(title)s.%(ext)s")
            false false None in
  try_except
    (reply ← extract_info url ydl_opts;
     let filename := prepare_filename ydl_opts reply in
     add_metadata_to_mp3 filename (info reply);;
     ret filename)
    (fun e =>
       raise (Exn Exception
                  (lit "Error downloading without conversion: " ++ msg e))).

(** *** [os.makedirs]

    Paths are taken as they are spelt, as everywhere on this disk. *)

(** The directories that are there whatever the disk lists: the root and
    the current directory. *)
Definition always_there (p : pystr) : bool :=
  (nonempty p && forallb (N.eqb slash) p) || bool_decide (p = [dot]).

Definition is_file (f : filesystem) (p : pystr) : bool :=
  bool_decide (is_Some (file_size f p)).

(** The [head, tail] of [os.makedirs]: [os.path.split(name)], taken once
    more on the head when the tail is empty. *)
Definition split_last (name : pystr) : pystr * pystr :=
  if nonempty (basename name) then (dirname name, basename name)
  else (dirname (dirname name), basename (dirname name)).

(** The subclasses of [OSError] that [os.mkdir] raises, with the path. *)
Inductive os_error :=
| FileExistsError (p : pystr)
| NotADirectoryError (p : pystr)
| FileNotFoundError (p : pystr).

(** [os.mkdir(name)] *)
Definition mkdir (name : pystr) (f : filesystem) : os_error + filesystem :=
  let parent := fst (split_last name) in
  if negb (nonempty name) then inl (FileNotFoundError name)
  else if path_exists f name || always_there name then inl (FileExistsError name)
  else if is_file f parent then inl (NotADirectoryError name)
  else if nonempty parent && negb (is_dir f parent || always_there parent)
  then inl (FileNotFoundError name)
  else inr (<[name := []]> f).

(** The body of [os.makedirs(name, exist_ok=True)]: the missing parents
    first, then the directory; an [OSError] of the last [mkdir] is
    swallowed when the directory is there.  The head is shorter than the
    name, so that [length name] steps are enough. *)
Fixpoint makedirs_from (fuel : nat) (name : pystr) (f : filesystem)
  : os_error + filesystem :=
  let '(head, tail) := split_last name in
  let make (f' : filesystem) :=
    match mkdir name f' with
    | inl e => if is_dir f' name || always_there name then inr f' else inl e
    | inr f'' => inr f''
    end in
  if nonempty head && nonempty tail
     && negb (path_exists f head || always_there head)
  then
    match fuel with
    | O => make f
    | S fuel' =>
        match makedirs_from fuel' head f with
        | inl (FileExistsError _) =>
            if bool_decide (tail = [dot]) then inr f else make f
        | inl e => inl e
        | inr f' => if bool_decide (tail = [dot]) then inr f' else make f'
        end
    end
  else make f.

(** One code point of [repr(s)] between the quotes [quote]. *)
Definition hex_digit (n : N) : N := if n <? 10 then 48 + n else 87 + n.

Definition repr_cp (quote c : N) : pystr :=
  if (c =? quote) || (c =? 92) then [92; c]
  else if c =? 9 then [92; 116]
  else if c =? 10 then [92; 110]
  else if c =? 13 then [92; 114]
  else if (c <? 32) || ((127 <=? c) && (c <=? 160)) || (c =? 173)
  then [92; 120; hex_digit (c / 16); hex_digit (c mod 16)]
  else [c].

(** [repr(s)] of a [str].  Code points from 256 on are shown as they
    are: the paths of the program are ASCII, and which of the others
    Python escapes depends on the Unicode tables of the interpreter. *)
Definition py_repr (s : pystr) : pystr :=
  let quote :=
    if existsb (N.eqb 39) s && negb (existsb (N.eqb 34) s) then 34 else 39 in
  [quote] ++ concat (map (repr_cp quote) s) ++ [quote].

(** [str(e)] of these errors on a POSIX host. *)
Definition os_error_text (e : os_error) : pystr :=
  match e with
  | FileExistsError p => lit "[Errno 17] File exists: " ++ py_repr p
  | NotADirectoryError p => lit "[Errno 20] Not a directory: " ++ py_repr p
  | FileNotFoundError p =>
      lit "[Errno 2] No such file or directory: " ++ py_repr p
  end.

(** [os.makedirs(d, exist_ok=True)].  A directory that is there is left
    as it is, and so are its parents, listed on the disk or not; otherwise
    the directory is made with every parent that is missing, and a regular
    file in the way makes the call raise before anything is made. *)
Definition makedirs (d : pystr) : M unit :=
  fun st =>
    if is_dir (fs st) d then (Ok tt, st)
    else
      match makedirs_from (length d) d (fs st) with
      | inr f => (Ok tt, State (log st) f)
      | inl e => (Raise (Exn OSError (os_error_text e)), st)
      end.

Definition media_extensions : list pystr :=
  [lit ".mp3"; lit ".m4a"; lit ".webm"; lit ".mp4"].

(** [download_soundcloud], lines 201-262. *)
Definition download_soundcloud (url dest_folder : pystr) : M pystr :=
  try_except
    (makedirs dest_folder;;
     ffmpeg_path ← get_ffmpeg_path;
     result ← run_yt_dlp url dest_folder (lit "%(title)s.%(ext)s");
     if negb (success result) then
       match error result with
       | Some err =>
           if contains (lit "ffmpeg") (lower err)
           then download_without_conversion url dest_folder
           else raise (Exn Exception (lit "yt-dlp error: " ++ err))
       | None =>
           raise (Exn AttributeError
                      (lit "'NoneType' object has no attribute 'lower'"))
       end
     else
       match filename result with
       | Some predicted =>
           if negb (nonempty predicted)
           then raise (Exn Exception (lit "Filename not returned"))
           else
             present ← os_path_exists predicted;
             final ← (if present then ret predicted
                      else
                        files_in_dir ← os_listdir dest_folder;
                        match find (endswith_any media_extensions) files_in_dir with
                        | Some file => ret (join dest_folder file)
                        | None => raise (Exn Exception (lit "File was not created"))
                        end);
             match result_info result with
             | Some track_info =>
                 if bool_decide (track_info ≠ ∅)
                 then add_metadata_to_mp3 final track_info;; ret final
                 else ret final
             | None => ret final
             end
       | None => raise (Exn Exception (lit "Filename not returned"))
       end)
    (fun e =>
       match kind e with
       | ImportError =>
           raise (Exn Exception
                      (lit "yt-dlp not installed. Install: pip install yt-dlp"))
       | _ =>
           raise (Exn Exception
                      (lit "Error downloading from SoundCloud: " ++ msg e))
       end).

(** A pattern of [is_soundcloud_url]: literal characters and [c?]. *)
Inductive re_item :=
| Lit (c : N)
| Opt (c : N).

(** One pattern character against one input character under
    [re.IGNORECASE]; U+017F is the long s, which matches [s]. *)
Definition ci_eq (c x : N) : bool :=
  (lower_cp x =? lower_cp c) || ((lower_cp c =? 115) && (x =? 383)).

(** [re.match(pattern, s, re.IGNORECASE)] succeeds. *)
Fixpoint re_match (pattern : list re_item) (s : pystr) : bool :=
  match pattern with
  | [] => true
  | Lit c :: pattern' =>
      match s with
      | x :: s' => ci_eq c x && re_match pattern' s'
      | [] => false
      end
  | Opt c :: pattern' =>
      match s with
      | x :: s' => ci_eq c x && re_match pattern' s'
      | [] => false
      end || re_match pattern' s
  end.

Definition https_host (host : string) : list re_item :=
  (Lit <$> lit "http") ++ [Opt 115] ++ (Lit <$> lit "://")
  ++ (Lit <$> lit host) ++ [Lit slash].

(** [is_soundcloud_url], lines 296-310. *)
Definition is_soundcloud_url (url : pystr) : bool :=
  let patterns :=
    [https_host "soundcloud.com"; https_host "on.soundcloud.com";
     https_host "m.soundcloud.com"] in
  existsb (fun pattern => re_match pattern url) patterns.

(** [send_audio_to_telegram], lines 324-343 (the default caption). *)
Definition send_audio_to_telegram (chat_id : Z) (file_path : pystr) : M unit :=
  try_except (call (SendAudio chat_id file_path [])) (fun e => raise e).

(** *** downloaders/tiktok.py *)

(** [download_tiktok], lines 17-68.  The size and the info fields the
    source reads after the download only go to the log file. *)
Definition download_tiktok (url dest_folder : pystr) : M pystr :=
  try_except
    (let download_opts := YTDL_OPTS dest_folder in
     video_info ← extract_info url download_opts;
     let filename := prepare_filename download_opts video_info in
     ret filename)
    (fun e => raise e).

(** *** downloaders/youtube.py *)

(** [download_youtube], lines 17-62, the same wrapper as for TikTok. *)
Definition download_youtube (url dest_folder : pystr) : M pystr :=
  try_except
    (let ydl_opts := YTDL_OPTS dest_folder in
     video_info ← extract_info url ydl_opts;
     let filename := prepare_filename ydl_opts video_info in
     ret filename)
    (fun e => raise e).

(** *** main.py *)

Definition nl : pystr := [10].

(** [update_progress_message], lines 38-64. *)
Definition update_progress_message (chat_id : Z) (text : pystr)
    (message_id : option Z) : M Z :=
  let progress_text := progress_text text in
  let send_new :=
    call (SendMessage chat_id progress_text);;
    reply sent_id in
  match message_id with
  | Some id =>
      if (id =? 0)%Z then send_new
      else try_except
             (call (EditMessageText chat_id id progress_text);; ret id)
             (fun _ => send_new)
  | None => send_new
  end.

Definition success_messages : list (pystr * pystr) :=
  [(lit "tiktok", [127925] ++ lit " *TikTok video successfully downloaded!*");
   (lit "youtube", [127909] ++ lit " *YouTube video downloaded!*");
   (lit "soundcloud", [127911] ++ lit " *SoundCloud track ready!*")].

(** [success_messages.get(platform, default)] *)
Fixpoint assoc_get (table : list (pystr * pystr)) (key default : pystr) : pystr :=
  match table with
  | [] => default
  | (k, v) :: rest => if bool_decide (k = key) then v else assoc_get rest key default
  end.

Definition success_text (platform filename : pystr) : pystr :=
  assoc_get success_messages platform ([9989] ++ lit " *File is ready!*")
  ++ nl ++ nl ++ [128193] ++ lit " *" ++ filename ++ lit "*".

(** [send_success_message], lines 67-83. *)
Definition send_success_message (chat_id : Z) (platform filename : pystr) : M unit :=
  call (SendMessage chat_id (success_text platform filename)).

(** [choose_downloader], lines 86-105. *)
Definition choose_downloader (url dest_folder : pystr) (chat_id progress_msg_id : Z)
  : M (pystr * pystr) :=
  if contains (lit "tiktok.com") url || contains (lit "vm.tiktok.com") url then
    update_progress_message chat_id (lit "Downloading from TikTok...")
                            (Some progress_msg_id);;
    file_path ← download_tiktok url dest_folder;
    ret (file_path, lit "tiktok")
  else if contains (lit "youtube.com") url || contains (lit "youtu.be") url then
    update_progress_message chat_id (lit "Downloading from YouTube...")
                            (Some progress_msg_id);;
    file_path ← download_youtube url dest_folder;
    ret (file_path, lit "youtube")
  else if contains (lit "soundcloud.com") url then
    update_progress_message chat_id (lit "Downloading from SoundCloud...")
                            (Some progress_msg_id);;
    file_path ← download_soundcloud url dest_folder;
    ret (file_path, lit "soundcloud")
  else
    raise (Exn ValueError (lit "Unsupported source: " ++ url)).

(** [tempfile.mkdtemp]: the first candidate name that does not exist. *)
Definition mkdtemp : M pystr :=
  fun st =>
    match fails E (log st) MkDtemp with
    | Some x => (Raise x, State (MkDtemp :: log st) (fs st))
    | None =>
        match find (fun c => negb (path_exists (fs st) c))
                   (tmp_candidates E (log st)) with
        | Some d => (Ok d, State (MkDtemp :: log st) (<[d := []]> (fs st)))
        | None =>
            (Raise (Exn OSError
                        (lit "No usable temporary directory name found")),
             State (MkDtemp :: log st) (fs st))
        end
    end.

(** [shutil.rmtree(d)]: the directory and everything below it. *)
Definition rmtree (d : pystr) (f : filesystem) : filesystem :=
  filter (fun entry => fst entry ≠ d ∧ startswith (d ++ [slash]) (fst entry) = false) f.

(** [with tempfile.TemporaryDirectory() as tmpdir: body]: the directory is
    removed when the block is left, by its end, a [return] or an
    exception. *)
Definition with_TemporaryDirectory {A} (body : pystr -> M A) : M A :=
  tmpdir ← mkdtemp;
  fun st =>
    let (outcome, st') := body tmpdir st in
    (outcome, State (log st') (rmtree tmpdir (fs st'))).

Definition MAX_SIZE : N := 49 * 1024 * 1024.

Definition oversize_text : pystr :=
  [10060] ++ lit " File is too large for Telegram (maximum 50MB)".

(** [os.path.getsize(p)] *)
Definition os_path_getsize (p : pystr) : M N :=
  fun st =>
    match file_size (fs st) p with
    | Some n => (Ok n, st)
    | None => (Raise (Exn OSError (lit "No such file or directory")), st)
    end.

(** Lines 297-337 of [handle_link]: what the handler does with the path
    the download returned. *)
Definition relay_file (chat_id progress_msg_id : Z) (file_path platform : pystr)
  : M unit :=
  present ← os_path_exists file_path;
  if negb present then
    update_progress_message chat_id ([10060] ++ lit " File not found")
                            (Some progress_msg_id);;
    ret tt
  else
    filesize ← os_path_getsize file_path;
    let file_extension := lower (splitext_ext file_path) in
    let filename := basename file_path in
    try_except
      (if filesize <=? MAX_SIZE then
         call (DeleteMessage chat_id progress_msg_id);;
         (if bool_decide (file_extension = lit ".mp3")
          then send_audio_to_telegram chat_id file_path
          else call (AnswerVideo chat_id file_path));;
         send_success_message chat_id platform filename
       else
         update_progress_message chat_id oversize_text (Some progress_msg_id);;
         ret tt)
      (fun e =>
         update_progress_message chat_id
           ([10060] ++ lit " *Sending error:* " ++ msg e) (Some progress_msg_id);;
         ret tt).

Record message := Message {
  text : option pystr;
  chat_id : Z
}.

Definition invalid_link_text : pystr :=
  [10060] ++ lit " *Please send a valid link.*" ++ nl ++ nl
  ++ lit "Examples:" ++ nl
  ++ [8226] ++ lit " https://vm.tiktok.com/..." ++ nl
  ++ [8226] ++ lit " https://youtu.be/..." ++ nl
  ++ [8226] ++ lit " https://soundcloud.com/...".

(** [handle_link], lines 259-337. *)
Definition handle_link (m : message) : M unit :=
  match text m with
  | None =>
      raise (Exn AttributeError
                 (lit "'NoneType' object has no attribute 'strip'"))
  | Some t =>
      let url := strip t in
      if negb (startswith_any [lit "http://"; lit "https://"] url) then
        call (Answer (chat_id m) invalid_link_text)
      else
        progress_msg_id ← update_progress_message (chat_id m)
                            (lit "Checking link...") None;
        with_TemporaryDirectory (fun tmpdir =>
          downloaded ← try_except
            (got ← choose_downloader url tmpdir (chat_id m) progress_msg_id;
             update_progress_message (chat_id m) (lit "Sending file...")
                                     (Some progress_msg_id);;
             ret (Some got))
            (fun e =>
               update_progress_message (chat_id m)
                 ([10060] ++ lit " *Error:* " ++ msg e) (Some progress_msg_id);;
               ret None);
          match downloaded with
          | Some (file_path, platform) =>
              relay_file (chat_id m) progress_msg_id file_path platform
          | None => ret tt
          end)
  end.

End Program.

(** ** The specification's vocabulary *)

Module Spec.

(** [needle] occurs somewhere in [hay]. *)
Definition occurs_in (needle hay : pystr) : Prop :=
  ∃ before after, hay = before ++ needle ++ after.

(** The platform kinds of the Platform Detector; [None] is Unsupported. *)
Inductive platform_kind :=
| ShortVideo
| Video
| Audio.

(** The text after the first ["://"], if there is one. *)
Fixpoint after_scheme (s : pystr) : option pystr :=
  if startswith (lit "://") s then Some (drop 3 s)
  else match s with
       | [] => None
       | _ :: t => after_scheme t
       end.

Fixpoint upto_delimiter (s : pystr) : pystr :=
  match s with
  | [] => []
  | c :: t =>
      if (c =? slash) || (c =? 63) || (c =? 35) then []
      else c :: upto_delimiter t
  end.

(** The host component of a URL: what follows the scheme, up to the first
    [/], [?] or [#]. *)
Definition host_of (url : pystr) : pystr :=
  upto_delimiter (default url (after_scheme url)).

(** Detection as the specification words it: on the host, and in any
    letter case for the audio platform. *)
Definition detect_by_host (url : pystr) : option platform_kind :=
  let host := host_of url in
  if contains (lit "tiktok.com") host || contains (lit "vm.tiktok.com") host
  then Some ShortVideo
  else if contains (lit "youtube.com") host || contains (lit "youtu.be") host
  then Some Video
  else if contains (lit "soundcloud.com") (lower host)
  then Some Audio
  else None.

(** Detection on the whole URL text, letter case respected, first match
    in the order short video, video, audio. *)
Definition detect_in_url (url : pystr) : option platform_kind :=
  if contains (lit "tiktok.com") url then Some ShortVideo
  else if contains (lit "youtube.com") url || contains (lit "youtu.be") url
  then Some Video
  else if contains (lit "soundcloud.com") url then Some Audio
  else None.

Definition adapter (E : env) (k : platform_kind) : pystr -> pystr -> M pystr :=
  match k with
  | ShortVideo => download_tiktok E
  | Video => download_youtube E
  | Audio => download_soundcloud E
  end.

Definition label (k : platform_kind) : pystr :=
  match k with
  | ShortVideo => lit "tiktok"
  | Video => lit "youtube"
  | Audio => lit "soundcloud"
  end.

Definition notice (k : platform_kind) : pystr :=
  match k with
  | ShortVideo => lit "Downloading from TikTok..."
  | Video => lit "Downloading from YouTube..."
  | Audio => lit "Downloading from SoundCloud..."
  end.

(** Routing a URL to the adapter of a platform kind, or to the
    unsupported-source failure. *)
Definition route (E : env) (k : option platform_kind) (url dest_folder : pystr)
    (chat_id progress_msg_id : Z) : M (pystr * pystr) :=
  match k with
  | Some k =>
      update_progress_message E chat_id (notice k) (Some progress_msg_id);;
      file_path ← adapter E k url dest_folder;
      ret (file_path, label k)
  | None => raise (Exn ValueError (lit "Unsupported source: " ++ url))
  end.

(** A message in the form of a progress notice. *)
Definition is_progress_notice (ev : event) : bool :=
  match ev with
  | EditMessageText _ _ t | SendMessage _ t => startswith [128260] t
  | _ => false
  end.

(** The notice that takes the place of the progress message: an edit of
    it, or a new message when there is no message id. *)
Definition notice_call (chat_id progress_msg_id : Z) (t : pystr) : event :=
  if (progress_msg_id =? 0)%Z then SendMessage chat_id (progress_text t)
  else EditMessageText chat_id progress_msg_id (progress_text t).

(** The upload of the relay step: an audio attachment for an [.mp3] file
    (in any letter case), a video attachment for every other file. *)
Definition upload_call (chat_id : Z) (file_path : pystr) : event :=
  if bool_decide (lower (splitext_ext file_path) = lit ".mp3")
  then SendAudio chat_id file_path []
  else AnswerVideo chat_id file_path.

(** The three calls of the relay step, in order. *)
Definition relay_steps (chat_id progress_msg_id : Z) (file_path platform : pystr)
  : list event :=
  [DeleteMessage chat_id progress_msg_id;
   upload_call chat_id file_path;
   SendMessage chat_id (success_text platform (basename file_path))].

(** The answer to an oversize file: progress notices only, the first of
    them the size text on the progress message, and no change on disk. *)
Definition rejected_as_oversize (chat_id progress_msg_id : Z) (st st' : state)
  : Prop :=
  Forall (fun ev => is_progress_notice ev = true) (events_since st st')
  ∧ hd_error (events_since st st')
    = Some (notice_call chat_id progress_msg_id oversize_text)
  ∧ fs st' = fs st.

Definition is_mkdtemp (ev : event) : bool :=
  match ev with MkDtemp => true | _ => false end.

Definition is_extraction (ev : event) : bool :=
  match ev with ExtractInfo _ _ => true | _ => false end.

(** [st'] comes after [st] by calls that all satisfy [P] and, when [d]
    is a directory, by changes on disk that keep it and create no
    directory. *)
Definition inside (P : event -> Prop) (d : pystr) (st st' : state) : Prop :=
  (is_dir (fs st) d = true →
   is_dir (fs st') d = true
   ∧ ∀ k, is_Some (fs st' !! k) → is_Some (fs st !! k))
  ∧ ∃ new, log st' = new ++ log st ∧ Forall P new.

(** A program that stays [inside] from every state, however it ends. *)
Definition stays_inside (P : event -> Prop) (d : pystr) {A} (m : M A) : Prop :=
  ∀ st, inside P d st (snd (m st)).

(** The contract of the fallback scan on the disk [f]: with the predicted
    path missing, the outcome is the first file of the destination directory
    that has a known media extension, and a failure only if there is none. *)
Definition scan_contract (f : filesystem) (dest_folder predicted : pystr)
    (outcome : result pystr) : Prop :=
  path_exists f predicted = false →
  match find (endswith_any media_extensions) (listdir f dest_folder) with
  | Some file => outcome = Ok (join dest_folder file)
  | None => ∃ e, outcome = Raise e
  end.

(** How many times the extraction engine was invoked. *)
Definition extraction_count (l : list event) : nat :=
  length (List.filter is_extraction l).

(** The outcome of the fallback as the audio adapter hands it on: the
    file path as it is, a failure under the adapter's own heading. *)
Definition surfaced (r : result pystr * state) : result pystr * state :=
  match r with
  | (Ok file_path, st) => (Ok file_path, st)
  | (Raise e, st) =>
      (Raise (Exn Exception (lit "Error downloading from SoundCloud: " ++ msg e)),
       st)
  end.

(** The calls of the tagger: neither a download nor a new directory. *)
Definition tagger_call (ev : event) : Prop :=
  is_mkdtemp ev = false ∧ is_extraction ev = false.

(** The calls of the cover-art fetch. *)
Definition cover_call (ev : event) : bool :=
  match ev with
  | HttpGet _ | HttpRead | TagAdd (APIC _ _ _ _) => true
  | _ => false
  end.

(** The calls whose failure the tagger recovers from: the cover-art fetch
    and the first attempt to open the file with its tags. *)
Definition tolerated (ev : event) : Prop :=
  cover_call ev = true ∨ ∃ path, ev = Mp3Open path true.

(** Among [calls], made in this order after the log [before], those that
    raised. *)
Fixpoint raised_calls (E : env) (before calls : list event) : list event :=
  match calls with
  | [] => []
  | ev :: rest =>
      match fails E before ev with
      | Some _ => [ev]
      | None => []
      end ++ raised_calls E (ev :: before) rest
  end.

Definition is_ok {A} (r : result A) : bool :=
  match r with Ok _ => true | Raise _ => false end.

(** A program whose normal return means that no call raised, the
    tolerated ones apart. *)
Definition clean (E : env) {A} (m : M A) : Prop :=
  ∀ st, ∃ new,
    log (snd (m st)) = new ++ log st
    ∧ (is_ok (fst (m st)) = true →
       Forall tolerated (raised_calls E (log st) (rev new))).

(** The text of a field of the metadata record, empty when the field is
    missing. *)
Definition field (d : dict) (k : string) : pystr :=
  match d !! k with
  | Some (VStr s) => s
  | _ => []
  end.

Definition text_or_missing (d : dict) (k : string) : bool :=
  match d !! k with
  | Some (VStr _) | None => true
  | Some _ => false
  end.

(** A metadata record is well formed when its title, uploader and creator,
    where present, are text. *)
Definition text_fields_ok (d : dict) : bool :=
  text_or_missing d "title" && text_or_missing d "uploader"
  && text_or_missing d "creator".

Definition spec_title (d : dict) : pystr := strip (field d "title").

(** The uploader if it is not empty after trimming, the creator
    otherwise. *)
Definition spec_artist (d : dict) : pystr :=
  if nonempty (strip (field d "uploader")) then strip (field d "uploader")
  else strip (field d "creator").

(** The frames the write rules ask for, in the order title, artist,
    album. *)
Definition spec_frames (d : dict) : list frame :=
  (if nonempty (spec_title d) then [TIT2 (spec_title d)] else [])
  ++ (if nonempty (spec_artist d) then [TPE1 (spec_artist d)] else [])
  ++ match d !! "genre"%string with
     | Some genre => if truthy genre then [TALB genre] else []
     | None => []
     end.


(** The calls that open the file: with its tags, and to add a tag
    container when the file has none. *)
Definition opening_calls (E : env) (filepath : pystr) (st : state) : list event :=
  (if mp3_has_tags E (Mp3Open filepath true :: log st) then []
   else [AddTags false])
  ++ [Mp3Open filepath true].

(** How many temporary directories were asked for. *)
Definition mkdtemp_count (l : list event) : nat :=
  length (List.filter is_mkdtemp l).

(** The calls made while a temporary directory is in use. *)
Definition no_mkdtemp (ev : event) : Prop := is_mkdtemp ev = false.

End Spec.
Export Spec.

(** ** Concrete environments *)

Module Scenario.

(** Every collaborator succeeds; the engine leaves [files] and predicts
    [name]; [path] is where the converter is on the search path. *)
Definition quiet_env (name : pystr) (files : list (pystr * N))
    (record : dict) (path : option pystr) : env :=
  Env (fun _ _ => None) (fun _ => 7%Z) (fun _ => [lit "/tmp/tmpa1"])
      (fun _ => YdlReply record name) (fun _ => files)
      (fun _ => true) (fun _ => 4096) (fun _ => 200%Z) (fun _ => [255; 216])
      (fun _ => path) false (lit "/app/tools").

Definition no_log (f : filesystem) : state := State [] f.

Definition tmp : pystr := lit "/tmp/tmpa1".

(** A working environment with nothing on disk. *)
Definition plain_env : env := quiet_env (lit "a.mp4") [] ∅ None.

Definition capitals_url : pystr := lit "https://SoundCloud.com/artist/track".
Definition query_url : pystr := lit "https://example.org/?next=tiktok.com".
Definition mixed_url : pystr :=
  lit "https://www.youtube.com/redirect?q=https://vm.tiktok.com/ZM2jp5x8E/".
Definition short_link : pystr := lit "https://vm.tiktok.com/ZM2jp5x8E/".
Definition track_url : pystr := lit "https://soundcloud.com/likewaterofficial/likewater".

(** The converter is on the search path. *)
Definition search_path_env : env :=
  quiet_env (lit "a.mp3") [] ∅ (Some (lit "/usr/bin/ffmpeg")).
Definition no_tools : state := no_log ∅.
Definition empty_tools : state := no_log {[ lit "/app/tools" := [] ]}.

(** The engine predicts [7301.mp4] and leaves [7301.webm]. *)
Definition renamed_env : env :=
  quiet_env (lit "7301.mp4") [(lit "7301.webm", 1000)] ∅ None.
Definition empty_tmp : state := no_log {[ tmp := [] ]}.

(** The engine leaves a video one byte above the threshold. *)
Definition big_download_env : env :=
  quiet_env (lit "7301.mp4") [(lit "7301.mp4", 49 * 1024 * 1024 + 1)] ∅ None.

(** A download one byte above the threshold, and one well below it. *)
Definition big_file : state :=
  no_log {[ tmp := [(lit "big.mp4", 49 * 1024 * 1024 + 1)] ]}.
Definition small_file : state :=
  no_log {[ tmp := [(lit "Song.MP3", 4000000)] ]}.

Definition song : dict :=
  {[ "title"%string := VStr (lit " Like Water ");
     "uploader"%string := VStr (lit "  ");
     "creator"%string := VStr (lit "likewater");
     "thumbnail"%string := VStr (lit "https://i1.sndcdn.com/artworks.jpg") ]}.

(** The engine predicts [Like Water.webm] and leaves [Like Water.m4a]. *)
Definition converted_env : env :=
  quiet_env (lit "Like Water.webm") [(lit "Like Water.m4a", 4000000)] song None.

(** The primary options fail on the converter, the plain ones work. *)
Definition no_converter_env : env :=
  Env (fun _ ev =>
         match ev with
         | ExtractInfo _ opts =>
             if extract_audio_mp3 opts
             then Some (Exn Exception
                            (lit "ERROR: Postprocessing: ffprobe and ffmpeg not found"))
             else None
         | _ => None
         end)
      (fun _ => 7%Z) (fun _ => [tmp])
      (fun _ => YdlReply song (lit "Like Water.m4a"))
      (fun _ => [(lit "Like Water.m4a", 4000000)])
      (fun _ => false) (fun _ => 4096) (fun _ => 200%Z) (fun _ => [255; 216])
      (fun _ => None) false (lit "/app/tools").

(** Every call of the cover-art fetch fails, the others work. *)
Definition no_network_env : env :=
  Env (fun _ ev =>
         if cover_call ev then Some (Exn Exception (lit "Cannot connect to host"))
         else None)
      (fun _ => 7%Z) (fun _ => [tmp])
      (fun _ => YdlReply song (lit "Song.MP3")) (fun _ => [])
      (fun _ => false) (fun _ => 4096) (fun _ => 200%Z) (fun _ => [])
      (fun _ => None) false (lit "/app/tools").

End Scenario.
Export Scenario.

(** ** The rest of the program *)

Module Rest.

(** The characters [sanitize_filename] deletes: the angle brackets, the
    colon, the double quote, both slashes, the bar, the question mark and
    the star. *)
Definition forbidden : list N := [60; 62; 58; 34; 47; 92; 124; 63; 42].

Definition is_forbidden (c : N) : bool := existsb (N.eqb c) forbidden.

(** [sanitize_filename], soundcloud.py lines 191-198. *)
Definition sanitize_filename (filename : pystr) : pystr :=
  let cleaned := List.filter (fun c => negb (is_forbidden c)) filename in
  let cleaned := map (fun c => if c =? 32 then 95 else c) cleaned in
  take 100 cleaned.

(** [check_ffmpeg_availability], soundcloud.py lines 313-321. *)
Definition check_ffmpeg_availability (E : env) : M bool :=
  ffmpeg_path ← get_ffmpeg_path E;
  gets (fun st =>
          match ffmpeg_path with
          | Some p => path_exists (fs st) p
          | None => false
          end).

(** A name that needs no cleaning. *)
Definition clean_name (s : pystr) : Prop :=
  Forall (fun c => is_forbidden c = false ∧ c ≠ 32) s ∧ (length s ≤ 100)%nat.

(** Letter case as [re.IGNORECASE] sees it on the patterns of
    [is_soundcloud_url]: capitals become small letters and the long s
    becomes [s]. *)
Definition fold_cp (c : N) : N := if c =? 383 then 115 else lower_cp c.

Definition fold (s : pystr) : pystr := map fold_cp s.

(** The six beginnings [is_soundcloud_url] looks for. *)
Definition soundcloud_prefixes : list pystr :=
  [lit "https://soundcloud.com/"; lit "http://soundcloud.com/";
   lit "https://on.soundcloud.com/"; lit "http://on.soundcloud.com/";
   lit "https://m.soundcloud.com/"; lit "http://m.soundcloud.com/"].

(** A pattern character that stands for itself under [fold_cp]. *)
Definition plain (c : N) : bool := (lower_cp c =? c) && negb (c =? 383).

(** The block of [handle_link] under [with TemporaryDirectory()], lines
    286-337, for the link [url] of chat [chat_id]. *)
Definition request_body (E : env) (url : pystr) (chat_id progress_msg_id : Z)
    (tmpdir : pystr) : M unit :=
  downloaded ← try_except
    (got ← choose_downloader E url tmpdir chat_id progress_msg_id;
     update_progress_message E chat_id (lit "Sending file...")
                             (Some progress_msg_id);;
     ret (Some got))
    (fun e =>
       update_progress_message E chat_id
         ([10060] ++ lit " *Error:* " ++ msg e) (Some progress_msg_id);;
       ret None);
  match downloaded with
  | Some (file_path, platform) =>
      relay_file E chat_id progress_msg_id file_path platform
  | None => ret tt
  end.

(** A call that belongs to the request of chat [chat_id] with progress
    message [progress_msg_id] and working directory [d]: messages go to
    this chat, edits and deletions to this progress message, downloads
    into this directory, and no further directory is asked for. *)
Definition own_call (chat_id progress_msg_id : Z) (d : pystr) (ev : event) : Prop :=
  match ev with
  | EditMessageText c i _ | DeleteMessage c i =>
      c = chat_id ∧ i = progress_msg_id
  | SendMessage c _ | SendAudio c _ _ | AnswerVideo c _ | Answer c _ =>
      c = chat_id
  | ExtractInfo _ opts => out_dir opts = d
  | MkDtemp => False
  | _ => True
  end.

(** The calls of an adapter: the extraction engine on [url] into [d], the
    tag library and the cover-art fetch; never the messaging API. *)
Definition adapter_call (url d : pystr) (ev : event) : Prop :=
  match ev with
  | ExtractInfo u opts => u = url ∧ out_dir opts = d
  | Mp3Open _ _ | AddTags _ | TagAdd _ | TagSave _ | HttpGet _ | HttpRead => True
  | _ => False
  end.

(** The calls of the download stage: those of an adapter, and progress
    notices of the request. *)
Definition download_call (url : pystr) (chat_id progress_msg_id : Z) (d : pystr)
    (ev : event) : Prop :=
  adapter_call url d ev
  ∨ (is_progress_notice ev = true ∧ own_call chat_id progress_msg_id d ev).

Definition is_upload (ev : event) : bool :=
  match ev with
  | SendAudio _ _ _ | AnswerVideo _ _ => true
  | _ => false
  end.

Definition upload_count (l : list event) : nat :=
  length (List.filter is_upload l).

(** The first message of a request and the id the messaging API gives
    it. *)
Definition checking_call (chat_id : Z) : event :=
  SendMessage chat_id (progress_text (lit "Checking link...")).

Definition first_id (E : env) (chat_id : Z) (st : state) : Z :=
  sent_id E (checking_call chat_id :: log st).

(** The state in which the handler asks for its temporary directory. *)
Definition after_checking (chat_id : Z) (st : state) : state :=
  State (checking_call chat_id :: log st) (fs st).

(** The name of a platform as the buttons and messages spell it. *)
Definition platform_name (k : platform_kind) : pystr :=
  match k with
  | ShortVideo => lit "TikTok"
  | Video => lit "YouTube"
  | Audio => lit "SoundCloud"
  end.

End Rest.
Export Rest.

(** ** main.py: the start and help screens *)

Module FrontEnd.

(** An inline keyboard button: a link to open or data to call back
    with. *)
Record button := Button {
  caption : pystr;
  link : option pystr;
  callback_data : option pystr
}.

(** The rows of an inline keyboard. *)
Abbreviation keyboard := (list (list button)).

(** [get_start_keyboard], lines 108-133. *)
Definition get_start_keyboard : keyboard :=
  [[Button ([127916] ++ lit " TikTok Example")
           (Some (lit "https://vm.tiktok.com/ZM2jp5x8E/")) None];
   [Button ([127909] ++ lit " YouTube Example")
           (Some (lit "https://youtu.be/dQw4w9WgXcQ")) None;
    Button ([127925] ++ lit " SoundCloud Example")
           (Some (lit "https://soundcloud.com/likewaterofficial/likewater")) None];
   [Button ([128161] ++ lit " How to Use") None (Some (lit "help"))]].

(** [get_help_keyboard], lines 136-145. *)
Definition get_help_keyboard : keyboard :=
  [[Button ([128281] ++ lit " Back") None (Some (lit "back_to_start"))]].

(** The texts of the four screens, as the source spells them. *)
Definition start_text : pystr :=
  [10024] ++ lit " *Welcome to Downloader Bot!*" ++ nl ++ nl
  ++ [127919] ++ lit " *I can help you download content from popular platforms:*" ++ nl ++ nl
  ++ [8226] ++ lit " " ++ [127925] ++ lit " *TikTok* " ++ [8212] ++ lit " videos and music" ++ nl
  ++ [8226] ++ lit " " ++ [127909] ++ lit " *YouTube* " ++ [8212] ++ lit " videos and Shorts" ++ nl
  ++ [8226] ++ lit " " ++ [127911] ++ lit " *SoundCloud* " ++ [8212] ++ lit " tracks and podcasts" ++ nl ++ nl
  ++ [128229] ++ lit " *Just send me a link* to the content you want," ++ nl
  ++ lit "and I'll process it quickly!" ++ nl ++ nl
  ++ [128071] ++ lit " *Examples of supported links:*".

Definition usage_text : pystr :=
  [128214] ++ lit " *Usage Instructions:*" ++ nl ++ nl
  ++ lit "1. *Copy the link:*" ++ nl
  ++ lit "   " ++ [8226] ++ lit " TikTok " ++ [8594] ++ lit " " ++ [34] ++ lit "Share" ++ [34] ++ lit " " ++ [8594] ++ lit " " ++ [34] ++ lit "Copy link" ++ [34] ++ nl
  ++ lit "   " ++ [8226] ++ lit " YouTube " ++ [8594] ++ lit " from address bar" ++ nl
  ++ lit "   " ++ [8226] ++ lit " SoundCloud " ++ [8594] ++ lit " from address bar" ++ nl ++ nl
  ++ lit "2. *Send the link* to me in chat" ++ nl
  ++ lit "3. *Wait for processing* " ++ [8212] ++ lit " I'll download the file" ++ nl
  ++ lit "4. *Receive the ready file!*" ++ nl ++ nl
  ++ [9889] ++ lit " *Fast, simple, convenient!*".

Definition back_text : pystr :=
  [10024] ++ lit " *Welcome to MediaDownloader Bot!*" ++ nl ++ nl
  ++ [127919] ++ lit " *I can help you download content from popular platforms:*" ++ nl ++ nl
  ++ [8226] ++ lit " " ++ [127925] ++ lit " *TikTok* " ++ [8212] ++ lit " videos and music" ++ nl
  ++ [8226] ++ lit " " ++ [127909] ++ lit " *YouTube* " ++ [8212] ++ lit " videos and Shorts" ++ nl
  ++ [8226] ++ lit " " ++ [127911] ++ lit " *SoundCloud* " ++ [8212] ++ lit " tracks and podcasts" ++ nl ++ nl
  ++ [128229] ++ lit " *Just send me a link* to the content you want," ++ nl
  ++ lit "and I'll process it quickly!" ++ nl ++ nl
  ++ [128071] ++ lit " *Examples of supported links:*".

Definition help_command_text : pystr :=
  [129302] ++ lit " *MediaDownloader Bot - Help*" ++ nl ++ nl
  ++ [128229] ++ lit " *Supported platforms:*" ++ nl
  ++ [8226] ++ lit " TikTok - videos" ++ nl
  ++ [8226] ++ lit " YouTube - videos, Shorts" ++ nl
  ++ [8226] ++ lit " SoundCloud - music" ++ nl ++ nl
  ++ [128640] ++ lit " *How to use:*" ++ nl
  ++ lit "1. Copy a link from the desired platform" ++ nl
  ++ lit "2. Send the link to the bot" ++ nl
  ++ lit "3. Get the ready file!" ++ nl ++ nl
  ++ [9889] ++ lit " *The bot is free and works 24/7*".

(** The calls of the screens to the messaging API. *)
Inductive ui_call :=
| MessageAnswer (chat_id : Z) (text : pystr) (reply_markup : option keyboard)
| EditText (chat_id message_id : Z) (text : pystr) (reply_markup : option keyboard)
| CallbackAnswer (query_id : Z).

(** Programs over the log of these calls (most recent first); the
    environment says which of them raise. *)
Definition UI (A : Type) : Type := list ui_call -> result A * list ui_call.

Definition ui_bind {A B} (m : UI A) (k : A -> UI B) : UI B :=
  fun l =>
    match m l with
    | (Ok a, l') => k a l'
    | (Raise e, l') => (Raise e, l')
    end.

Definition ui_try {A} (m : UI A) (h : exn -> UI A) : UI A :=
  fun l =>
    match m l with
    | (Ok a, l') => (Ok a, l')
    | (Raise e, l') => h e l'
    end.

Definition ui_do (ui_fails : list ui_call -> ui_call -> option exn)
    (c : ui_call) : UI unit :=
  fun l =>
    match ui_fails l c with
    | Some x => (Raise x, c :: l)
    | None => (Ok tt, c :: l)
    end.

(** A callback query: its id, its data, and the message that carries the
    keyboard. *)
Record callback_query := CallbackQuery {
  query_id : Z;
  data : pystr;
  message_chat : Z;
  message_id : Z
}.

Section Screens.

Variable ui_fails : list ui_call -> ui_call -> option exn.

(** [cmd_start], lines 148-168. *)
Definition cmd_start (chat_id : Z) : UI unit :=
  ui_do ui_fails (MessageAnswer chat_id start_text (Some get_start_keyboard)).

(** The shape [process_help] and [process_back] share: edit the message,
    answer with a new one if that fails, acknowledge the query. *)
Definition show_screen (q : callback_query) (text : pystr) (markup : keyboard)
  : UI unit :=
  ui_bind
    (ui_try
       (ui_do ui_fails
          (EditText (message_chat q) (message_id q) text (Some markup)))
       (fun _ =>
          ui_do ui_fails (MessageAnswer (message_chat q) text (Some markup))))
    (fun _ => ui_do ui_fails (CallbackAnswer (query_id q))).

(** [process_help], lines 171-202. *)
Definition process_help (q : callback_query) : UI unit :=
  ui_bind
    (ui_try
       (ui_do ui_fails
          (EditText (message_chat q) (message_id q) usage_text
                    (Some get_help_keyboard)))
       (fun _ =>
          ui_do ui_fails
            (MessageAnswer (message_chat q) usage_text (Some get_help_keyboard))))
    (fun _ => ui_do ui_fails (CallbackAnswer (query_id q))).

(** [process_back], lines 205-235. *)
Definition process_back (q : callback_query) : UI unit :=
  ui_bind
    (ui_try
       (ui_do ui_fails
          (EditText (message_chat q) (message_id q) back_text
                    (Some get_start_keyboard)))
       (fun _ =>
          ui_do ui_fails
            (MessageAnswer (message_chat q) back_text (Some get_start_keyboard))))
    (fun _ => ui_do ui_fails (CallbackAnswer (query_id q))).

(** [cmd_help], lines 238-256. *)
Definition cmd_help (chat_id : Z) : UI unit :=
  ui_do ui_fails (MessageAnswer chat_id help_command_text None).

(** The callback handlers with their filters, in the order the source
    registers them; a query goes to the first handler whose filter
    accepts it. *)
Definition callback_handlers
  : list ((callback_query -> bool) * (callback_query -> UI unit)) :=
  [(fun c => bool_decide (data c = lit "help"), process_help);
   (fun c => bool_decide (data c = lit "back_to_start"), process_back)].

Definition dispatch_callback (q : callback_query) : option (UI unit) :=
  match find (fun h => fst h q) callback_handlers with
  | Some h => Some (snd h q)
  | None => None
  end.

End Screens.

(** The calls made, oldest first. *)
Definition ui_calls {A} (run : result A * list ui_call) : list ui_call :=
  rev (snd run).

(** The keyboard a call puts on the screen. *)
Definition shown_keyboard (c : ui_call) : option keyboard :=
  match c with
  | MessageAnswer _ _ k | EditText _ _ _ k => k
  | CallbackAnswer _ => None
  end.

Definition buttons (k : keyboard) : list button := concat k.

End FrontEnd.
Export FrontEnd.

(** ** Further definitions for the handler and the adapters *)

Module Handler.

(** The temporary directory of a request, if the handler got one. *)
Definition request_dir (E : env) (chat_id : Z) (st : state) : pystr :=
  match fst (mkdtemp E (after_checking chat_id st)) with
  | Ok d => d
  | Raise _ => []
  end.

(** The text the handler puts on the progress message when the download
    stage raised [e]. *)
Definition download_error_text (e : exn) : pystr :=
  [10060] ++ lit " *Error:* " ++ msg e.

(** The calls by which a notice with text [t] can reach the user: the
    edit of the progress message, and a new message if the edit raised. *)
Definition notice_calls (chat_id progress_msg_id : Z) (t : pystr)
    (l : list event) : Prop :=
  l = [notice_call chat_id progress_msg_id t]
  ∨ (progress_msg_id ≠ 0%Z
     ∧ l = [notice_call chat_id progress_msg_id t;
            SendMessage chat_id (progress_text t)]).

(** The handler of the message [m], started in [st], got as far as a
    download that returned: it sent its first notice, got the temporary
    directory [d], and [choose_downloader] returned the path [file_path]
    with the label [platform], leaving the state [st3]. *)
Definition download_returned (E : env) (m : message) (st : state) (d : pystr)
    (st3 : state) (file_path platform : pystr) : Prop :=
  ∃ t st2,
    text m = Some t
    ∧ startswith_any [lit "http://"; lit "https://"] (strip t) = true
    ∧ fails E (log st) (checking_call (chat_id m)) = None
    ∧ mkdtemp E (after_checking (chat_id m) st) = (Ok d, st2)
    ∧ choose_downloader E (strip t) d (chat_id m) (first_id E (chat_id m) st)
                        st2
      = (Ok (file_path, platform), st3).

(** The notice [Sending file...] that the handler puts on the progress
    message after the download, inside the same [try]. *)
Definition sending_notice (E : env) (m : message) (st st3 : state)
  : result Z * state :=
  update_progress_message E (chat_id m) (lit "Sending file...")
    (Some (first_id E (chat_id m) st)) st3.



End Handler.
Export Handler.

Module Cases.

(** The engine raises on every call, the other collaborators work. *)
Definition engine_down_env : env :=
  Env (fun _ ev =>
         match ev with
         | ExtractInfo _ _ =>
             Some (Exn Exception (lit "ERROR: Unable to download webpage"))
         | _ => None
         end)
      (fun _ => 7%Z) (fun _ => [tmp])
      (fun _ => YdlReply ∅ (lit "a.mp4")) (fun _ => [])
      (fun _ => false) (fun _ => 4096) (fun _ => 200%Z) (fun _ => [])
      (fun _ => None) false (lit "/app/tools").

Definition other_url : pystr := lit "https://example.org/video/1".




(** The states of a request for [short_link] from chat 5, started on an
    empty disk: with the temporary directory, and after the download left
    [files] in it. *)
Definition with_tmp : state :=
  State [MkDtemp; checking_call 5] {[ tmp := [] ]}.

Definition downloaded (files : list (pystr * N)) : state :=
  State [ExtractInfo short_link (YTDL_OPTS tmp);
         EditMessageText 5 7 (progress_text (lit "Downloading from TikTok..."));
         MkDtemp; checking_call 5]
        {[ tmp := files ]}.

Definition video : pystr := join tmp (lit "7301.mp4").

Definition request : message := Message (Some short_link) 5.

End Cases.
Export Cases.

Module Converter.

(** Disks with a tools directory that holds the converter under one or
    both of its names. *)
Definition local_tools : state :=
  no_log {[ lit "/app/tools" := [(lit "ffmpeg", 300000)] ]}.

Definition both_names : state :=
  no_log {[ lit "/app/tools" := [(lit "ffmpeg", 300000);
                                 (lit "ffmpeg.exe", 400000)] ]}.

(** A Windows host with another converter on the search path. *)
Definition windows_env : env :=
  Env (fun _ _ => None) (fun _ => 7%Z) (fun _ => [tmp])
      (fun _ => YdlReply ∅ (lit "a.mp3")) (fun _ => [])
      (fun _ => true) (fun _ => 4096) (fun _ => 200%Z) (fun _ => [])
      (fun _ => Some (lit "C:/bin/ffmpeg.exe")) true (lit "/app/tools").

(** The cover-art server answers 404. *)
Definition no_cover_env : env :=
  Env (fun _ _ => None) (fun _ => 7%Z) (fun _ => [tmp])
      (fun _ => YdlReply song (lit "Song.MP3")) (fun _ => [])
      (fun _ => true) (fun _ => 4096) (fun _ => 404%Z) (fun _ => [])
      (fun _ => None) false (lit "/app/tools").

End Converter.
Export Converter.

Module Disk.

(** A program that leaves the disk as it found it. *)
Definition keeps_fs {A} (m : M A) : Prop :=
  ∀ st, fs (snd (m st)) = fs st.

(** The run from [st] to [st'] ended with a successful [save] of
    [filepath], and all it changed on disk is the size of that file. *)
Definition saved (E : env) (filepath : pystr) (st st' : state) : Prop :=
  ∃ before,
    log st' = TagSave filepath :: before
    ∧ fails E before (TagSave filepath) = None
    ∧ fs st'
      = alter (resize (basename filepath)
                      (saved_size E (TagSave filepath :: before)))
              (dirname filepath) (fs st).

(** A program that returns true after a successful save, and otherwise
    leaves the disk as it found it. *)
Definition writes_by_save (E : env) (filepath : pystr) (m : M bool) : Prop :=
  ∀ st,
    (fst (m st) = Ok true ∧ saved E filepath st (snd (m st)))
    ∨ (fst (m st) ≠ Ok true ∧ fs (snd (m st)) = fs st).

End Disk.
Export Disk.

(** * Properties *)

Arguments lit : simpl never.
Arguments path_exists : simpl never.
Arguments file_size : simpl never.
Arguments listdir : simpl never.
Arguments join : simpl never.
Arguments basename : simpl never.
Arguments dirname : simpl never.
Arguments splitext_ext : simpl never.
Arguments progress_text : simpl never.
Arguments success_text : simpl never.
Arguments MAX_SIZE : simpl never.
Arguments add_cover_art : simpl never.
Arguments strip : simpl never.
Arguments events_since : simpl never.
Arguments oversize_text : simpl never.

(** ** Strings *)

Example path_functions :
  splitext_ext (lit "/tmp/d.x/.bashrc") = []
  ∧ splitext_ext (lit "/tmp/d/a.b.MP3") = lit ".MP3"
  ∧ splitext_ext (lit "/tmp/d/..a") = []
  ∧ splitext_ext (lit "a.") = lit "."
  ∧ basename (lit "/tmp/d/a.b.MP3") = lit "a.b.MP3"
  ∧ dirname (lit "/tmp/d/a.b.MP3") = lit "/tmp/d"
  ∧ dirname (lit "/tmp//a") = lit "/tmp"
  ∧ dirname (lit "//a") = lit "//"
  ∧ join (lit "/tmp/d") (lit "a.mp3") = lit "/tmp/d/a.mp3"
  ∧ join (lit "/tmp/d/") (lit "a.mp3") = lit "/tmp/d/a.mp3"
  ∧ join (lit "/tmp") (lit "/a") = lit "/a".
Proof. by vm_compute. Qed.

Example string_functions :
  rsplit_dot_head (lit "/tmp/d/a.b.webm") = lit "/tmp/d/a.b"
  ∧ rsplit_dot_head (lit "abc") = lit "abc"
  ∧ strip ([160; 9] ++ lit " a b " ++ [10; 8232]) = lit "a b"
  ∧ lower (lit "ERROR: FFmpeg not found") = lit "error: ffmpeg not found"
  ∧ endswith_any media_extensions (lit "track.M4A") = false
  ∧ endswith_any media_extensions (lit "track.m4a") = true
  ∧ is_soundcloud_url (lit "HTTP://M.SoundCloud.com/x") = true
  ∧ is_soundcloud_url (lit "https://api.soundcloud.com/x") = false.
Proof. by vm_compute. Qed.

Lemma startswith_spec (p s : pystr) :
  startswith p s = true ↔ ∃ t, s = p ++ t.
Proof.
  revert s; induction p as [|a p IH]; intros s; simpl.
  - split; [intros _; by exists s | done].
  - destruct s as [|b s].
    + split; [done | intros [t Ht]; discriminate].
    + rewrite andb_true_iff, N.eqb_eq, IH. split.
      * intros [-> [t ->]]. by exists t.
      * intros [t Ht]. injection Ht as -> ->. eauto.
Qed.

Lemma contains_spec (needle hay : pystr) :
  contains needle hay = true ↔ occurs_in needle hay.
Proof.
  unfold occurs_in. induction hay as [|x hay IH]; simpl.
  - rewrite orb_false_r, startswith_spec. split.
    + intros [t Ht]. exists [], t. done.
    + intros (b & a & Hba). destruct b; [|discriminate]. by exists a.
  - rewrite orb_true_iff, startswith_spec, IH. split.
    + intros [[t Ht] | (b & a & ->)].
      * exists [], t. done.
      * exists (x :: b), a. done.
    + intros (b & a & Hba). destruct b as [|y b]; simpl in Hba.
      * left. by exists a.
      * right. injection Hba as -> ->. eauto.
Qed.

Lemma occurs_in_trans (a b c : pystr) :
  occurs_in a b → occurs_in b c → occurs_in a c.
Proof.
  intros (p & q & ->) (p' & q' & ->).
  exists (p' ++ p), (q ++ q'). by rewrite <- !app_assoc.
Qed.

Lemma contains_trans (a b c : pystr) :
  occurs_in a b → contains b c = true → contains a c = true.
Proof. rewrite !contains_spec. apply occurs_in_trans. Qed.

Lemma short_link_host_is_tiktok (url : pystr) :
  contains (lit "tiktok.com") url || contains (lit "vm.tiktok.com") url
  = contains (lit "tiktok.com") url.
Proof.
  destruct (contains (lit "tiktok.com") url) eqn:Ht; [done|]. simpl.
  destruct (contains (lit "vm.tiktok.com") url) eqn:Hv; [|done].
  rewrite <- Ht. symmetry. eapply contains_trans; [|exact Hv].
  exists (lit "vm."), []. reflexivity.
Qed.

(** ** Routing *)

Lemma choose_downloader_route (E : env) (url dest : pystr) (chat pid : Z) :
  choose_downloader E url dest chat pid
  = route E (detect_in_url url) url dest chat pid.
Proof.
  unfold choose_downloader, detect_in_url.
  rewrite short_link_host_is_tiktok.
  destruct (contains (lit "tiktok.com") url); [done|].
  destruct (contains (lit "youtube.com") url || contains (lit "youtu.be") url);
    [done|].
  by destruct (contains (lit "soundcloud.com") url).
Qed.

Lemma after_scheme_suffix (s t : pystr) :
  after_scheme s = Some t → ∃ before, s = before ++ t.
Proof.
  revert t. induction s as [|c s IH]; intros t.
  - done.
  - cbn [after_scheme]. destruct (startswith (lit "://") (c :: s)) eqn:Hs.
    + intros [= <-]. exists (take 3 (c :: s)).
      exact (eq_sym (take_drop 3 (c :: s))).
    + intros [before ->]%IH. by exists (c :: before).
Qed.

Lemma upto_delimiter_prefix (s : pystr) :
  ∃ after, s = upto_delimiter s ++ after.
Proof.
  induction s as [|c s [after IH]]; simpl.
  - by exists [].
  - destruct ((c =? slash) || (c =? 63) || (c =? 35)).
    + by exists (c :: s).
    + exists after. simpl. by rewrite <- IH.
Qed.

Lemma host_occurs_in_url (url : pystr) : occurs_in (host_of url) url.
Proof.
  unfold host_of.
  destruct (after_scheme url) as [t|] eqn:Ht; simpl.
  - destruct (after_scheme_suffix _ _ Ht) as [before ->].
    destruct (upto_delimiter_prefix t) as [after Hafter].
    exists before, after. by rewrite <- Hafter.
  - destruct (upto_delimiter_prefix url) as [after Hafter].
    exists [], after. done.
Qed.

(** C1 (as amended): the platform is chosen by looking for the host names
    in the whole URL text, letter case respected, in the order TikTok,
    YouTube, SoundCloud.  ["tiktok.com"] covers the short-link host and
    ["soundcloud.com"] covers the [on.] and [m.] subdomains.  Any other URL
    is the unsupported-source failure, raised without a single call to a
    collaborator.  A host that contains ["tiktok.com"] is therefore always
    routed to TikTok. *)
Theorem detection_on_whole_url (E : env) (url dest : pystr) (chat pid : Z) :
  choose_downloader E url dest chat pid
  = route E (detect_in_url url) url dest chat pid
  ∧ (detect_in_url url = None →
     ∀ st, choose_downloader E url dest chat pid st
           = (Raise (Exn ValueError (lit "Unsupported source: " ++ url)), st))
  ∧ (occurs_in (lit "vm.tiktok.com") url → occurs_in (lit "tiktok.com") url)
  ∧ (occurs_in (lit "on.soundcloud.com") url ∨ occurs_in (lit "m.soundcloud.com") url →
     occurs_in (lit "soundcloud.com") url)
  ∧ (detect_by_host url = Some ShortVideo → detect_in_url url = Some ShortVideo).
Proof.
  split; [apply choose_downloader_route|].
  split; [intros Hnone st; by rewrite choose_downloader_route, Hnone|].
  split; [apply occurs_in_trans; by exists (lit "vm."), []|].
  split.
  { intros [H|H]; revert H; apply occurs_in_trans.
    - by exists (lit "on."), [].
    - by exists (lit "m."), []. }
  unfold detect_by_host, detect_in_url.
  rewrite short_link_host_is_tiktok.
  destruct (contains (lit "tiktok.com") (host_of url)) eqn:Hh.
  - intros _. rewrite (contains_trans _ (host_of url) url); [done| |].
    + by apply contains_spec.
    + apply contains_spec, host_occurs_in_url.
  - by repeat case_match.
Qed.

Lemma detection_on_whole_url_witness :
  choose_downloader plain_env capitals_url tmp 5 7 empty_tmp
  = (Raise (Exn ValueError (lit "Unsupported source: " ++ capitals_url)),
     empty_tmp)
  ∧ occurs_in (lit "tiktok.com") short_link
  ∧ detect_in_url short_link = Some ShortVideo.
Proof.
  split; [|split].
  - apply (proj1 (proj2 (detection_on_whole_url plain_env capitals_url tmp 5 7))).
    vm_compute. reflexivity.
  - apply (proj1 (proj2 (proj2 (detection_on_whole_url plain_env short_link tmp 5 7)))).
    exists (lit "https://"), (lit "/ZM2jp5x8E/"). vm_compute. reflexivity.
  - apply (proj2 (proj2 (proj2 (proj2
             (detection_on_whole_url plain_env short_link tmp 5 7))))).
    vm_compute. reflexivity.
Defined.

(** C1, as stated, fails on the code: a SoundCloud host written with
    capitals is the audio platform for the specification (and for
    [is_soundcloud_url]) but an unsupported source for the router, and a
    URL of another host that mentions ["tiktok.com"] in its query is
    unsupported for the specification but goes to the TikTok adapter. *)
Lemma detection_by_host_refuted :
  (detect_by_host capitals_url = Some Audio
   ∧ is_soundcloud_url capitals_url = true
   ∧ choose_downloader plain_env capitals_url tmp 5 7 empty_tmp
     = (Raise (Exn ValueError (lit "Unsupported source: " ++ capitals_url)),
        empty_tmp))
  ∧ (detect_by_host query_url = None
     ∧ choose_downloader plain_env query_url tmp 5 7
       = route plain_env (Some ShortVideo) query_url tmp 5 7).
Proof. vm_compute. done. Qed.

(** C10: routing looks for the names anywhere in the URL text, in the order
    TikTok, YouTube, SoundCloud, and the first match wins.  A URL in which
    ["tiktok.com"] occurs anywhere, next to ["youtube.com"] or not, is
    handed to the TikTok adapter. *)
Theorem routing_first_match_wins (E : env) (url dest : pystr) (chat pid : Z) :
  let routed k := choose_downloader E url dest chat pid
                  = route E k url dest chat pid in
  (occurs_in (lit "tiktok.com") url → routed (Some ShortVideo))
  ∧ (¬ occurs_in (lit "tiktok.com") url →
     occurs_in (lit "youtube.com") url ∨ occurs_in (lit "youtu.be") url →
     routed (Some Video))
  ∧ (¬ occurs_in (lit "tiktok.com") url →
     ¬ occurs_in (lit "youtube.com") url → ¬ occurs_in (lit "youtu.be") url →
     occurs_in (lit "soundcloud.com") url →
     routed (Some Audio))
  ∧ (¬ occurs_in (lit "tiktok.com") url →
     ¬ occurs_in (lit "youtube.com") url → ¬ occurs_in (lit "youtu.be") url →
     ¬ occurs_in (lit "soundcloud.com") url →
     routed None)
  ∧ (∀ before after,
       url = before ++ lit "tiktok.com" ++ after → routed (Some ShortVideo)).
Proof.
  intros routed. subst routed. cbv beta.
  rewrite choose_downloader_route. unfold detect_in_url.
  rewrite <- !contains_spec.
  destruct (contains (lit "tiktok.com") url) eqn:Ht,
           (contains (lit "youtube.com") url) eqn:Hy,
           (contains (lit "youtu.be") url) eqn:Hb,
           (contains (lit "soundcloud.com") url) eqn:Hs; simpl.
  all: repeat split; try done; try (intros; intuition congruence).
  all: intros before after Hurl;
    assert (contains (lit "tiktok.com") url = true) as Hc
      by (apply contains_spec; by exists before, after);
    congruence.
Qed.

Lemma routing_first_match_wins_witness :
  choose_downloader plain_env mixed_url tmp 5 7
  = route plain_env (Some ShortVideo) mixed_url tmp 5 7.
Proof.
  apply (proj1 (routing_first_match_wins plain_env mixed_url tmp 5 7)).
  exists (lit "https://www.youtube.com/redirect?q=https://vm."),
         (lit "/ZM2jp5x8E/").
  vm_compute. reflexivity.
Defined.

(** ** Running programs *)

Lemma events_since_app (st st' : state) (new : list event) :
  log st' = new ++ log st → events_since st st' = rev new.
Proof.
  intros H. unfold events_since. rewrite H, length_app.
  replace (length new + length (log st) - length (log st))%nat
    with (length new) by lia.
  by rewrite take_app_length.
Qed.

Ltac unfold_m :=
  unfold reply, os_path_exists, os_listdir in *;
  unfold bind, ret, raise, try_except, gets, call, modify_fs,
    os_path_getsize in *.

Ltac case_fails :=
  match goal with
  | |- context [fails ?E ?l ?ev] =>
      let H := fresh "Hfail" in destruct (fails E l ev) eqn:H; cbn
  end.

Ltac prefix_of l base :=
  match l with
  | base => constr:(@nil event)
  | ?ev :: ?l' => let r := prefix_of l' base in constr:(ev :: r)
  end.

(** Replace [events_since st st'] by the entries that were pushed. *)
Ltac since_log :=
  repeat match goal with
    | |- context [events_since ?st {| log := ?l; fs := ?f |}] =>
        let new := prefix_of l (log st) in
        rewrite (events_since_app st {| log := l; fs := f |} new)
          by reflexivity
    end;
  cbn [rev app].

Lemma file_size_exists (f : filesystem) (p : pystr) (n : N) :
  file_size f p = Some n → path_exists f p = true.
Proof.
  intros H. unfold path_exists. rewrite H.
  rewrite (bool_decide_eq_true_2 (is_Some (Some n))) by eauto.
  apply orb_true_r.
Qed.

Lemma progress_text_notice (t : pystr) :
  startswith [128260] (progress_text t) = true.
Proof. reflexivity. Qed.

(** ** The size check and the relay *)

(** The last part of the handler on a file above 49 MiB: every call made
    is a progress notice, the first one carries the size text, and the file
    system is left alone.  At or below the threshold it starts relaying by
    deleting the progress message. *)
Lemma relay_file_oversize (E : env) (chat pid : Z) (f platform : pystr)
    (st : state) (n : N) :
  file_size (fs st) f = Some n →
  let st' := snd (relay_file E chat pid f platform st) in
  (MAX_SIZE < n → rejected_as_oversize chat pid st st')
  ∧ (n = 49 * 1024 * 1024 + 1 → rejected_as_oversize chat pid st st')
  ∧ (n ≤ MAX_SIZE →
     hd_error (events_since st st') = Some (DeleteMessage chat pid)).
Proof.
  intros Hsize st'. subst st'.
  pose proof (file_size_exists _ _ _ Hsize) as Hex.
  assert (MAX_SIZE < n →
          rejected_as_oversize chat pid st
            (snd (relay_file E chat pid f platform st))) as Hbig.
  { intros Hbig. apply N.leb_gt in Hbig.
    unfold rejected_as_oversize, relay_file, update_progress_message,
      notice_call.
    unfold_m. cbn. rewrite Hex. cbn. rewrite Hsize. cbn. rewrite Hbig.
    destruct (pid =? 0)%Z; cbn; repeat case_fails; since_log;
      (split; [repeat constructor; apply progress_text_notice | done]). }
  split; [exact Hbig|]. split; [intros ->; by apply Hbig|].
  intros Hsmall. apply N.leb_le in Hsmall.
  unfold relay_file, update_progress_message, send_audio_to_telegram,
    send_success_message.
  unfold_m. cbn. rewrite Hex. cbn. rewrite Hsize. cbn. rewrite Hsmall.
  destruct (bool_decide (lower (splitext_ext f) = lit ".mp3"));
    destruct (pid =? 0)%Z; cbn; repeat case_fails; since_log; done.
Qed.

Example relay_file_oversize_run :
  rejected_as_oversize 5 7 big_file
    (snd (relay_file plain_env 5 7 (join tmp (lit "big.mp4")) (lit "tiktok")
                     big_file)).
Proof.
  refine (proj1 (relay_file_oversize plain_env 5 7
                   (join tmp (lit "big.mp4")) (lit "tiktok") big_file
                   (49 * 1024 * 1024 + 1) _) _).
  - vm_compute. reflexivity.
  - reflexivity.
Qed.

Lemma success_text_head (platform filename : pystr) :
  startswith [128260] (success_text platform filename) = false.
Proof.
  unfold success_text, success_messages. cbn [assoc_get].
  repeat case_bool_decide; reflexivity.
Qed.

(** The last part of the handler on a file of at most 49 MiB: three
    calls, each made at most once and in this order.  When the three calls
    succeed they are all that happens; when one of them raises, the later
    ones are not made and only progress notices follow. *)
Lemma relay_file_in_order (E : env) (chat pid : Z) (f platform : pystr)
    (st : state) (n : N) :
  file_size (fs st) f = Some n →
  n ≤ MAX_SIZE →
  let steps := relay_steps chat pid f platform in
  let run := relay_file E chat pid f platform st in
  (fails E (log st) (DeleteMessage chat pid) = None →
   fails E ([DeleteMessage chat pid] ++ log st) (upload_call chat f) = None →
   fails E (rev (take 2 steps) ++ log st)
         (SendMessage chat (success_text platform (basename f))) = None →
   run = (Ok tt, State (rev steps ++ log st) (fs st)))
  ∧ (∃ k notices,
       events_since st (snd run) = take k steps ++ notices
       ∧ Forall (fun ev => is_progress_notice ev = true) notices)
  ∧ Forall (fun ev => is_progress_notice ev = false) steps.
Proof.
  intros Hsize Hsmall steps run. subst steps run.
  pose proof (file_size_exists _ _ _ Hsize) as Hex.
  apply N.leb_le in Hsmall.
  unfold relay_steps, upload_call, relay_file, update_progress_message,
    send_audio_to_telegram, send_success_message.
  unfold_m. cbn. rewrite Hex. cbn. rewrite Hsize. cbn. rewrite Hsmall.
  destruct (bool_decide (lower (splitext_ext f) = lit ".mp3")); cbn.
  all: split; [|split].
  all: try (intros H1 H2 H3; rewrite H1; cbn; rewrite H2; cbn; rewrite H3;
            reflexivity).
  all: try (repeat constructor; apply success_text_head).
  all: destruct (pid =? 0)%Z; cbn; repeat case_fails; since_log.
  all: first
         [ solve [exists 1%nat; eexists; split;
                  [reflexivity | repeat constructor; apply progress_text_notice]]
         | solve [exists 2%nat; eexists; split;
                  [reflexivity | repeat constructor; apply progress_text_notice]]
         | solve [exists 3%nat; eexists; split;
                  [reflexivity | repeat constructor; apply progress_text_notice]] ].
Qed.

Example relay_file_in_order_run :
  relay_file plain_env 5 7 (join tmp (lit "Song.MP3")) (lit "soundcloud")
             small_file
  = (Ok tt,
     State (rev (relay_steps 5 7 (join tmp (lit "Song.MP3")) (lit "soundcloud"))
            ++ log small_file)
           (fs small_file)).
Proof.
  refine (proj1 (relay_file_in_order plain_env 5 7 (join tmp (lit "Song.MP3"))
                   (lit "soundcloud") small_file 4000000 _ _) _ _ _).
  - vm_compute. reflexivity.
  - unfold MAX_SIZE. lia.
  - reflexivity.
  - reflexivity.
  - reflexivity.
Qed.

(** ** [os.makedirs] *)

Lemma drop_slashes_length (s : pystr) : (length (drop_slashes s) ≤ length s)%nat.
Proof.
  induction s as [|c s IH]; [done|]. cbn. destruct (c =? slash); cbn; lia.
Qed.

Lemma dirname_basename_length (p : pystr) :
  (length (dirname p) + length (basename p) ≤ length p)%nat.
Proof.
  unfold dirname, basename, upto, from.
  set (i := Z.to_nat (rfind slash p + 1)).
  assert (length (take i p) + length (drop i p) = length p)%nat as Hsplit.
  { by rewrite <- length_app, take_drop. }
  destruct (nonempty (take i p) && negb (forallb (N.eqb slash) (take i p))).
  - rewrite length_rev.
    pose proof (drop_slashes_length (rev (take i p))) as Hle.
    rewrite length_rev in Hle. lia.
  - lia.
Qed.

Lemma nonempty_length (s : pystr) : nonempty s = true → (0 < length s)%nat.
Proof. destruct s; [done|]. cbn. lia. Qed.

Lemma split_last_shorter (name : pystr) :
  nonempty (snd (split_last name)) = true →
  (length (fst (split_last name)) < length name)%nat.
Proof.
  unfold split_last.
  pose proof (dirname_basename_length name) as H1.
  pose proof (dirname_basename_length (dirname name)) as H2.
  destruct (nonempty (basename name)) eqn:Htail; cbn [fst snd].
  - intros _. apply nonempty_length in Htail. lia.
  - intros Htail'. apply nonempty_length in Htail'. lia.
Qed.

(** [makedirs_from] does not depend on the number of steps it is given, as
    long as there is one for every character of the name. *)
Lemma makedirs_from_steps (n k : nat) (name : pystr) (f : filesystem) :
  (length name ≤ n)%nat → (length name ≤ k)%nat →
  makedirs_from n name f = makedirs_from k name f.
Proof.
  revert k name.
  induction n as [|n IH]; intros k name Hn Hk.
  - destruct name; [|cbn in Hn; lia].
    destruct k; reflexivity.
  - destruct k as [|k].
    + destruct name; [reflexivity | cbn in Hk; lia].
    + cbn [makedirs_from].
      pose proof (split_last_shorter name) as Hshort.
      destruct (split_last name) as [head tail]. cbn [fst snd] in Hshort.
      destruct (nonempty head && nonempty tail
                && negb (path_exists f head || always_there head)) eqn:Hgo;
        [|reflexivity].
      apply andb_prop in Hgo as [Hgo _]. apply andb_prop in Hgo as [_ Htail].
      specialize (Hshort Htail).
      by rewrite (IH k head) by lia.
Qed.

(** On an empty disk the directory is made with its parents; below an
    existing directory only what is missing is made; a regular file in the
    way makes the call raise and nothing is made. *)
Example makedirs_parents :
  makedirs (lit "/data/out/sc") no_tools
  = (Ok tt, no_log {[ lit "/data" := []; lit "/data/out" := [];
                      lit "/data/out/sc" := [] ]})
  ∧ makedirs (join tmp (lit "a/b")) empty_tmp
    = (Ok tt, no_log {[ tmp := []; join tmp (lit "a") := [];
                        join tmp (lit "a/b") := [] ]})
  ∧ makedirs tmp small_file = (Ok tt, small_file)
  ∧ makedirs (join tmp (lit "Song.MP3/x/y")) small_file
    = (Raise (Exn OSError
                  (lit "[Errno 20] Not a directory: '/tmp/tmpa1/Song.MP3/x'")),
       small_file)
  ∧ makedirs (join tmp (lit "Song.MP3")) small_file
    = (Raise (Exn OSError
                  (lit "[Errno 17] File exists: '/tmp/tmpa1/Song.MP3'")),
       small_file).
Proof. by vm_compute. Qed.

(** ** What a program may touch *)

Section Inside.

Variable P : event -> Prop.
Variable d : pystr.

Lemma inside_refl (st : state) : inside P d st st.
Proof. split; [done|]. by exists []. Qed.

Lemma inside_log (st st' : state) :
  fs st' = fs st → (∃ new, log st' = new ++ log st ∧ Forall P new) →
  inside P d st st'.
Proof. intros Hfs Hlog. split; [|done]. by rewrite Hfs. Qed.

Lemma inside_trans (a b c : state) :
  inside P d a b → inside P d b c → inside P d a c.
Proof.
  intros [Hf1 (n1 & Hl1 & HP1)] [Hf2 (n2 & Hl2 & HP2)]. split.
  - intros Hd. destruct (Hf1 Hd) as [Hd1 Hk1]. destruct (Hf2 Hd1) as [Hd2 Hk2].
    split; [done|]. intros k Hc. by apply Hk1, Hk2.
  - exists (n2 ++ n1). split.
    + by rewrite Hl2, Hl1, app_assoc.
    + by apply Forall_app.
Qed.

Lemma stays_ret {A} (a : A) : stays_inside P d (ret a).
Proof. intros st. apply inside_refl. Qed.

Lemma stays_raise {A} (e : exn) : stays_inside P d (raise (A:=A) e).
Proof. intros st. apply inside_refl. Qed.

Lemma stays_gets {A} (f : state -> A) : stays_inside P d (gets f).
Proof. intros st. apply inside_refl. Qed.

Lemma stays_bind {A B} (m : M A) (k : A -> M B) :
  stays_inside P d m → (∀ a, stays_inside P d (k a)) →
  stays_inside P d (bind m k).
Proof.
  intros Hm Hk st. unfold bind. specialize (Hm st).
  destruct (m st) as [[a|e] st1]; simpl in *; [|done].
  eapply inside_trans; [exact Hm | apply Hk].
Qed.

Lemma stays_try_except {A} (m : M A) (h : exn -> M A) :
  stays_inside P d m → (∀ e, stays_inside P d (h e)) →
  stays_inside P d (try_except m h).
Proof.
  intros Hm Hh st. unfold try_except. specialize (Hm st).
  destruct (m st) as [[a|e] st1]; simpl in *; [done|].
  eapply inside_trans; [exact Hm | apply Hh].
Qed.

Lemma stays_call (E : env) (ev : event) : P ev → stays_inside P d (call E ev).
Proof.
  intros HP st. unfold call.
  destruct (fails E (log st) ev); simpl; (apply inside_log; [done|]);
    exists [ev]; split; auto.
Qed.

Lemma stays_reply (E : env) {A} (oracle : env -> list event -> A) :
  stays_inside P d (reply E oracle).
Proof. apply stays_gets. Qed.

Lemma stays_alter (g : list (pystr * N) -> list (pystr * N)) (k : pystr) :
  stays_inside P d (modify_fs (alter g k)).
Proof.
  intros st. split; [|by exists []]. simpl.
  assert (∀ k', is_Some (alter g k (fs st) !! k') ↔ is_Some (fs st !! k'))
    as Hsame.
  { intros k'. rewrite lookup_alter. case_decide; [subst|done].
    by rewrite fmap_is_Some. }
  intros Hd. split.
  - apply bool_decide_eq_true. apply Hsame. by apply bool_decide_eq_true in Hd.
  - intros k'. by rewrite Hsame.
Qed.

Lemma stays_getsize (p : pystr) : stays_inside P d (os_path_getsize p).
Proof.
  intros st. unfold os_path_getsize.
  destruct (file_size (fs st) p); apply inside_refl.
Qed.

Lemma stays_makedirs : stays_inside P d (makedirs d).
Proof.
  intros st. unfold makedirs.
  destruct (is_dir (fs st) d) eqn:Hd; [apply inside_refl|].
  split; [congruence|]. exists [].
  by destruct (makedirs_from _ _ _).
Qed.

Lemma stays_extract_info (E : env) (url : pystr) (opts : ydl_opts) :
  P (ExtractInfo url opts) → out_dir opts = d →
  stays_inside P d (extract_info E url opts).
Proof.
  intros HP Hd st. unfold extract_info.
  assert (inside P d st
            (State (ExtractInfo url opts :: log st)
                   (<[out_dir opts := ydl_files E (log st)]> (fs st)))).
  { split; simpl.
    - rewrite Hd. intros Hdir. apply bool_decide_eq_true in Hdir. split.
      + apply bool_decide_eq_true. by rewrite lookup_insert_eq.
      + intros k. destruct (decide (k = d)) as [->|Hk]; [done|].
        by rewrite lookup_insert_ne.
    - exists [ExtractInfo url opts]. split; auto. }
  by destruct (fails E (log st) (ExtractInfo url opts)).
Qed.

End Inside.

Lemma stays_weaken (P Q : event -> Prop) (d : pystr) {A} (m : M A) :
  (∀ ev, P ev → Q ev) → stays_inside P d m → stays_inside Q d m.
Proof.
  intros HPQ Hm st. destruct (Hm st) as [Hf (new & Hl & HP)].
  split; [done|]. exists new. split; [done|].
  eapply Forall_impl; eauto.
Qed.

(** One step of a proof that a program stays inside: through a bind, a
    handler or a branch, down to the calls. *)
Ltac stays_step :=
  match goal with
  | |- stays_inside _ _ (bind _ _) => apply stays_bind; [|intros ?]
  | |- stays_inside _ _ (try_except _ _) => apply stays_try_except; [|intros ?]
  | |- stays_inside _ _ (ret _) => apply stays_ret
  | |- stays_inside _ _ (raise _) => apply stays_raise
  | |- stays_inside _ _ (gets _) => apply stays_gets
  | |- stays_inside _ _ (reply _ _) => apply stays_reply
  | |- stays_inside _ _ (os_path_exists _) => apply stays_gets
  | |- stays_inside _ _ (os_listdir _) => apply stays_gets
  | |- stays_inside _ _ (os_path_getsize _) => apply stays_getsize
  | |- stays_inside _ _ (modify_fs (alter _ _)) => apply stays_alter
  | |- stays_inside _ _ (makedirs _) => apply stays_makedirs
  | |- stays_inside _ _ (call _ _) => apply stays_call; done
  | |- stays_inside _ _ (extract_info _ _ _) =>
      apply stays_extract_info; done
  | |- stays_inside _ _ (if ?b then _ else _) => destruct b
  | |- stays_inside _ _ (match ?x with _ => _ end) => destruct x
  | |- stays_inside _ _ (let _ := _ in _) => cbv zeta
  end.

Ltac stays := repeat stays_step; eauto.

Lemma add_cover_art_stays (E : env) (d : pystr) (url : value) :
  stays_inside tagger_call d (add_cover_art E url).
Proof. unfold add_cover_art. stays. Qed.

Lemma add_metadata_to_mp3_stays (E : env) (d filepath : pystr) (track_info : dict) :
  stays_inside tagger_call d (add_metadata_to_mp3 E filepath track_info).
Proof.
  unfold add_metadata_to_mp3, save, value_strip.
  stays; apply add_cover_art_stays.
Qed.

Lemma tagger_stays (E : env) (d filepath : pystr) (track_info : dict) :
  stays_inside no_mkdtemp d (add_metadata_to_mp3 E filepath track_info).
Proof.
  eapply stays_weaken; [|apply add_metadata_to_mp3_stays]. by intros ev [? ?].
Qed.

Lemma update_progress_message_stays (E : env) (d : pystr) (chat : Z)
    (t : pystr) (id : option Z) :
  stays_inside no_mkdtemp d (update_progress_message E chat t id).
Proof. unfold update_progress_message. stays. Qed.

Lemma run_yt_dlp_stays (E : env) (url d pattern : pystr) :
  stays_inside no_mkdtemp d (run_yt_dlp E url d pattern).
Proof. unfold run_yt_dlp, get_ffmpeg_path. stays. Qed.

Lemma download_without_conversion_stays (E : env) (url d : pystr) :
  stays_inside no_mkdtemp d (download_without_conversion E url d).
Proof. unfold download_without_conversion. stays. apply tagger_stays. Qed.

Lemma download_soundcloud_stays (E : env) (url d : pystr) :
  stays_inside no_mkdtemp d (download_soundcloud E url d).
Proof.
  unfold download_soundcloud, get_ffmpeg_path.
  stays;
    first [ apply run_yt_dlp_stays | apply download_without_conversion_stays
          | apply tagger_stays ].
Qed.

Lemma download_tiktok_stays (E : env) (url d : pystr) :
  stays_inside no_mkdtemp d (download_tiktok E url d).
Proof. unfold download_tiktok. stays. Qed.

Lemma download_youtube_stays (E : env) (url d : pystr) :
  stays_inside no_mkdtemp d (download_youtube E url d).
Proof. unfold download_youtube. stays. Qed.

Lemma choose_downloader_stays (E : env) (url d : pystr) (chat pid : Z) :
  stays_inside no_mkdtemp d (choose_downloader E url d chat pid).
Proof.
  unfold choose_downloader.
  stays;
    first [ apply update_progress_message_stays | apply download_tiktok_stays
          | apply download_youtube_stays | apply download_soundcloud_stays ].
Qed.

Lemma relay_file_stays (E : env) (d : pystr) (chat pid : Z) (f platform : pystr) :
  stays_inside no_mkdtemp d (relay_file E chat pid f platform).
Proof.
  unfold relay_file, send_audio_to_telegram, send_success_message.
  stays; apply update_progress_message_stays.
Qed.

(** ** The temporary directory *)

Lemma mkdtemp_count_app (l1 l2 : list event) :
  mkdtemp_count (l1 ++ l2) = (mkdtemp_count l1 + mkdtemp_count l2)%nat.
Proof. unfold mkdtemp_count. by rewrite List.filter_app, length_app. Qed.

Lemma mkdtemp_count_rev (l : list event) :
  mkdtemp_count (rev l) = mkdtemp_count l.
Proof.
  induction l as [|ev l IH]; [done|]. simpl rev.
  rewrite mkdtemp_count_app, IH. change (ev :: l) with ([ev] ++ l).
  rewrite mkdtemp_count_app. lia.
Qed.

Lemma mkdtemp_count_none (l : list event) :
  Forall no_mkdtemp l → mkdtemp_count l = 0%nat.
Proof.
  unfold mkdtemp_count, no_mkdtemp.
  induction 1 as [|ev l Hev _ IH]; [done|]. simpl. by rewrite Hev.
Qed.

Lemma rmtree_lookup (d k : pystr) (f : filesystem) :
  is_Some (rmtree d f !! k) → k ≠ d ∧ is_Some (f !! k).
Proof.
  unfold rmtree. intros [v Hv]. apply map_lookup_filter_Some in Hv as [Hv [Hk _]].
  simpl in Hk. eauto.
Qed.

Lemma rmtree_gone (d : pystr) (f : filesystem) : is_dir (rmtree d f) d = false.
Proof.
  unfold is_dir. apply bool_decide_eq_false. intros H.
  by apply rmtree_lookup in H as [? _].
Qed.

Lemma update_progress_message_fs (E : env) (chat : Z) (t : pystr)
    (id : option Z) (st : state) :
  fs (snd (update_progress_message E chat t id st)) = fs st.
Proof.
  unfold update_progress_message. unfold_m.
  destruct id as [id|]; [destruct (id =? 0)%Z|]; cbn; by repeat case_fails.
Qed.

Lemma run_bind {A B} (m : M A) (k : A -> M B) (st : state) :
  bind m k st
  = match m st with
    | (Ok a, st') => k a st'
    | (Raise e, st') => (Raise e, st')
    end.
Proof. reflexivity. Qed.

Lemma run_with_TemporaryDirectory (E : env) {A} (body : pystr -> M A) (st : state) :
  with_TemporaryDirectory E body st
  = match mkdtemp E st with
    | (Ok d, st1) =>
        let (outcome, st2) := body d st1 in
        (outcome, State (log st2) (rmtree d (fs st2)))
    | (Raise e, st1) => (Raise e, st1)
    end.
Proof. reflexivity. Qed.

Lemma mkdtemp_spec (E : env) (st : state) :
  log (snd (mkdtemp E st)) = MkDtemp :: log st
  ∧ fs (snd (mkdtemp E st))
    = match fst (mkdtemp E st) with
      | Ok d => <[d := []]> (fs st)
      | Raise _ => fs st
      end.
Proof.
  unfold mkdtemp. destruct (fails E (log st) MkDtemp); [done|].
  by destruct (find _ _).
Qed.

Lemma mkdtemp_fresh (E : env) (st : state) (d : pystr) :
  fst (mkdtemp E st) = Ok d → path_exists (fs st) d = false.
Proof.
  unfold mkdtemp. destruct (fails E (log st) MkDtemp); [done|].
  destruct (find _ _) as [c|] eqn:Hfind; [|done].
  intros [= <-]. apply find_some in Hfind as [_ Hc].
  by apply negb_true_iff.
Qed.

Lemma handle_link_body_stays (E : env) (url d : pystr) (chat pid : Z) :
  stays_inside no_mkdtemp d
    (downloaded ← try_except
       (got ← choose_downloader E url d chat pid;
        update_progress_message E chat (lit "Sending file...") (Some pid);;
        ret (Some got))
       (fun e =>
          update_progress_message E chat
            ([10060] ++ lit " *Error:* " ++ msg e) (Some pid);;
          ret None);
     match downloaded with
     | Some (file_path, platform) => relay_file E chat pid file_path platform
     | None => ret tt
     end).
Proof.
  stays;
    first [ apply choose_downloader_stays | apply update_progress_message_stays
          | apply relay_file_stays ].
Qed.

(** C4: however the handler ends (a normal return after success, after a
    download error, a missing file, an oversize file or a send error, or an
    exception that leaves the handler), no directory is on disk that was
    not there before the request: the temporary directory is gone, with
    what is below it.  The handler asks for a temporary directory at most
    once. *)
Theorem temporary_directory_released (E : env) (m : message) (st : state) :
  let st' := snd (handle_link E m st) in
  (∀ k, is_Some (fs st' !! k) → is_Some (fs st !! k))
  ∧ (mkdtemp_count (events_since st st') ≤ 1)%nat.
Proof.
  unfold handle_link.
  destruct (text m) as [t|].
  2: { unfold raise. cbn. split; [done|].
       rewrite (events_since_app _ _ []) by done. unfold mkdtemp_count. cbn. lia. }
  destruct (negb _).
  { unfold call. destruct (fails _ _ _); cbn; (split; [done|]); since_log;
      unfold mkdtemp_count; cbn; lia. }
  rewrite run_bind.
  pose proof (update_progress_message_stays E [] (chat_id m)
                (lit "Checking link...") None st) as [_ (new0 & Hl0 & HP0)].
  pose proof (update_progress_message_fs E (chat_id m)
                (lit "Checking link...") None st) as Hfs0.
  destruct (update_progress_message _ _ _ _ st) as [[pid|e] st1];
    simpl in Hl0, Hfs0.
  2: { cbn [snd]. rewrite Hfs0. split; [done|].
       rewrite (events_since_app _ _ new0), mkdtemp_count_rev by done.
       rewrite mkdtemp_count_none by done. lia. }
  assert (mkdtemp_count (rev (MkDtemp :: new0)) ≤ 1)%nat as Hone.
  { rewrite mkdtemp_count_rev. change (MkDtemp :: new0) with ([MkDtemp] ++ new0).
    rewrite mkdtemp_count_app, (mkdtemp_count_none new0) by done. done. }
  rewrite run_with_TemporaryDirectory.
  pose proof (mkdtemp_spec E st1) as [Hl1 Hfs1].
  destruct (mkdtemp E st1) as [[d|e] st_d]; cbn [fst snd] in *.
  2: { rewrite Hfs1, Hfs0. split; [done|].
       by rewrite (events_since_app _ _ (MkDtemp :: new0))
         by (by rewrite Hl1, Hl0). }
  pose proof (handle_link_body_stays E (strip t) d (chat_id m) pid st_d)
    as [Hkeep (new & Hl & HP)].
  cbv beta.
  match goal with
  | |- context [let (_, _) := ?run in _] => destruct run as [outcome st2]
  end.
  cbn [fst snd log fs] in *. split.
  - intros k [Hk Hsome]%rmtree_lookup.
    assert (is_dir (fs st_d) d = true) as Hdir.
    { rewrite Hfs1. apply bool_decide_eq_true. by rewrite lookup_insert_eq. }
    apply (proj2 (Hkeep Hdir)) in Hsome.
    rewrite Hfs1, lookup_insert_ne in Hsome by done. by rewrite <- Hfs0.
  - rewrite (events_since_app _ _ (new ++ MkDtemp :: new0))
      by (cbn [log]; by rewrite Hl, Hl1, Hl0, <- app_assoc).
    rewrite mkdtemp_count_rev, mkdtemp_count_app, (mkdtemp_count_none new) by done.
    by rewrite mkdtemp_count_rev in Hone.
Qed.

Lemma temporary_directory_released_witness :
  (mkdtemp_count
     (events_since empty_tools
        (snd (handle_link renamed_env (Message (Some short_link) 5) empty_tools)))
   ≤ 1)%nat.
Proof.
  apply (proj2 (temporary_directory_released renamed_env
                  (Message (Some short_link) 5) empty_tools)).
Defined.

(** The handler from end to end on a TikTok link whose download is one
    byte too large: six calls, none of them an upload, and the disk as it
    was before. *)
Example oversize_run :
  fst (handle_link big_download_env (Message (Some short_link) 5) no_tools)
  = Ok tt
  ∧ events_since no_tools
      (snd (handle_link big_download_env (Message (Some short_link) 5) no_tools))
    = [SendMessage 5 (progress_text (lit "Checking link..."));
       MkDtemp;
       EditMessageText 5 7 (progress_text (lit "Downloading from TikTok..."));
       ExtractInfo short_link (YTDL_OPTS tmp);
       EditMessageText 5 7 (progress_text (lit "Sending file..."));
       EditMessageText 5 7 (progress_text oversize_text)]
  ∧ fs (snd (handle_link big_download_env (Message (Some short_link) 5) no_tools))
    = fs no_tools.
Proof. by vm_compute. Qed.

(** While the download runs, the temporary directory is there. *)
Example directory_in_use :
  fst (mkdtemp big_download_env no_tools) = Ok tmp
  ∧ path_exists
      (fs (snd (choose_downloader big_download_env short_link tmp 5 7
                  (snd (mkdtemp big_download_env no_tools)))))
      (join tmp (lit "7301.mp4"))
    = true.
Proof. by vm_compute. Qed.

(** ** The converter lookup *)

Lemma get_ffmpeg_path_without_tools (E : env) (st : state) :
  path_exists (fs st) (TOOLS_PATH E) = false →
  get_ffmpeg_path E st = (Ok None, st).
Proof. intros H. unfold get_ffmpeg_path, gets. by rewrite H. Qed.

Lemma get_ffmpeg_path_search_path (E : env) (st : state) (p : pystr) :
  path_exists (fs st) (TOOLS_PATH E) = true →
  (∀ name, path_exists (fs st) (join (TOOLS_PATH E) name) = false) →
  which E (lit "ffmpeg") = Some p → p ≠ [] →
  get_ffmpeg_path E st = (Ok (Some p), st).
Proof.
  intros Htools Hnone Hwhich Hp. unfold get_ffmpeg_path, gets.
  rewrite Htools, Hwhich. cbn [negb].
  destruct (os_name_nt E); cbn [find]; rewrite ?Hnone; by destruct p.
Qed.

(** C7, on the code: with no tools directory and the converter on the
    system search path, the lookup returns none without looking at the
    search path; with an empty tools directory the same environment gives
    the system path. *)
Theorem converter_on_search_path_is_missed :
  which search_path_env (lit "ffmpeg") = Some (lit "/usr/bin/ffmpeg")
  ∧ path_exists (fs no_tools) (TOOLS_PATH search_path_env) = false
  ∧ get_ffmpeg_path search_path_env no_tools = (Ok None, no_tools)
  ∧ get_ffmpeg_path search_path_env empty_tools
    = (Ok (Some (lit "/usr/bin/ffmpeg")), empty_tools).
Proof. vm_compute. done. Qed.

(** ** The audio adapter *)

Lemma run_try_except {A} (m : M A) (h : exn -> M A) (st : state) :
  try_except m h st
  = match m st with
    | (Ok a, st') => (Ok a, st')
    | (Raise e, st') => h e st'
    end.
Proof. reflexivity. Qed.

Lemma extraction_count_app (l1 l2 : list event) :
  extraction_count (l1 ++ l2) = (extraction_count l1 + extraction_count l2)%nat.
Proof. unfold extraction_count. by rewrite List.filter_app, length_app. Qed.

Lemma extraction_count_rev (l : list event) :
  extraction_count (rev l) = extraction_count l.
Proof.
  induction l as [|ev l IH]; [done|]. simpl rev.
  rewrite extraction_count_app, IH. change (ev :: l) with ([ev] ++ l).
  rewrite extraction_count_app. lia.
Qed.

Lemma extraction_count_tagger (l : list event) :
  Forall tagger_call l → extraction_count l = 0%nat.
Proof.
  unfold extraction_count.
  induction 1 as [|ev l [_ Hev] _ IH]; [done|]. simpl. by rewrite Hev.
Qed.

Lemma makedirs_log (d : pystr) (st st1 : state) (r : result unit) :
  makedirs d st = (r, st1) → log st1 = log st.
Proof.
  unfold makedirs. repeat case_match; by intros [= <- <-].
Qed.

(** The primary attempt invokes the engine once, and nothing else. *)
Lemma run_yt_dlp_log (E : env) (url dest pattern : pystr) (st : state) :
  ∃ opts, log (snd (run_yt_dlp E url dest pattern st))
          = ExtractInfo url opts :: log st.
Proof.
  unfold run_yt_dlp, get_ffmpeg_path, extract_info. unfold_m. cbn.
  eexists. by case_fails.
Qed.

(** The failure the primary attempt reports is the text of the exception
    the engine raised. *)
Lemma run_yt_dlp_reports_failure (E : env) (url dest pattern : pystr)
    (st : state) (x : exn) :
  (∀ opts, fails E (log st) (ExtractInfo url opts) = Some x) →
  fst (run_yt_dlp E url dest pattern st)
  = Ok (YdlResult false None None (Some (msg x))).
Proof.
  intros Hfail. unfold run_yt_dlp, get_ffmpeg_path, extract_info. unfold_m.
  cbn. by rewrite Hfail.
Qed.

(** The fallback invokes the engine once, and then only the tagger. *)
Lemma download_without_conversion_log (E : env) (url dest : pystr) (st : state) :
  ∃ opts tagging,
    log (snd (download_without_conversion E url dest st))
    = tagging ++ ExtractInfo url opts :: log st
    ∧ Forall tagger_call tagging.
Proof.
  unfold download_without_conversion.
  rewrite run_try_except, run_bind. unfold extract_info at 1.
  destruct (fails E (log st) _).
  { eexists _, []. cbn. done. }
  rewrite run_bind.
  match goal with
  | |- context [add_metadata_to_mp3 E ?f ?i ?start] =>
      pose proof (add_metadata_to_mp3_stays E [] f i start)
        as [_ (tagging & Hl & HP)];
      destruct (add_metadata_to_mp3 E f i start) as [[b|e] st3]
  end; cbn in *; eexists _, tagging; by rewrite Hl.
Qed.

Lemma download_without_conversion_raises (E : env) (url dest : pystr)
    (st st' : state) (e : exn) :
  download_without_conversion E url dest st = (Raise e, st') →
  kind e = Exception.
Proof.
  unfold download_without_conversion.
  rewrite run_try_except, run_bind.
  destruct (extract_info E url _ st) as [[reply|x] st1].
  - rewrite run_bind. destruct (add_metadata_to_mp3 _ _ _ _) as [[b|x] st2].
    + done.
    + unfold raise. intros [= He _]. by rewrite <- He.
  - unfold raise. intros [= He _]. by rewrite <- He.
Qed.

(** C5: when the primary attempt of the audio adapter reports a failure
    whose text mentions ffmpeg (in any letter case), the adapter runs the
    no-conversion path once and its outcome is the adapter's outcome, the
    path on success and the failure on failure; the engine has then been
    invoked twice in all.  A failure that does not mention ffmpeg is raised
    at once, after a single invocation. *)
Theorem converter_failure_retried_once (E : env) (url dest : pystr)
    (st st1 st2 : state) (err : pystr) :
  makedirs dest st = (Ok tt, st1) →
  run_yt_dlp E url dest (lit "%(title)s.%(ext)s") st1
  = (Ok (YdlResult false None None (Some err)), st2) →
  let run := download_soundcloud E url dest st in
  (contains (lit "ffmpeg") (lower err) = true →
     run = surfaced (download_without_conversion E url dest st2)
     ∧ extraction_count (events_since st (snd run)) = 2%nat)
  ∧ (contains (lit "ffmpeg") (lower err) = false →
     run = (Raise (Exn Exception
                       (lit "Error downloading from SoundCloud: "
                        ++ lit "yt-dlp error: " ++ err)), st2)
     ∧ extraction_count (events_since st (snd run)) = 1%nat).
Proof.
  intros Hmk Hrun run. subst run.
  pose proof (makedirs_log _ _ _ _ Hmk) as Hl1.
  destruct (run_yt_dlp_log E url dest (lit "%(title)s.%(ext)s") st1)
    as [opts1 Hl2].
  rewrite Hrun in Hl2. cbn [snd] in Hl2.
  assert (download_soundcloud E url dest st
          = match (if contains (lit "ffmpeg") (lower err)
                   then download_without_conversion E url dest
                   else raise (Exn Exception (lit "yt-dlp error: " ++ err))) st2
            with
            | (Ok a, st') => (Ok a, st')
            | (Raise e, st') =>
                match kind e with
                | ImportError =>
                    raise (Exn Exception
                             (lit "yt-dlp not installed. Install: pip install yt-dlp"))
                | _ =>
                    raise (Exn Exception
                             (lit "Error downloading from SoundCloud: " ++ msg e))
                end st'
            end) as Heq.
  { unfold download_soundcloud.
    rewrite run_try_except, run_bind, Hmk, run_bind.
    unfold get_ffmpeg_path at 1, gets at 1.
    rewrite run_bind, Hrun. reflexivity. }
  split; intros Hc; rewrite Hc in Heq.
  - destruct (download_without_conversion_log E url dest st2)
      as (opts2 & tagging & Hl3 & Htag).
    pose proof (download_without_conversion_raises E url dest st2) as Hkind.
    destruct (download_without_conversion E url dest st2) as [[file|e] st3].
    + rewrite Heq. split; [done|]. cbn [snd] in *.
      rewrite (events_since_app _ _ (tagging ++ [ExtractInfo url opts2; ExtractInfo url opts1]))
        by (rewrite Hl3, Hl2, Hl1, <- app_assoc; done).
      rewrite extraction_count_rev, extraction_count_app, extraction_count_tagger by done.
      done.
    + rewrite (Hkind _ _ eq_refl) in Heq. rewrite Heq. split; [done|].
      cbn [snd raise] in *.
      rewrite (events_since_app _ _ (tagging ++ [ExtractInfo url opts2; ExtractInfo url opts1]))
        by (rewrite Hl3, Hl2, Hl1, <- app_assoc; done).
      rewrite extraction_count_rev, extraction_count_app, extraction_count_tagger by done.
      done.
  - rewrite Heq. split; [done|]. cbn [snd raise kind].
    by rewrite (events_since_app _ _ [ExtractInfo url opts1])
      by (by rewrite Hl2, Hl1).
Qed.

Lemma converter_failure_retried_once_witness :
  download_soundcloud no_converter_env track_url tmp empty_tmp
  = surfaced (download_without_conversion no_converter_env track_url tmp
                (snd (run_yt_dlp no_converter_env track_url tmp
                                 (lit "%(title)s.%(ext)s") empty_tmp)))
  ∧ extraction_count
      (events_since empty_tmp
         (snd (download_soundcloud no_converter_env track_url tmp empty_tmp)))
    = 2%nat.
Proof.
  refine (proj1 (converter_failure_retried_once no_converter_env track_url tmp
                   empty_tmp empty_tmp _
                   (lit "ERROR: Postprocessing: ffprobe and ffmpeg not found")
                   _ _) _).
  - vm_compute. reflexivity.
  - vm_compute. reflexivity.
  - vm_compute. reflexivity.
Defined.

Lemma add_metadata_to_mp3_returns (E : env) (filepath : pystr)
    (track_info : dict) (st : state) :
  ∃ b st', add_metadata_to_mp3 E filepath track_info st = (Ok b, st').
Proof.
  unfold add_metadata_to_mp3. rewrite run_try_except.
  match goal with
  | |- context [match ?body st with _ => _ end] =>
      destruct (body st) as [[b|e] st']
  end; unfold ret; eauto.
Qed.

Lemma video_adapter_returns_prediction (E : env) (url dest : pystr) (st : state)
    (adapter : env -> pystr -> pystr -> M pystr) :
  adapter = download_tiktok ∨ adapter = download_youtube →
  fails E (log st) (ExtractInfo url (YTDL_OPTS dest)) = None →
  fst (adapter E url dest st) = Ok (join dest (out_name (ydl E (log st)))).
Proof.
  intros [-> | ->] Hok.
  - unfold download_tiktok, extract_info. unfold_m. cbn. by rewrite Hok.
  - unfold download_youtube, extract_info. unfold_m. cbn. by rewrite Hok.
Qed.

Lemma fallback_returns_prediction (E : env) (url dest : pystr) (st : state) :
  fails E (log st)
        (ExtractInfo url (YdlOpts (lit "bestaudio/best") dest
                                  (lit "%(title)s.%(ext)s") false false None))
  = None →
  fst (download_without_conversion E url dest st)
  = Ok (join dest (out_name (ydl E (log st)))).
Proof.
  intros Hok. unfold download_without_conversion.
  rewrite run_try_except, run_bind. unfold extract_info at 1. rewrite Hok.
  rewrite run_bind.
  match goal with
  | |- context [add_metadata_to_mp3 E ?f ?i ?start] =>
      destruct (add_metadata_to_mp3_returns E f i start) as (b & st3 & ->)
  end.
  reflexivity.
Qed.

(** C6 (as amended): after a successful primary extraction, the audio
    adapter checks the predicted path; if it is missing, the first file of
    the destination directory whose name ends in [.mp3], [.m4a], [.webm] or
    [.mp4] is the result, and the adapter fails (file was not created) only
    if there is none.  The TikTok and YouTube adapters, and the
    no-conversion path of the audio adapter, return the predicted path
    as it is, without looking at the disk. *)
Theorem scan_fallback_in_audio_adapter (E : env) (url dest : pystr)
    (st st1 st2 : state) (predicted : pystr) (track_info : dict) :
  makedirs dest st = (Ok tt, st1) →
  run_yt_dlp E url dest (lit "%(title)s.%(ext)s") st1
  = (Ok (YdlResult true (Some predicted) (Some track_info) None), st2) →
  predicted ≠ [] →
  let outcome := fst (download_soundcloud E url dest st) in
  scan_contract (fs st2) dest predicted outcome
  ∧ (path_exists (fs st2) predicted = true → outcome = Ok predicted)
  ∧ (path_exists (fs st2) predicted = false →
     find (endswith_any media_extensions) (listdir (fs st2) dest) = None →
     outcome = Raise (Exn Exception
                          (lit "Error downloading from SoundCloud: "
                           ++ lit "File was not created")))
  ∧ (∀ st0 (adapter : env -> pystr -> pystr -> M pystr),
       adapter = download_tiktok ∨ adapter = download_youtube →
       fails E (log st0) (ExtractInfo url (YTDL_OPTS dest)) = None →
       fst (adapter E url dest st0)
       = Ok (join dest (out_name (ydl E (log st0)))))
  ∧ (∀ st0 opts,
       opts = YdlOpts (lit "bestaudio/best") dest (lit "%(title)s.%(ext)s")
                      false false None →
       fails E (log st0) (ExtractInfo url opts) = None →
       fst (download_without_conversion E url dest st0)
       = Ok (join dest (out_name (ydl E (log st0))))).
Proof.
  intros Hmk Hrun Hne outcome. subst outcome.
  cut (scan_contract (fs st2) dest predicted
         (fst (download_soundcloud E url dest st))
       ∧ (path_exists (fs st2) predicted = true →
          fst (download_soundcloud E url dest st) = Ok predicted)
       ∧ (path_exists (fs st2) predicted = false →
          find (endswith_any media_extensions) (listdir (fs st2) dest) = None →
          fst (download_soundcloud E url dest st)
          = Raise (Exn Exception
                       (lit "Error downloading from SoundCloud: "
                        ++ lit "File was not created")))).
  { intros (Hscan & Hfound & Hnone).
    split; [done|]. split; [done|]. split; [done|]. split.
    - intros st0 adapter. apply video_adapter_returns_prediction.
    - intros st0 opts ->. apply fallback_returns_prediction. }
  assert (download_soundcloud E url dest st
          = match
              (present ← os_path_exists predicted;
               final ← (if present then ret predicted
                        else
                          files_in_dir ← os_listdir dest;
                          match find (endswith_any media_extensions) files_in_dir with
                          | Some file => ret (join dest file)
                          | None => raise (Exn Exception (lit "File was not created"))
                          end);
               if bool_decide (track_info ≠ ∅)
               then add_metadata_to_mp3 E final track_info;; ret final
               else ret final) st2
            with
            | (Ok a, st') => (Ok a, st')
            | (Raise e, st') =>
                match kind e with
                | ImportError =>
                    raise (Exn Exception
                             (lit "yt-dlp not installed. Install: pip install yt-dlp"))
                | _ =>
                    raise (Exn Exception
                             (lit "Error downloading from SoundCloud: " ++ msg e))
                end st'
            end) as Heq.
  { unfold download_soundcloud.
    rewrite run_try_except, run_bind, Hmk, run_bind.
    unfold get_ffmpeg_path at 1, gets at 1.
    rewrite run_bind, Hrun. cbn [success negb filename result_info].
    by destruct predicted. }
  assert (fst (download_soundcloud E url dest st)
          = if path_exists (fs st2) predicted then Ok predicted
            else match find (endswith_any media_extensions)
                            (listdir (fs st2) dest) with
                 | Some file => Ok (join dest file)
                 | None =>
                     Raise (Exn Exception
                                (lit "Error downloading from SoundCloud: "
                                 ++ lit "File was not created"))
                 end) as Hout.
  { rewrite Heq. clear Heq.
    assert (∀ final,
              fst (match
                  (if bool_decide (track_info ≠ ∅)
                   then add_metadata_to_mp3 E final track_info;; ret final
                   else ret final) st2
                with
                | (Ok a, st') => (Ok a, st')
                | (Raise e, st') =>
                    match kind e with
                    | ImportError =>
                        raise (Exn Exception
                                 (lit "yt-dlp not installed. Install: pip install yt-dlp"))
                    | _ =>
                        raise (Exn Exception
                                 (lit "Error downloading from SoundCloud: " ++ msg e))
                    end st'
                end) = Ok final) as Htag.
    { intros final. destruct (bool_decide _); [|done].
      rewrite run_bind.
      by destruct (add_metadata_to_mp3_returns E final track_info st2)
        as (b & st3 & ->). }
    rewrite run_bind. unfold os_path_exists at 1, gets at 1. cbv beta iota.
    destruct (path_exists (fs st2) predicted).
    { rewrite run_bind. unfold ret at 1. cbv beta iota. by rewrite Htag. }
    rewrite run_bind, run_bind. unfold os_listdir at 1, gets at 1.
    cbv beta iota.
    destruct (find _ (listdir (fs st2) dest)) as [file|].
    { unfold ret at 1. cbv beta iota. by rewrite Htag. }
    reflexivity. }
  rewrite Hout. unfold scan_contract.
  split; [|split].
  - intros ->. destruct (find _ _); eauto.
  - by intros ->.
  - by intros -> ->.
Qed.

Lemma scan_fallback_in_audio_adapter_witness :
  scan_contract
    (fs (snd (run_yt_dlp converted_env track_url tmp (lit "%(title)s.%(ext)s")
                         empty_tmp)))
    tmp (join tmp (lit "Like Water.webm"))
    (fst (download_soundcloud converted_env track_url tmp empty_tmp)).
Proof.
  refine (proj1 (scan_fallback_in_audio_adapter converted_env track_url tmp
                   empty_tmp empty_tmp _ (join tmp (lit "Like Water.webm"))
                   song _ _ _)).
  - vm_compute. reflexivity.
  - vm_compute. reflexivity.
  - vm_compute. discriminate.
Defined.

(** The video adapters do not scan: C6, as stated, fails for TikTok when
    the engine leaves the download under another extension. *)
Lemma video_adapter_skips_scan :
  fst (download_tiktok renamed_env short_link tmp empty_tmp)
  = Ok (join tmp (lit "7301.mp4"))
  ∧ path_exists (fs (snd (download_tiktok renamed_env short_link tmp empty_tmp)))
                (join tmp (lit "7301.mp4")) = false
  ∧ find (endswith_any media_extensions)
         (listdir (fs (snd (download_tiktok renamed_env short_link tmp empty_tmp)))
                  tmp)
    = Some (lit "7301.webm")
  ∧ ¬ scan_contract
        (fs (snd (download_tiktok renamed_env short_link tmp empty_tmp)))
        tmp (join tmp (lit "7301.mp4"))
        (fst (download_tiktok renamed_env short_link tmp empty_tmp)).
Proof.
  split; [by vm_compute|]. split; [by vm_compute|].
  split; [by vm_compute|].
  intros Hscan. vm_compute in Hscan. by specialize (Hscan eq_refl).
Qed.

(** ** The tagger *)

Lemma raised_calls_app (E : env) (before l1 l2 : list event) :
  raised_calls E before (l1 ++ l2)
  = raised_calls E before l1 ++ raised_calls E (rev l1 ++ before) l2.
Proof.
  revert before. induction l1 as [|ev l1 IH]; intros before; [done|].
  simpl. rewrite IH, <- !app_assoc. done.
Qed.

Lemma raised_calls_among (E : env) (P : event -> Prop) (before l : list event) :
  Forall P l → Forall P (raised_calls E before l).
Proof.
  intros H. revert before. induction H as [|ev l Hev _ IH]; intros before.
  - constructor.
  - simpl. apply Forall_app. split; [|apply IH].
    destruct (fails E before ev); by repeat constructor.
Qed.

Section Clean.

Variable E : env.

Lemma clean_silent {A} (m : M A) :
  (∀ st, log (snd (m st)) = log st) → clean E m.
Proof. intros H st. exists []. split; [apply H|]. constructor. Qed.

Lemma clean_ret {A} (a : A) : clean E (ret a).
Proof. by apply clean_silent. Qed.

Lemma clean_raise {A} (e : exn) : clean E (raise (A:=A) e).
Proof. by apply clean_silent. Qed.

Lemma clean_gets {A} (f : state -> A) : clean E (gets f).
Proof. by apply clean_silent. Qed.

Lemma clean_modify_fs (f : filesystem -> filesystem) : clean E (modify_fs f).
Proof. by apply clean_silent. Qed.

Lemma clean_call (ev : event) : clean E (call E ev).
Proof.
  intros st. exists [ev]. unfold call.
  destruct (fails E (log st) ev) eqn:Hf; simpl; (split; [done|]); [done|].
  intros _. rewrite Hf. constructor.
Qed.

Lemma clean_bind {A B} (m : M A) (k : A -> M B) :
  clean E m → (∀ a, clean E (k a)) → clean E (bind m k).
Proof.
  intros Hm Hk st. rewrite run_bind.
  destruct (Hm st) as (n1 & Hl1 & H1).
  destruct (m st) as [[a|e] st1]; simpl in *.
  - destruct (Hk a st1) as (n2 & Hl2 & H2).
    exists (n2 ++ n1). split; [by rewrite Hl2, Hl1, app_assoc|].
    intros Hok. rewrite rev_app_distr, raised_calls_app, rev_involutive.
    apply Forall_app. split; [by apply H1|]. rewrite <- Hl1. by apply H2.
  - exists n1. done.
Qed.

(** A handler makes the calls of its [try] block tolerated ones. *)
Lemma clean_try_except {A} (d : pystr) (m : M A) (h : exn -> M A) :
  stays_inside tolerated d m → (∀ e, clean E (h e)) →
  clean E (try_except m h).
Proof.
  intros Hm Hh st. rewrite run_try_except.
  destruct (Hm st) as [_ (n1 & Hl1 & H1)].
  destruct (m st) as [[a|e] st1]; simpl in *.
  - exists n1. split; [done|]. intros _.
    apply raised_calls_among. by apply Forall_rev.
  - destruct (Hh e st1) as (n2 & Hl2 & H2).
    exists (n2 ++ n1). split; [by rewrite Hl2, Hl1, app_assoc|].
    intros Hok. rewrite rev_app_distr, raised_calls_app, rev_involutive.
    apply Forall_app. split.
    + apply raised_calls_among. by apply Forall_rev.
    + rewrite <- Hl1. by apply H2.
Qed.

End Clean.

Ltac clean_step :=
  match goal with
  | |- clean _ (bind _ _) => apply clean_bind; [|intros ?]
  | |- clean _ (ret _) => apply clean_ret
  | |- clean _ (raise _) => apply clean_raise
  | |- clean _ (gets _) => apply clean_gets
  | |- clean _ (reply _ _) => apply clean_gets
  | |- clean _ (os_path_exists _) => apply clean_gets
  | |- clean _ (modify_fs _) => apply clean_modify_fs
  | |- clean _ (call _ _) => apply clean_call
  | |- clean _ (if ?b then _ else _) => destruct b
  | |- clean _ (match ?x with _ => _ end) => destruct x
  | |- clean _ (let _ := _ in _) => cbv zeta
  end.

Lemma add_cover_art_clean (E : env) (url : value) : clean E (add_cover_art E url).
Proof.
  unfold add_cover_art. apply (clean_try_except E []).
  - repeat first [stays_step | apply stays_call; by left].
  - intros _. apply clean_ret.
Qed.

(** The body of the tagger, before its catch-all handler. *)
Lemma add_metadata_to_mp3_clean (E : env) (filepath : pystr) (track_info : dict) :
  ∃ body,
    add_metadata_to_mp3 E filepath track_info
    = try_except body (fun _ => ret false)
    ∧ clean E body.
Proof.
  eexists. split; [reflexivity|].
  unfold save, value_strip.
  repeat clean_step; try apply add_cover_art_clean.
  all: apply (clean_try_except E []); [|intros ?; repeat clean_step].
  all: repeat first [stays_step | apply stays_call; right; by eexists].
Qed.

Lemma add_cover_art_returns (E : env) (url : value) (st : state) :
  ∃ cover st',
    add_cover_art E url st = (Ok tt, st')
    ∧ log st' = cover ++ log st
    ∧ Forall (fun ev => cover_call ev = true) cover
    ∧ fs st' = fs st.
Proof.
  unfold add_cover_art. unfold_m. cbn.
  case_fails; [eexists [_], _; by repeat split; repeat constructor|].
  destruct (_ =? 200)%Z; cbn;
    [|eexists [_], _; by repeat split; repeat constructor].
  case_fails; [eexists [_; _], _; by repeat split; repeat constructor|].
  case_fails; eexists [_; _; _], _; by repeat split; repeat constructor.
Qed.

Lemma get_field (d : dict) (k : string) :
  text_or_missing d k = true → get d k (VStr []) = VStr (field d k).
Proof.
  unfold text_or_missing, get, field.
  by destruct (d !! k) as [[| |]|].
Qed.

Lemma genre_frames (d : dict) :
  match d !! "genre"%string with
  | Some genre => if truthy genre then [TALB genre] else []
  | None => []
  end
  = if truthy (get d "genre" (VStr [])) then [TALB (get d "genre" (VStr []))]
    else [].
Proof. unfold get. by destruct (d !! "genre"%string). Qed.

(** A run of the tagger in which no call other than the cover-art fetch
    fails: the file is opened, the frames of the write rules are added, the
    cover art is fetched if there is a thumbnail, the file is saved. *)
Lemma tagging_run (E : env) (filepath : pystr) (track_info : dict) (st : state) :
  path_exists (fs st) filepath = true →
  text_fields_ok track_info = true →
  (∀ l ev, cover_call ev = false → fails E l ev = None) →
  ∃ cover st',
    add_metadata_to_mp3 E filepath track_info st = (Ok true, st')
    ∧ log st' = TagSave filepath :: cover
                ++ rev (TagAdd <$> spec_frames track_info)
                ++ opening_calls E filepath st ++ log st
    ∧ Forall (fun ev => cover_call ev = true) cover.
Proof.
  intros Hex Hwf Hok.
  apply andb_prop in Hwf as [[Htitle Huploader]%andb_prop Hcreator].
  unfold add_metadata_to_mp3, save, spec_frames, spec_title, spec_artist,
    opening_calls.
  rewrite genre_frames.
  rewrite (get_field _ "title"), (get_field _ "uploader"),
    (get_field _ "creator") by done.
  unfold value_strip. unfold_m. cbn.
  rewrite Hex. cbn. rewrite Hok by done. cbn.
  destruct (mp3_has_tags E _); cbn; rewrite ?Hok by done; cbn.
  all: destruct (nonempty (strip (field track_info "uploader"))) eqn:Hu; cbn.
  all: destruct (nonempty (strip (field track_info "title"))) eqn:Ht; cbn;
    rewrite ?Hok by done; cbn.
  all: rewrite ?Hu; cbn; rewrite ?Hok by done; cbn.
  all: try match goal with
         | |- context [if nonempty (strip (field _ "creator")) then _ else _] =>
             destruct (nonempty (strip (field track_info "creator")));
             cbn; rewrite ?Hok by done; cbn
         end.
  all: destruct (truthy (get track_info "genre" (VStr [])));
    cbn; rewrite ?Hok by done; cbn.
  all: destruct (truthy (get track_info "thumbnail" VNone)); cbn.
  all: try match goal with
         | |- context [add_cover_art ?E0 ?u ?s] =>
             destruct (add_cover_art_returns E0 u s)
               as (cover & st5 & Hrun & Hl & Hcover & _);
             rewrite Hrun; cbn; rewrite Hok by done; cbn;
             exists cover; eexists; split; [reflexivity|];
             split; [cbn; rewrite Hl; reflexivity | done]
         end.
  all: rewrite Hok by done; cbn; exists []; eexists; split; [reflexivity|];
    split; [reflexivity | constructor].
Qed.

Lemma tagging_refuses_none_title (E : env) (filepath : pystr)
    (track_info : dict) (st : state) :
  track_info !! "title"%string = Some VNone →
  fst (add_metadata_to_mp3 E filepath track_info st) = Ok false.
Proof.
  intros Htitle. unfold add_metadata_to_mp3, get. rewrite Htitle.
  unfold value_strip. unfold_m. cbn.
  destruct (path_exists (fs st) filepath); cbn; [|done].
  case_fails; repeat case_fails; try done.
  destruct (mp3_has_tags E _); cbn; [done|]. by case_fails.
Qed.

(** C8: the tagger always returns a boolean and never raises.  For a file
    that does not exist it returns false without a call.  When it returns
    true, the only calls that raised are the cover-art fetch and the first
    attempt to open the file, so that any other failure gives false; a
    title that is not text gives false as well.  When the file exists, the
    text fields are text and the other calls succeed, it returns true
    whatever happens to the cover-art fetch. *)
Theorem tagging_never_raises (E : env) (filepath : pystr) (track_info : dict)
    (st : state) :
  let run := add_metadata_to_mp3 E filepath track_info st in
  (∃ b, fst run = Ok b)
  ∧ (path_exists (fs st) filepath = false → run = (Ok false, st))
  ∧ (fst run = Ok true →
     Forall tolerated (raised_calls E (log st) (events_since st (snd run))))
  ∧ (track_info !! "title"%string = Some VNone → fst run = Ok false)
  ∧ (path_exists (fs st) filepath = true → text_fields_ok track_info = true →
     (∀ l ev, cover_call ev = false → fails E l ev = None) →
     fst run = Ok true).
Proof.
  intros run. subst run. split; [|split; [|split; [|split]]].
  - destruct (add_metadata_to_mp3_returns E filepath track_info st)
      as (b & st' & ->). by exists b.
  - intros Hex. unfold add_metadata_to_mp3. unfold_m. cbn. by rewrite Hex.
  - destruct (add_metadata_to_mp3_clean E filepath track_info)
      as (body & -> & Hclean).
    rewrite run_try_except. destruct (Hclean st) as (new & Hl & Hraised).
    destruct (body st) as [[b|e] st']; cbn in *; [|done].
    intros [= ->]. rewrite (events_since_app _ _ new) by done. by apply Hraised.
  - apply tagging_refuses_none_title.
  - intros Hex Hwf Hok.
    by destruct (tagging_run E filepath track_info st Hex Hwf Hok)
      as (cover & st' & -> & _).
Qed.

Lemma tagging_never_raises_witness :
  fst (add_metadata_to_mp3 no_network_env (join tmp (lit "Song.MP3")) song
                           small_file)
  = Ok true.
Proof.
  refine (proj2 (proj2 (proj2 (proj2
            (tagging_never_raises no_network_env (join tmp (lit "Song.MP3"))
               song small_file)))) _ _ _).
  - vm_compute. reflexivity.
  - vm_compute. reflexivity.
  - intros l ev Hev. simpl. rewrite Hev. reflexivity.
Defined.











(** * Further properties of the code *)

(** ** File names *)

Lemma sanitize_filename_clean (filename : pystr) :
  clean_name (sanitize_filename filename).
Proof.
  unfold clean_name, sanitize_filename. split.
  - apply Forall_take, Forall_forall. intros c Hc.
    apply list_elem_of_In, in_map_iff in Hc as (c0 & <- & Hc0).
    apply filter_In in Hc0 as [_ Hc0]. apply negb_true_iff in Hc0.
    destruct (N.eqb_spec c0 32) as [->|Hne]; [by split|done].
  - rewrite length_take. lia.
Qed.

Lemma clean_characters_kept (s : pystr) :
  Forall (fun c => is_forbidden c = false ∧ c ≠ 32) s →
  map (fun c => if c =? 32 then 95 else c)
      (List.filter (fun c => negb (is_forbidden c)) s) = s.
Proof.
  induction 1 as [|c s [Hc Hsp] _ IH]; [done|].
  simpl. rewrite Hc. simpl. rewrite IH. by destruct (N.eqb_spec c 32).
Qed.

Lemma sanitize_filename_fixed (s : pystr) :
  clean_name s → sanitize_filename s = s.
Proof.
  intros [Hclean Hlen]. unfold sanitize_filename.
  rewrite clean_characters_kept by done. by apply take_ge.
Qed.

(** X1: whatever the input, the name [sanitize_filename] returns holds
    none of the characters it deletes and no space, and it is at most 100
    characters long (and never longer than the input).  A name without such
    characters is only cut to its first 100 characters; a name made of
    deleted characters alone becomes the empty name. *)
Theorem sanitize_filename_bounds (filename : pystr) :
  Forall (fun c => is_forbidden c = false ∧ c ≠ 32) (sanitize_filename filename)
  ∧ (length (sanitize_filename filename) ≤ 100)%nat
  ∧ (length (sanitize_filename filename) ≤ length filename)%nat
  ∧ (Forall (fun c => is_forbidden c = false ∧ c ≠ 32) filename →
     sanitize_filename filename = take 100 filename)
  ∧ (Forall (fun c => is_forbidden c = true) filename →
     sanitize_filename filename = []).
Proof.
  destruct (sanitize_filename_clean filename) as [Hc Hl].
  split; [done|]. split; [done|]. split; [|split].
  - unfold sanitize_filename. rewrite length_take, length_map.
    pose proof (filter_length_le (fun c => negb (is_forbidden c)) filename). lia.
  - intros Hok. unfold sanitize_filename. rewrite clean_characters_kept; done.
  - intros Hbad. clear Hc Hl. unfold sanitize_filename.
    assert (List.filter (fun c => negb (is_forbidden c)) filename = []) as ->; [|done].
    induction Hbad as [|c s Hcs _ IH]; [done|]. simpl. rewrite Hcs. exact IH.
Qed.

Lemma sanitize_filename_bounds_witness :
  sanitize_filename (lit "Like_Water") = take 100 (lit "Like_Water")
  ∧ sanitize_filename (lit "<?>") = [].
Proof.
  split.
  - apply (proj1 (proj2 (proj2 (proj2 (sanitize_filename_bounds (lit "Like_Water")))))).
    repeat constructor; vm_compute; discriminate.
  - apply (proj2 (proj2 (proj2 (proj2 (sanitize_filename_bounds (lit "<?>")))))).
    repeat constructor.
Defined.

(** X2: [sanitize_filename] is idempotent, and a name that is already
    clean (no deleted character, no space, at most 100 characters) comes
    back unchanged. *)
Theorem sanitize_filename_idempotent (filename : pystr) :
  sanitize_filename (sanitize_filename filename) = sanitize_filename filename
  ∧ (clean_name filename → sanitize_filename filename = filename).
Proof.
  split; [|apply sanitize_filename_fixed].
  apply sanitize_filename_fixed, sanitize_filename_clean.
Qed.

Lemma sanitize_filename_idempotent_witness :
  sanitize_filename (lit "Like_Water") = lit "Like_Water".
Proof.
  apply (proj2 (sanitize_filename_idempotent (lit "Like_Water"))).
  split; [|vm_compute; lia].
  repeat constructor; vm_compute; discriminate.
Defined.

(** ** The SoundCloud URL check *)

Lemma lower_cp_small (c : N) : lower_cp c ≠ 383 ∨ c = 383.
Proof.
  unfold lower_cp.
  destruct (N.leb_spec 65 c), (N.leb_spec c 90); simpl; lia.
Qed.

Lemma ci_eq_fold (c x : N) :
  plain c = true → ci_eq c x = (fold_cp x =? c).
Proof.
  unfold plain, ci_eq, fold_cp.
  intros [Hc Hlong]%andb_prop.
  apply N.eqb_eq in Hc. apply negb_true_iff, N.eqb_neq in Hlong. rewrite Hc.
  destruct (N.eqb_spec x 383) as [->|Hx].
  - change (lower_cp 383) with 383.
    destruct (N.eqb_spec 383 c); [done|]. simpl. by rewrite andb_true_r, N.eqb_sym.
  - by rewrite andb_false_r, orb_false_r.
Qed.

Lemma lower_cp_idempotent (c : N) : lower_cp (lower_cp c) = lower_cp c.
Proof.
  unfold lower_cp.
  destruct (N.leb_spec 65 c), (N.leb_spec c 90); cbn [andb]; try done.
  - destruct (N.leb_spec 65 (c + 32)), (N.leb_spec (c + 32) 90);
      cbn [andb]; lia.
  - destruct (N.leb_spec 65 c), (N.leb_spec c 90); cbn [andb]; lia.
  - destruct (N.leb_spec 65 c), (N.leb_spec c 90); cbn [andb]; lia.
  - destruct (N.leb_spec 65 c), (N.leb_spec c 90); cbn [andb]; lia.
Qed.

Lemma fold_lower (s : pystr) : fold (lower s) = fold s.
Proof.
  unfold fold, lower. rewrite map_map. apply map_ext. intros x.
  unfold fold_cp.
  destruct (N.eqb_spec x 383) as [->|Hx]; [done|].
  destruct (lower_cp_small x) as [Hl|]; [|done].
  apply N.eqb_neq in Hl. rewrite Hl. apply lower_cp_idempotent.
Qed.

Lemma startswith_app (p s rest : pystr) :
  startswith p s = true → startswith p (s ++ rest) = true.
Proof.
  rewrite !startswith_spec. intros [t ->]. exists (t ++ rest).
  by rewrite app_assoc.
Qed.

(** A run of literal pattern characters is a prefix test on the folded
    text. *)
Lemma re_match_literals (p : pystr) (rest : list re_item) (s : pystr) :
  forallb plain p = true →
  re_match ((Lit <$> p) ++ rest) s
  = startswith p (fold s) && re_match rest (drop (length p) s).
Proof.
  revert s. induction p as [|c p IH]; intros s Hp; [done|].
  simpl in Hp. apply andb_prop in Hp as [Hc Hp].
  destruct s as [|x s]; [done|].
  simpl. rewrite ci_eq_fold, IH by done.
  by rewrite N.eqb_sym, andb_assoc.
Qed.

Lemma startswith_split (a b s : pystr) :
  startswith (a ++ b) s = startswith a s && startswith b (drop (length a) s).
Proof.
  revert s. induction a as [|c a IH]; intros s; [done|].
  destruct s as [|x s]; [done|]. simpl. by rewrite IH, andb_assoc.
Qed.

(** One pattern of [is_soundcloud_url] as two prefix tests. *)
Lemma re_match_https_host (host : string) (url : pystr) :
  forallb plain (lit host) = true →
  re_match (https_host host) url
  = startswith (lit "https://" ++ lit host ++ lit "/") (fold url)
    || startswith (lit "http://" ++ lit host ++ lit "/") (fold url).
Proof.
  intros Hhost. unfold https_host.
  assert (∀ s, re_match ((Lit <$> lit "://") ++ (Lit <$> lit host) ++ [Lit slash]) s
               = startswith (lit "://" ++ lit host ++ lit "/") (fold s)) as Htail.
  { intros s.
    rewrite re_match_literals by done.
    rewrite re_match_literals by done.
    change [Lit slash] with ((Lit <$> lit "/") ++ []).
    rewrite re_match_literals by done. cbn [re_match].
    rewrite andb_true_r, !startswith_split. unfold fold.
    by rewrite !skipn_map. }
  rewrite re_match_literals by done.
  cbn [app re_match]. rewrite !Htail.
  change (lit "https://") with (lit "http" ++ [115] ++ lit "://").
  change (lit "http://") with (lit "http" ++ lit "://").
  rewrite <- !app_assoc, (startswith_split (lit "http")).
  rewrite (startswith_split (lit "http") (lit "://" ++ _)).
  rewrite <- andb_orb_distrib_r. f_equal.
  assert (drop (length (lit "http")) (fold url) = fold (drop 4 url)) as ->
    by (unfold fold; apply skipn_map).
  change (length (lit "http")) with 4%nat.
  f_equal.
  destruct (drop 4 url) as [|x s]; [done|].
  rewrite Htail, ci_eq_fold by done.
  cbn [fold map app startswith]. by rewrite N.eqb_sym.
Qed.

(** X3: [is_soundcloud_url] accepts exactly the texts that begin, letter
    case aside, with [http://] or [https://], one of the hosts
    [soundcloud.com], [on.soundcloud.com] and [m.soundcloud.com], and a
    slash.  So its answer does not change when the text is put in lower
    case, and what follows an accepted beginning does not matter. *)
Theorem is_soundcloud_url_prefixes (url : pystr) :
  is_soundcloud_url url = startswith_any soundcloud_prefixes (fold url)
  ∧ is_soundcloud_url (lower url) = is_soundcloud_url url
  ∧ (is_soundcloud_url url = true →
     ∀ rest, is_soundcloud_url (url ++ rest) = true).
Proof.
  assert (∀ u, is_soundcloud_url u = startswith_any soundcloud_prefixes (fold u))
    as Hchar.
  { intros u. unfold is_soundcloud_url, startswith_any, soundcloud_prefixes.
    cbn [existsb]. rewrite !re_match_https_host by done.
    rewrite !orb_false_r, <- !orb_assoc. done. }
  split; [apply Hchar|]. split.
  - by rewrite !Hchar, fold_lower.
  - intros Hurl rest. rewrite Hchar in *. unfold startswith_any in *.
    apply existsb_exists in Hurl as (p & Hp & Hs).
    apply existsb_exists. exists p. split; [done|].
    unfold fold. rewrite List.map_app. by apply startswith_app.
Qed.

Lemma is_soundcloud_url_prefixes_witness :
  is_soundcloud_url
    (lit "HTTPS://ON.SoundCloud.com/" ++ lit "likewaterofficial/likewater")
  = true.
Proof.
  apply (proj2 (proj2 (is_soundcloud_url_prefixes
                         (lit "HTTPS://ON.SoundCloud.com/")))).
  vm_compute. reflexivity.
Defined.

(** ** Progress notices *)

(** X4: [update_progress_message] leaves the disk alone and makes one or
    two calls.  Without a message id (none, or 0) it sends a new message.
    With one it edits that message and returns the same id; if the edit
    raises, it sends a new message instead.  It returns the id of the new
    message whenever it sent one, and it raises only when sending the new
    message raised. *)
Theorem update_progress_message_outcomes (E : env) (chat : Z) (t : pystr)
    (id : option Z) (st : state) :
  let send := SendMessage chat (progress_text t) in
  let edit i := EditMessageText chat i (progress_text t) in
  let run := update_progress_message E chat t id st in
  fs (snd run) = fs st
  ∧ (id = None ∨ id = Some 0%Z → events_since st (snd run) = [send])
  ∧ (∀ i, id = Some i → i ≠ 0%Z → fails E (log st) (edit i) = None →
       run = (Ok i, State (edit i :: log st) (fs st)))
  ∧ (∀ i x, id = Some i → i ≠ 0%Z → fails E (log st) (edit i) = Some x →
       events_since st (snd run) = [edit i; send])
  ∧ (∀ j, fst run = Ok j →
       (id = Some j ∧ j ≠ 0%Z ∧ fails E (log st) (edit j) = None)
       ∨ j = sent_id E (log (snd run)))
  ∧ (∀ e, fst run = Raise e →
       ∃ before, log (snd run) = send :: before ∧ fails E before send = Some e).
Proof.
  intros send edit run. subst send edit run.
  unfold update_progress_message. unfold_m.
  destruct id as [i|]; [destruct (Z.eqb_spec i 0) as [->|Hi]|]; cbn.
  all: repeat case_fails; since_log.
  all: repeat split; try done; intros; simplify_eq/=;
    first [done | congruence | by eauto 8 | by destruct_or!; simplify_eq].
Qed.

Lemma update_progress_message_outcomes_witness :
  update_progress_message plain_env 5 (lit "Sending file...") (Some 7%Z) empty_tmp
  = (Ok 7%Z,
     State (EditMessageText 5 7 (progress_text (lit "Sending file..."))
            :: log empty_tmp) (fs empty_tmp)).
Proof.
  apply (proj1 (proj2 (proj2 (update_progress_message_outcomes plain_env 5
                                (lit "Sending file...") (Some 7%Z) empty_tmp)))
           7%Z eq_refl).
  - discriminate.
  - reflexivity.
Defined.

(** ** The handler: what is not a link, and what is not there *)

(** X5: a message whose text, once trimmed, does not begin with
    [http://] or [https://] (in exactly this spelling) gets the
    invalid-link answer and nothing else: no progress message, no temporary
    directory, no download, no change on disk.  A message without text
    makes the handler raise before any call. *)
Theorem invalid_link_rejected (E : env) (m : message) (st : state) :
  (text m = None →
   handle_link E m st
   = (Raise (Exn AttributeError
                 (lit "'NoneType' object has no attribute 'strip'")), st))
  ∧ (∀ t, text m = Some t →
       startswith_any [lit "http://"; lit "https://"] (strip t) = false →
       events_since st (snd (handle_link E m st))
       = [Answer (chat_id m) invalid_link_text]
       ∧ fs (snd (handle_link E m st)) = fs st
       ∧ fst (handle_link E m st)
         = match fails E (log st) (Answer (chat_id m) invalid_link_text) with
           | Some x => Raise x
           | None => Ok tt
           end).
Proof.
  unfold handle_link. split.
  - by intros ->.
  - intros t -> ->. cbn [negb]. unfold call.
    destruct (fails E (log st) _); cbn; by since_log.
Qed.

Lemma invalid_link_rejected_witness :
  events_since empty_tmp
    (snd (handle_link plain_env (Message (Some (lit " HTTPS://youtu.be/x ")) 5)
                      empty_tmp))
  = [Answer 5 invalid_link_text].
Proof.
  refine (proj1 (proj2 (invalid_link_rejected plain_env
                          (Message (Some (lit " HTTPS://youtu.be/x ")) 5)
                          empty_tmp)
                   (lit " HTTPS://youtu.be/x ") eq_refl _)).
  vm_compute. reflexivity.
Defined.

(** The last part of the handler on a path that does not exist: every
    call is a progress notice, the first one says [File not found], and the
    disk is left alone. *)
Lemma relay_file_missing (E : env) (chat pid : Z) (f platform : pystr)
    (st : state) :
  path_exists (fs st) f = false →
  let st' := snd (relay_file E chat pid f platform st) in
  Forall (fun ev => is_progress_notice ev = true) (events_since st st')
  ∧ hd_error (events_since st st')
    = Some (notice_call chat pid ([10060] ++ lit " File not found"))
  ∧ fs st' = fs st.
Proof.
  intros Hex st'. subst st'.
  unfold relay_file, update_progress_message, notice_call.
  unfold_m. cbn. rewrite Hex. cbn.
  destruct (pid =? 0)%Z; cbn; repeat case_fails; since_log;
    (split; [repeat constructor; apply progress_text_notice | done]).
Qed.

(** Whatever is on disk, the calls of [relay_file] are some of the relay
    steps, in order, followed by progress notices. *)
Lemma relay_file_shape (E : env) (chat pid : Z) (f platform : pystr)
    (st : state) :
  ∃ k notices,
    events_since st (snd (relay_file E chat pid f platform st))
    = take k (relay_steps chat pid f platform) ++ notices
    ∧ Forall (fun ev => is_progress_notice ev = true) notices.
Proof.
  unfold relay_steps, upload_call, relay_file, update_progress_message,
    send_audio_to_telegram, send_success_message.
  unfold_m. cbn.
  destruct (path_exists (fs st) f); cbn.
  2: { destruct (pid =? 0)%Z; cbn; repeat case_fails; since_log;
         exists 0%nat; eexists; (split; [reflexivity|]);
         repeat constructor; apply progress_text_notice. }
  destruct (file_size (fs st) f) as [n|]; cbn.
  2: { exists 0%nat, []. by rewrite (events_since_app _ _ []). }
  destruct (n <=? MAX_SIZE); cbn.
  2: { destruct (pid =? 0)%Z; cbn; repeat case_fails; since_log;
         exists 0%nat; eexists; (split; [reflexivity|]);
         repeat constructor; apply progress_text_notice. }
  destruct (bool_decide (lower (splitext_ext f) = lit ".mp3")); cbn.
  all: destruct (pid =? 0)%Z; cbn; repeat case_fails; since_log.
  all: first
         [ solve [exists 1%nat; eexists; split;
                  [reflexivity | repeat constructor; apply progress_text_notice]]
         | solve [exists 2%nat; eexists; split;
                  [reflexivity | repeat constructor; apply progress_text_notice]]
         | solve [exists 3%nat; eexists; split;
                  [reflexivity | repeat constructor; apply progress_text_notice]] ].
Qed.

(** ** Platform labels *)

(** X7: the label [choose_downloader] returns with a file is the label
    of the platform the URL was routed to, one of [tiktok], [youtube] and
    [soundcloud]; each of them has its own line in [success_messages], so
    the confirmation never falls back to the default line. *)
Theorem platform_label_has_message (E : env) (url dest : pystr) (chat pid : Z)
    (st st' : state) (file_path platform : pystr) :
  choose_downloader E url dest chat pid st = (Ok (file_path, platform), st') →
  (∃ k, detect_in_url url = Some k ∧ platform = label k)
  ∧ In (platform,
        assoc_get success_messages platform ([9989] ++ lit " *File is ready!*"))
       success_messages
  ∧ startswith [9989] (success_text platform file_path) = false.
Proof.
  rewrite choose_downloader_route. unfold route.
  destruct (detect_in_url url) as [k|]; [|done].
  rewrite run_bind.
  destruct (update_progress_message _ _ _ _ st) as [[j|e] st1]; [|done].
  rewrite run_bind.
  destruct (adapter E k url dest st1) as [[f|e] st2]; [|done].
  intros [= <- <- <-].
  split; [by exists k|].
  destruct k; vm_compute; intuition.
Qed.

Lemma platform_label_has_message_witness :
  startswith [9989]
    (success_text (lit "tiktok") (join tmp (lit "7301.mp4"))) = false.
Proof.
  refine (proj2 (proj2 (platform_label_has_message renamed_env short_link tmp
                          5 7 empty_tmp _ (join tmp (lit "7301.mp4"))
                          (lit "tiktok") _))).
  vm_compute. reflexivity.
Defined.

(** ** Whose calls a request makes *)

Lemma add_cover_art_adapter (E : env) (url d : pystr) (thumbnail : value) :
  stays_inside (adapter_call url d) d (add_cover_art E thumbnail).
Proof. unfold add_cover_art. stays. Qed.

Lemma add_metadata_to_mp3_adapter (E : env) (url d filepath : pystr)
    (track_info : dict) :
  stays_inside (adapter_call url d) d (add_metadata_to_mp3 E filepath track_info).
Proof.
  unfold add_metadata_to_mp3, save, value_strip.
  stays; apply add_cover_art_adapter.
Qed.

Lemma run_yt_dlp_adapter (E : env) (url d pattern : pystr) :
  stays_inside (adapter_call url d) d (run_yt_dlp E url d pattern).
Proof. unfold run_yt_dlp, get_ffmpeg_path. stays. Qed.

Lemma download_without_conversion_adapter (E : env) (url d : pystr) :
  stays_inside (adapter_call url d) d (download_without_conversion E url d).
Proof.
  unfold download_without_conversion. stays. apply add_metadata_to_mp3_adapter.
Qed.

Lemma download_soundcloud_adapter (E : env) (url d : pystr) :
  stays_inside (adapter_call url d) d (download_soundcloud E url d).
Proof.
  unfold download_soundcloud, get_ffmpeg_path.
  stays;
    first [ apply run_yt_dlp_adapter | apply download_without_conversion_adapter
          | apply add_metadata_to_mp3_adapter ].
Qed.

Lemma download_tiktok_adapter (E : env) (url d : pystr) :
  stays_inside (adapter_call url d) d (download_tiktok E url d).
Proof. unfold download_tiktok. stays. Qed.

Lemma download_youtube_adapter (E : env) (url d : pystr) :
  stays_inside (adapter_call url d) d (download_youtube E url d).
Proof. unfold download_youtube. stays. Qed.

(** X8: the three adapters call the extraction engine, always on the
    URL they were given and into the folder they were given, and the audio
    adapter also the tag library and the cover-art fetch; none of them
    sends, edits or deletes a message, uploads a file or asks for a
    temporary directory.  When the destination folder is there, as it is
    in the handler, which passes its temporary directory, they create no
    directory and leave the folder in place. *)
Theorem adapters_keep_to_their_folder (E : env) (url d : pystr) (st : state)
    (adapter : env -> pystr -> pystr -> M pystr) :
  adapter = download_tiktok ∨ adapter = download_youtube
  ∨ adapter = download_soundcloud →
  Forall (adapter_call url d) (events_since st (snd (adapter E url d st)))
  ∧ (is_dir (fs st) d = true →
     is_dir (fs (snd (adapter E url d st))) d = true
     ∧ ∀ k, is_Some (fs (snd (adapter E url d st)) !! k) →
            is_Some (fs st !! k)).
Proof.
  intros Hadapter.
  assert (stays_inside (adapter_call url d) d (adapter E url d)) as Hstays.
  { destruct Hadapter as [-> | [-> | ->]];
      [apply download_tiktok_adapter | apply download_youtube_adapter
      | apply download_soundcloud_adapter]. }
  destruct (Hstays st) as [Hfs (new & Hl & HP)].
  split; [|done].
  rewrite (events_since_app _ _ new) by done. by apply Forall_rev.
Qed.

Lemma adapters_keep_to_their_folder_witness :
  is_dir (fs (snd (download_soundcloud no_converter_env track_url tmp
                     empty_tmp))) tmp = true.
Proof.
  refine (proj1 (proj2 (adapters_keep_to_their_folder no_converter_env
                          track_url tmp empty_tmp download_soundcloud _) _)).
  - right. right. reflexivity.
  - reflexivity.
Defined.

Lemma notice_stays (E : env) (chat pid : Z) (d t : pystr) (id : option Z) :
  id = None ∨ id = Some pid →
  stays_inside
    (fun ev => is_progress_notice ev = true ∧ own_call chat pid d ev) d
    (update_progress_message E chat t id).
Proof.
  intros [-> | ->]; unfold update_progress_message; stays.
Qed.

Lemma notice_own (E : env) (chat pid : Z) (d t : pystr) :
  stays_inside (own_call chat pid d) d
    (update_progress_message E chat t (Some pid)).
Proof.
  eapply stays_weaken; [|apply (notice_stays E chat pid d t); by right].
  by intros ev [_ ?].
Qed.

Lemma adapter_call_own (url : pystr) (chat pid : Z) (d : pystr) (ev : event) :
  adapter_call url d ev → own_call chat pid d ev.
Proof. destruct ev; simpl; intuition. Qed.

Lemma choose_downloader_calls (E : env) (url d : pystr) (chat pid : Z) :
  stays_inside (download_call url chat pid d) d
    (choose_downloader E url d chat pid).
Proof.
  unfold choose_downloader.
  stays.
  all: first
         [ eapply stays_weaken;
           [|apply (notice_stays E chat pid d); by right]; by right
         | eapply stays_weaken;
           [|first [ apply download_tiktok_adapter
                   | apply download_youtube_adapter
                   | apply download_soundcloud_adapter ]]; by left ].
Qed.

Lemma download_call_own (url : pystr) (chat pid : Z) (d : pystr) (ev : event) :
  download_call url chat pid d ev → own_call chat pid d ev.
Proof. intros [H | [_ H]]; [by eapply adapter_call_own | done]. Qed.

Lemma relay_file_own (E : env) (d : pystr) (chat pid : Z) (f platform : pystr) :
  stays_inside (own_call chat pid d) d (relay_file E chat pid f platform).
Proof.
  unfold relay_file, send_audio_to_telegram, send_success_message.
  stays; apply notice_own.
Qed.

Lemma request_body_own (E : env) (url d : pystr) (chat pid : Z) :
  stays_inside (own_call chat pid d) d (request_body E url chat pid d).
Proof.
  unfold request_body.
  stays;
    first [ apply notice_own | apply relay_file_own
          | eapply stays_weaken;
            [apply download_call_own | apply choose_downloader_calls] ].
Qed.

(** The handler on a link, cut at its [with] block. *)
Lemma handle_link_valid (E : env) (m : message) (t : pystr) :
  text m = Some t →
  startswith_any [lit "http://"; lit "https://"] (strip t) = true →
  handle_link E m
  = (progress_msg_id ← update_progress_message E (chat_id m)
                         (lit "Checking link...") None;
     with_TemporaryDirectory E
       (request_body E (strip t) (chat_id m) progress_msg_id)).
Proof. unfold handle_link. by intros -> ->. Qed.

Lemma checking_sent (E : env) (chat : Z) (st : state) :
  update_progress_message E chat (lit "Checking link...") None st
  = (match fails E (log st) (checking_call chat) with
     | Some x => Raise x
     | None => Ok (first_id E chat st)
     end, after_checking chat st).
Proof.
  unfold update_progress_message, checking_call, first_id, after_checking.
  unfold_m. cbn. by destruct (fails E (log st) _).
Qed.

(** The anatomy of a run of the handler on a link. *)
Lemma handle_link_run (E : env) (m : message) (t : pystr) (st : state) :
  text m = Some t →
  startswith_any [lit "http://"; lit "https://"] (strip t) = true →
  let chat := chat_id m in
  let st1 := after_checking chat st in
  handle_link E m st
  = match fails E (log st) (checking_call chat) with
    | Some x => (Raise x, st1)
    | None =>
        match mkdtemp E st1 with
        | (Ok d, st2) =>
            let (outcome, st3) :=
              request_body E (strip t) chat (first_id E chat st) d st2 in
            (outcome, State (log st3) (rmtree d (fs st3)))
        | (Raise e, st2) => (Raise e, st2)
        end
    end.
Proof.
  intros Ht Hvalid chat st1. rewrite (handle_link_valid E m t Ht Hvalid).
  subst chat st1. rewrite run_bind, checking_sent.
  destruct (fails E (log st) (checking_call (chat_id m))); [done|].
  by rewrite run_with_TemporaryDirectory.
Qed.

Ltac own_list :=
  repeat first [ apply Forall_nil_2
               | apply Forall_cons_2; [first [by left | by right]|] ].

Lemma handle_link_own_calls (E : env) (m : message) (st : state)
    (d : pystr) :
  (∀ d', fst (mkdtemp E (after_checking (chat_id m) st)) = Ok d' → d' = d) →
  Forall (fun ev => ev = MkDtemp
                    ∨ own_call (chat_id m) (first_id E (chat_id m) st) d ev)
         (events_since st (snd (handle_link E m st))).
Proof.
  intros Hd.
  destruct (text m) as [t|] eqn:Ht.
  2: { unfold handle_link. rewrite Ht. unfold raise. cbn.
       rewrite (events_since_app st st []) by done. apply Forall_nil_2. }
  destruct (startswith_any [lit "http://"; lit "https://"] (strip t)) eqn:Hv.
  2: { unfold handle_link. rewrite Ht, Hv. cbn [negb]. unfold call.
       destruct (fails E (log st) _); cbn; since_log;
         own_list. }
  rewrite (handle_link_run E m t st Ht Hv). cbv zeta.
  assert (own_call (chat_id m) (first_id E (chat_id m) st) d
            (checking_call (chat_id m))) as Hfirst by done.
  destruct (fails E (log st) (checking_call (chat_id m))).
  { unfold after_checking. cbn. since_log. own_list. }
  pose proof (mkdtemp_spec E (after_checking (chat_id m) st)) as [Hl1 _].
  destruct (mkdtemp E (after_checking (chat_id m) st)) as [[d'|e] st2];
    cbn [fst snd] in *.
  2: { rewrite (events_since_app _ _ [MkDtemp; checking_call (chat_id m)])
         by (by rewrite Hl1).
       cbn. own_list. }
  rewrite (Hd d' eq_refl) in *.
  destruct (request_body_own E (strip t) d (chat_id m)
              (first_id E (chat_id m) st) st2) as [_ (new & Hl & HP)].
  destruct (request_body E (strip t) (chat_id m) _ d st2) as [outcome st3].
  cbn [fst snd log] in *.
  rewrite (events_since_app _ _ (new ++ [MkDtemp; checking_call (chat_id m)]))
    by (cbn [log]; by rewrite Hl, Hl1, <- app_assoc).
  rewrite rev_app_distr. apply Forall_app. split.
  - cbn. own_list.
  - apply Forall_rev. eapply Forall_impl; [exact HP|]. by right.
Qed.

(** X9: every call the handler makes for a message belongs to that
    message's request.  What it sends, it sends to the chat the message came
    from; what it edits or deletes is the progress message it sent first
    (the one whose id the first send returned), also after a later notice
    had to be sent as a new message; and every download goes into the
    temporary directory it created. *)
Theorem handler_calls_are_its_own (E : env) (m : message) (st : state) :
  Forall (fun ev => ev = MkDtemp
                    ∨ own_call (chat_id m) (first_id E (chat_id m) st)
                               (request_dir E (chat_id m) st) ev)
         (events_since st (snd (handle_link E m st))).
Proof.
  apply handle_link_own_calls. intros d' Hd'. unfold request_dir.
  by rewrite Hd'.
Qed.

(** ** The handler from end to end *)

Lemma notice_events (E : env) (chat pid : Z) (t : pystr) (st : state) :
  ∃ l, notice_calls chat pid t l
       ∧ log (snd (update_progress_message E chat t (Some pid) st))
         = rev l ++ log st
       ∧ fs (snd (update_progress_message E chat t (Some pid) st)) = fs st.
Proof.
  unfold update_progress_message, notice_calls, notice_call. unfold_m.
  destruct (Z.eqb_spec pid 0) as [->|Hpid]; cbn.
  - exists [SendMessage chat (progress_text t)].
    case_fails; (split; [by left | done]).
  - destruct (fails E (log st) (EditMessageText chat pid (progress_text t)));
      cbn.
    + exists [EditMessageText chat pid (progress_text t);
              SendMessage chat (progress_text t)].
      case_fails; (split; [by right | done]).
    + exists [EditMessageText chat pid (progress_text t)].
      split; [by left | done].
Qed.

(** A notice raises only what sending the new message raised. *)
Lemma notice_raise (E : env) (chat : Z) (t : pystr) (id : option Z)
    (st : state) (x : exn) :
  fst (update_progress_message E chat t id st) = Raise x →
  ∃ before, fails E before (SendMessage chat (progress_text t)) = Some x.
Proof.
  unfold update_progress_message. unfold_m.
  destruct id as [i|]; [destruct (i =? 0)%Z|]; cbn; repeat case_fails;
    intros [= <-]; eauto.
Qed.

Lemma request_body_failure (E : env) (url : pystr) (chat pid : Z) (d : pystr)
    (st st1 : state) (e : exn) :
  choose_downloader E url d chat pid st = (Raise e, st1) →
  request_body E url chat pid d st
  = let run := update_progress_message E chat (download_error_text e)
                                       (Some pid) st1 in
    (match fst run with Ok _ => Ok tt | Raise x => Raise x end, snd run).
Proof.
  intros Hfail. unfold request_body, download_error_text.
  rewrite run_bind, run_try_except, run_bind, Hfail, run_bind.
  cbv zeta.
  by destruct (update_progress_message E chat _ (Some pid) st1) as [[j|x] st2].
Qed.

Lemma request_body_success (E : env) (url : pystr) (chat pid : Z) (d : pystr)
    (st st1 : state) (f platform : pystr) :
  choose_downloader E url d chat pid st = (Ok (f, platform), st1) →
  request_body E url chat pid d st
  = let run := update_progress_message E chat (lit "Sending file...")
                                       (Some pid) st1 in
    match fst run with
    | Ok _ => relay_file E chat pid f platform (snd run)
    | Raise x =>
        let told := update_progress_message E chat (download_error_text x)
                                            (Some pid) (snd run) in
        (match fst told with Ok _ => Ok tt | Raise y => Raise y end, snd told)
    end.
Proof.
  intros Hok. unfold request_body, download_error_text.
  rewrite run_bind, run_try_except, run_bind, Hok, run_bind.
  cbv zeta.
  destruct (update_progress_message E chat _ (Some pid) st1) as [[j|x] st2];
    cbn [fst snd]; [done|].
  rewrite run_bind.
  by destruct (update_progress_message E chat _ (Some pid) st2) as [[j|y] st3].
Qed.

(** A run of the handler that got its temporary directory. *)
Lemma handle_link_through (E : env) (m : message) (t d : pystr)
    (st st2 : state) :
  text m = Some t →
  startswith_any [lit "http://"; lit "https://"] (strip t) = true →
  fails E (log st) (checking_call (chat_id m)) = None →
  mkdtemp E (after_checking (chat_id m) st) = (Ok d, st2) →
  let run := handle_link E m st in
  let body := request_body E (strip t) (chat_id m)
                (first_id E (chat_id m) st) d st2 in
  log st2 = MkDtemp :: checking_call (chat_id m) :: log st
  ∧ fs st2 = <[d := []]> (fs st)
  ∧ fst run = fst body
  ∧ fs (snd run) = rmtree d (fs (snd body))
  ∧ ∀ new, log (snd body) = new ++ log st2 →
           events_since st (snd run)
           = checking_call (chat_id m) :: MkDtemp :: rev new.
Proof.
  intros Ht Hv Hfirst Hmk run body. subst run body.
  rewrite (handle_link_run E m t st Ht Hv). cbv zeta.
  pose proof (mkdtemp_spec E (after_checking (chat_id m) st)) as [Hl1 Hfs1].
  rewrite Hfirst, Hmk in *. cbn [fst snd] in *.
  destruct (request_body E (strip t) (chat_id m) _ d st2) as [outcome st3].
  cbn [fst snd log fs] in *. repeat split; try done.
  intros new Hnew.
  rewrite (events_since_app _ _ (new ++ [MkDtemp; checking_call (chat_id m)]))
    by (cbn [log]; by rewrite Hnew, Hl1, <- app_assoc).
  by rewrite rev_app_distr.
Qed.

(** The events of a run of the handler, by how far it got. *)
Lemma handle_link_events (E : env) (m : message) (st : state) :
  let chat := chat_id m in
  let run := handle_link E m st in
  (events_since st (snd run) = [] ∧ fs (snd run) = fs st)
  ∨ (events_since st (snd run) = [Answer chat invalid_link_text]
     ∧ fs (snd run) = fs st)
  ∨ (events_since st (snd run) = [checking_call chat] ∧ fs (snd run) = fs st)
  ∨ (events_since st (snd run) = [checking_call chat; MkDtemp]
     ∧ fs (snd run) = fs st)
  ∨ ∃ t d st2,
      text m = Some t
      ∧ startswith_any [lit "http://"; lit "https://"] (strip t) = true
      ∧ fails E (log st) (checking_call chat) = None
      ∧ mkdtemp E (after_checking chat st) = (Ok d, st2)
      ∧ log st2 = MkDtemp :: checking_call chat :: log st
      ∧ fs st2 = <[d := []]> (fs st)
      ∧ let body := request_body E (strip t) chat (first_id E chat st) d st2 in
        fst run = fst body
        ∧ fs (snd run) = rmtree d (fs (snd body))
        ∧ ∀ new, log (snd body) = new ++ log st2 →
                 events_since st (snd run)
                 = checking_call chat :: MkDtemp :: rev new.
Proof.
  intros chat run. subst chat run.
  destruct (text m) as [t|] eqn:Ht.
  2: { left. unfold handle_link. rewrite Ht. unfold raise. cbn.
       by rewrite (events_since_app st st []). }
  destruct (startswith_any [lit "http://"; lit "https://"] (strip t)) eqn:Hv.
  2: { right. left. unfold handle_link. rewrite Ht, Hv. cbn [negb].
       unfold call. destruct (fails E (log st) _); cbn; by since_log. }
  destruct (fails E (log st) (checking_call (chat_id m))) eqn:Hfirst.
  { do 2 right. left. rewrite (handle_link_run E m t st Ht Hv). cbv zeta.
    rewrite Hfirst. unfold after_checking. cbn. by since_log. }
  destruct (mkdtemp E (after_checking (chat_id m) st)) as [[d|e] st2] eqn:Hmk.
  2: { do 3 right. left. rewrite (handle_link_run E m t st Ht Hv). cbv zeta.
       pose proof (mkdtemp_spec E (after_checking (chat_id m) st)) as [Hl1 Hfs1].
       rewrite Hfirst, Hmk in *. cbn [fst snd] in *. split; [|done].
       by rewrite (events_since_app _ _ [MkDtemp; checking_call (chat_id m)])
         by (by rewrite Hl1). }
  do 4 right. exists t, d, st2.
  pose proof (handle_link_through E m t d st st2 Ht Hv Hfirst Hmk) as H.
  cbv zeta in H. by destruct H as (? & ? & ? & ? & ?).
Qed.

Lemma upload_count_app (l1 l2 : list event) :
  upload_count (l1 ++ l2) = (upload_count l1 + upload_count l2)%nat.
Proof. unfold upload_count. by rewrite List.filter_app, length_app. Qed.

Lemma upload_count_none (P : event -> Prop) (l : list event) :
  (∀ ev, P ev → is_upload ev = false) → Forall P l → upload_count l = 0%nat.
Proof.
  intros HP Hl. unfold upload_count.
  induction Hl as [|ev l Hev _ IH]; [done|]. cbn. by rewrite (HP ev Hev).
Qed.

Lemma download_call_no_upload (url : pystr) (chat pid : Z) (d : pystr)
    (ev : event) :
  download_call url chat pid d ev → is_upload ev = false.
Proof. intros [H | [H _]]; by destruct ev. Qed.

Lemma notice_no_upload (ev : event) :
  is_progress_notice ev = true → is_upload ev = false.
Proof. by destruct ev. Qed.

Lemma relay_steps_one_upload (chat pid : Z) (f platform : pystr) (k : nat) :
  (upload_count (take k (relay_steps chat pid f platform)) ≤ 1)%nat.
Proof.
  unfold relay_steps, upload_call, upload_count.
  destruct (bool_decide _); destruct k as [|[|[|k]]]; cbn;
    rewrite ?take_nil; cbn; lia.
Qed.

Lemma request_body_uploads (E : env) (url : pystr) (chat pid : Z) (d : pystr)
    (st : state) :
  ∃ new, log (snd (request_body E url chat pid d st)) = new ++ log st
         ∧ (upload_count (rev new) ≤ 1)%nat.
Proof.
  destruct (choose_downloader_calls E url d chat pid st)
    as [_ (new1 & Hl1 & HP1)].
  assert (upload_count (rev new1) = 0%nat) as H1.
  { eapply upload_count_none; [apply download_call_no_upload|].
    apply Forall_rev, HP1. }
  assert (∀ t s, ∃ l,
             log (snd (update_progress_message E chat t (Some pid) s))
             = l ++ log s ∧ upload_count (rev l) = 0%nat) as Hnotice.
  { intros t s.
    destruct (notice_stays E chat pid d t (Some pid) (or_intror eq_refl) s)
      as [_ (l & Hl & HP)].
    exists l. split; [done|].
    eapply upload_count_none; [|apply Forall_rev, HP].
    intros ev [Hev _]. by apply notice_no_upload. }
  destruct (choose_downloader E url d chat pid st) as [[[f platform]|e] st1]
    eqn:Hrun; cbn [snd] in *.
  - rewrite (request_body_success E url chat pid d st st1 f platform Hrun).
    cbv zeta.
    destruct (Hnotice (lit "Sending file...") st1) as (l2 & Hl2 & H2).
    destruct (update_progress_message E chat _ (Some pid) st1) as [[j|x] st2];
      cbn [fst snd] in *.
    + destruct (relay_file_shape E chat pid f platform st2)
        as (k & notices & Hshape & Hnotices).
      destruct (relay_file_own E d chat pid f platform st2)
        as [_ (l3 & Hl3 & _)].
      rewrite (events_since_app _ _ l3) in Hshape by done.
      exists (l3 ++ l2 ++ new1). split.
      { by rewrite Hl3, Hl2, Hl1, <- !app_assoc. }
      rewrite !rev_app_distr, !upload_count_app, H1, H2, Hshape,
        upload_count_app.
      rewrite (upload_count_none _ notices notice_no_upload Hnotices).
      pose proof (relay_steps_one_upload chat pid f platform k). lia.
    + destruct (Hnotice (download_error_text x) st2) as (l3 & Hl3 & H3).
      exists (l3 ++ l2 ++ new1). split.
      { cbn [snd]. by rewrite Hl3, Hl2, Hl1, <- !app_assoc. }
      rewrite !rev_app_distr, !upload_count_app, H1, H2, H3. lia.
  - rewrite (request_body_failure E url chat pid d st st1 e Hrun). cbv zeta.
    destruct (Hnotice (download_error_text e) st1) as (l2 & Hl2 & H2).
    exists (l2 ++ new1). split.
    { cbn [snd]. by rewrite Hl2, Hl1, <- !app_assoc. }
    rewrite !rev_app_distr, !upload_count_app, H1, H2. lia.
Qed.

(** X10: one message gets at most one upload, whatever the collaborators
    do: the handler never sends a file twice, and it sends none for a text
    that is not a link. *)
Theorem handler_uploads_at_most_once (E : env) (m : message) (st : state) :
  (upload_count (events_since st (snd (handle_link E m st))) ≤ 1)%nat
  ∧ (∀ t, text m = Some t →
          startswith_any [lit "http://"; lit "https://"] (strip t) = false →
          upload_count (events_since st (snd (handle_link E m st))) = 0%nat).
Proof.
  split.
  - destruct (handle_link_events E m st)
      as [[-> _] | [[-> _] | [[-> _] | [[-> _] | H]]]];
      try (cbn; lia).
    destruct H as (t & d & st2 & _ & _ & _ & _ & _ & _ & _ & _ & Hev).
    destruct (request_body_uploads E (strip t) (chat_id m)
                (first_id E (chat_id m) st) d st2) as (new & Hnew & Hcount).
    rewrite (Hev new Hnew).
    change (?a :: ?b :: ?l) with ([a; b] ++ l).
    rewrite upload_count_app. cbn. lia.
  - intros t Ht Hv. unfold handle_link. rewrite Ht, Hv. cbn [negb].
    unfold call. destruct (fails E (log st) _); cbn; by since_log.
Qed.

Lemma handler_uploads_at_most_once_witness :
  upload_count
    (events_since empty_tmp
       (snd (handle_link plain_env (Message (Some (lit "hello")) 5) empty_tmp)))
  = 0%nat.
Proof.
  refine (proj2 (handler_uploads_at_most_once plain_env
                   (Message (Some (lit "hello")) 5) empty_tmp)
            (lit "hello") eq_refl _).
  vm_compute. reflexivity.
Defined.

(** X11: when the download stage raises, the handler reports the text of
    the exception on the progress message (with a new message if the edit
    fails), and that is all it does afterwards: no size check, no deletion,
    no upload.  It returns normally unless the notice itself could not be
    sent, and the temporary directory is removed with what the download
    left in it. *)
Theorem download_failure_reported (E : env) (m : message) (t d : pystr)
    (st st2 st3 : state) (e : exn) :
  text m = Some t →
  startswith_any [lit "http://"; lit "https://"] (strip t) = true →
  fails E (log st) (checking_call (chat_id m)) = None →
  mkdtemp E (after_checking (chat_id m) st) = (Ok d, st2) →
  choose_downloader E (strip t) d (chat_id m) (first_id E (chat_id m) st) st2
  = (Raise e, st3) →
  let run := handle_link E m st in
  ∃ l, notice_calls (chat_id m) (first_id E (chat_id m) st)
         (download_error_text e) l
       ∧ events_since st (snd run)
         = checking_call (chat_id m) :: MkDtemp :: events_since st2 st3 ++ l
       ∧ fs (snd run) = rmtree d (fs st3)
       ∧ (fst run = Ok tt
          ∨ ∃ x before,
              fst run = Raise x
              ∧ fails E before
                  (SendMessage (chat_id m)
                     (progress_text (download_error_text e))) = Some x).
Proof.
  intros Ht Hv Hfirst Hmk Hfail run. subst run.
  pose proof (handle_link_through E m t d st st2 Ht Hv Hfirst Hmk) as H.
  cbv zeta in H. destruct H as (Hl2 & _ & Hfst & Hfs & Hev).
  rewrite (request_body_failure E (strip t) (chat_id m) _ d st2 st3 e Hfail)
    in Hfst, Hfs, Hev.
  cbv zeta in *. cbn [fst snd] in *.
  destruct (notice_events E (chat_id m) (first_id E (chat_id m) st)
              (download_error_text e) st3) as (l & Hcalls & Hlog & Hfs3).
  destruct (choose_downloader_calls E (strip t) d (chat_id m)
              (first_id E (chat_id m) st) st2) as [_ (new1 & Hl1 & _)].
  rewrite Hfail in Hl1. cbn [snd] in Hl1.
  exists l. split; [done|]. split; [|split].
  - rewrite (Hev (rev l ++ new1)) by (by rewrite Hlog, Hl1, <- app_assoc).
    by rewrite rev_app_distr, rev_involutive, (events_since_app _ _ new1).
  - by rewrite Hfs, Hfs3.
  - rewrite Hfst.
    pose proof (notice_raise E (chat_id m) (download_error_text e)
                  (Some (first_id E (chat_id m) st)) st3) as Hraise.
    destruct (update_progress_message E (chat_id m) _ _ st3) as [[j|x] st4];
      cbn [fst snd] in *; [by left|].
    right. destruct (Hraise x eq_refl) as (before & Hx). by exists x, before.
Qed.

Lemma download_failure_reported_witness :
  ∃ l, notice_calls 5 7 (download_error_text
                           (Exn Exception
                                (lit "ERROR: Unable to download webpage"))) l
       ∧ events_since no_tools
           (snd (handle_link engine_down_env (Message (Some short_link) 5)
                             no_tools))
         = checking_call 5 :: MkDtemp
           :: events_since
                (State [MkDtemp; checking_call 5] {[ tmp := [] ]})
                (State [ExtractInfo short_link (YTDL_OPTS tmp);
                        EditMessageText 5 7
                          (progress_text (lit "Downloading from TikTok..."));
                        MkDtemp; checking_call 5] {[ tmp := [] ]})
           ++ l.
Proof.
  destruct (download_failure_reported engine_down_env
              (Message (Some short_link) 5) short_link tmp no_tools
              (State [MkDtemp; checking_call 5] {[ tmp := [] ]})
              (State [ExtractInfo short_link (YTDL_OPTS tmp);
                      EditMessageText 5 7
                        (progress_text (lit "Downloading from TikTok..."));
                      MkDtemp; checking_call 5] {[ tmp := [] ]})
              (Exn Exception (lit "ERROR: Unable to download webpage")))
    as (l & Hl & Hev & _).
  - reflexivity.
  - vm_compute. reflexivity.
  - reflexivity.
  - vm_compute. reflexivity.
  - vm_compute. reflexivity.
  - exists l. split; [exact Hl | exact Hev].
Defined.

(** X12: a link that names none of the three platforms costs a progress
    message and a temporary directory and nothing more: the handler says
    [Unsupported source] with the link on the progress message, and calls
    neither the engine nor the upload. *)
Theorem unsupported_source_reported (E : env) (m : message) (t d : pystr)
    (st st2 : state) :
  text m = Some t →
  startswith_any [lit "http://"; lit "https://"] (strip t) = true →
  detect_in_url (strip t) = None →
  fails E (log st) (checking_call (chat_id m)) = None →
  mkdtemp E (after_checking (chat_id m) st) = (Ok d, st2) →
  ∃ l, notice_calls (chat_id m) (first_id E (chat_id m) st)
         ([10060] ++ lit " *Error:* Unsupported source: " ++ strip t) l
       ∧ events_since st (snd (handle_link E m st))
         = checking_call (chat_id m) :: MkDtemp :: l.
Proof.
  intros Ht Hv Hnone Hfirst Hmk.
  pose proof (handle_link_through E m t d st st2 Ht Hv Hfirst Hmk) as H.
  cbv zeta in H. destruct H as (_ & _ & _ & _ & Hev).
  assert (choose_downloader E (strip t) d (chat_id m)
            (first_id E (chat_id m) st) st2
          = (Raise (Exn ValueError (lit "Unsupported source: " ++ strip t)), st2))
    as Hfail.
  { by rewrite choose_downloader_route, Hnone. }
  rewrite (request_body_failure E (strip t) (chat_id m) _ d st2 st2 _ Hfail)
    in Hev.
  cbv zeta in Hev. cbn [snd] in Hev. unfold download_error_text in Hev.
  cbn [msg] in Hev.
  destruct (notice_events E (chat_id m) (first_id E (chat_id m) st)
              ([10060] ++ lit " *Error:* " ++ lit "Unsupported source: "
               ++ strip t) st2) as (l & Hcalls & Hlog & _).
  exists l. split.
  - replace ([10060] ++ lit " *Error:* Unsupported source: " ++ strip t)
      with ([10060] ++ lit " *Error:* " ++ lit "Unsupported source: "
            ++ strip t) by reflexivity.
    exact Hcalls.
  - by rewrite (Hev (rev l)), rev_involutive by exact Hlog.
Qed.

Lemma unsupported_source_reported_witness :
  ∃ l, notice_calls 5 7
         ([10060] ++ lit " *Error:* Unsupported source: " ++ other_url) l
       ∧ events_since no_tools
           (snd (handle_link plain_env (Message (Some other_url) 5) no_tools))
         = checking_call 5 :: MkDtemp :: l.
Proof.
  refine (unsupported_source_reported plain_env (Message (Some other_url) 5)
            other_url tmp no_tools
            (State [MkDtemp; checking_call 5] {[ tmp := [] ]}) _ _ _ _ _).
  - reflexivity.
  - vm_compute. reflexivity.
  - vm_compute. reflexivity.
  - reflexivity.
  - vm_compute. reflexivity.
Defined.

(** ** The handler after a download that returned *)

Lemma upload_count_rev (l : list event) : upload_count (rev l) = upload_count l.
Proof.
  induction l as [|ev l IH]; [done|]. cbn [rev].
  rewrite upload_count_app, IH. unfold upload_count. cbn.
  destruct (is_upload ev); cbn; lia.
Qed.

Lemma handle_link_log (E : env) (m : message) (t d : pystr) (st st2 : state) :
  text m = Some t →
  startswith_any [lit "http://"; lit "https://"] (strip t) = true →
  fails E (log st) (checking_call (chat_id m)) = None →
  mkdtemp E (after_checking (chat_id m) st) = (Ok d, st2) →
  log (snd (handle_link E m st))
  = log (snd (request_body E (strip t) (chat_id m)
                (first_id E (chat_id m) st) d st2)).
Proof.
  intros Ht Hv Hfirst Hmk.
  rewrite (handle_link_run E m t st Ht Hv). cbv zeta.
  rewrite Hfirst, Hmk.
  by destruct (request_body E (strip t) (chat_id m) _ d st2).
Qed.

(** What is left of the handler once the download has returned: the
    notice, then the relay, or the report of the exception the notice
    raised; and the temporary directory is removed. *)
Lemma handle_link_after_download (E : env) (m : message) (st st3 : state)
    (d f platform : pystr) :
  download_returned E m st d st3 f platform →
  let chat := chat_id m in
  let pid := first_id E chat st in
  let run := handle_link E m st in
  let sending := sending_notice E m st st3 in
  let rest :=
    match fst sending with
    | Ok _ => relay_file E chat pid f platform (snd sending)
    | Raise x =>
        let told := update_progress_message E chat (download_error_text x)
                                            (Some pid) (snd sending) in
        (match fst told with Ok _ => Ok tt | Raise y => Raise y end, snd told)
    end in
  fst run = fst rest
  ∧ fs (snd run) = rmtree d (fs (snd rest))
  ∧ fs (snd sending) = fs st3
  ∧ ∃ ls, log (snd sending) = ls ++ log st3
          ∧ Forall (fun ev => is_progress_notice ev = true) ls
          ∧ ∀ lr, log (snd rest) = lr ++ log (snd sending) →
                  events_since (snd sending) (snd run) = rev lr
                  ∧ events_since st3 (snd run) = rev ls ++ rev lr
                  ∧ upload_count (events_since st (snd run)) = upload_count lr.
Proof.
  intros (t & st2 & Ht & Hv & Hfirst & Hmk & Hrun).
  intros chat pid run sending rest. subst chat pid run sending rest.
  pose proof (handle_link_through E m t d st st2 Ht Hv Hfirst Hmk) as H.
  cbv zeta in H. destruct H as (Hl2 & _ & Hfst & Hfs & _).
  pose proof (handle_link_log E m t d st st2 Ht Hv Hfirst Hmk) as Hlog.
  rewrite (request_body_success E (strip t) (chat_id m) _ d st2 st3 f platform
             Hrun) in Hfst, Hfs, Hlog.
  cbv zeta in Hfst, Hfs, Hlog. unfold sending_notice.
  destruct (choose_downloader_calls E (strip t) d (chat_id m)
              (first_id E (chat_id m) st) st2) as [_ (ld & Hld & HPd)].
  rewrite Hrun in Hld. cbn [snd] in Hld.
  destruct (notice_stays E (chat_id m) (first_id E (chat_id m) st) d
              (lit "Sending file...") (Some (first_id E (chat_id m) st))
              (or_intror eq_refl) st3) as [_ (ls & Hls & HPs)].
  pose proof (update_progress_message_fs E (chat_id m) (lit "Sending file...")
                (Some (first_id E (chat_id m) st)) st3) as Hfs3.
  assert (Forall (fun ev => is_progress_notice ev = true) ls) as Hnotices.
  { eapply Forall_impl; [exact HPs|]. by intros ev [? _]. }
  split; [exact Hfst|]. split; [exact Hfs|]. split; [exact Hfs3|].
  exists ls. split; [exact Hls|]. split; [exact Hnotices|].
  intros lr Hlr. rewrite Hlr in Hlog. split; [|split].
  - by apply events_since_app.
  - rewrite (events_since_app _ _ (lr ++ ls)), rev_app_distr; [done|].
    by rewrite Hlog, Hls, <- app_assoc.
  - rewrite (events_since_app _ _
               (lr ++ ls ++ ld ++ [MkDtemp; checking_call (chat_id m)])).
    2: { rewrite Hlog, Hls, Hld, Hl2, <- !app_assoc. reflexivity. }
    rewrite upload_count_rev, !upload_count_app.
    rewrite (upload_count_none _ ls notice_no_upload Hnotices).
    rewrite (upload_count_none _ ld
               (download_call_no_upload (strip t) (chat_id m)
                  (first_id E (chat_id m) st) d) HPd).
    change (upload_count [MkDtemp; checking_call (chat_id m)]) with 0%nat.
    lia.
Qed.









(** X6: when the path the download returned does not exist and the
    notice [Sending file...] was delivered, the handler puts
    [File not found] on the progress message and does nothing else: every
    call after the notice is a progress notice, nothing is deleted or
    uploaded in the whole run, and the temporary directory is removed. *)
Theorem missing_file_reported (E : env) (m : message) (st st3 : state)
    (d f platform : pystr) :
  download_returned E m st d st3 f platform →
  path_exists (fs st3) f = false →
  let chat := chat_id m in
  let pid := first_id E chat st in
  let run := handle_link E m st in
  let sending := sending_notice E m st st3 in
  let told := events_since (snd sending) (snd run) in
  is_ok (fst sending) = true →
  Forall (fun ev => is_progress_notice ev = true) told
  ∧ hd_error told
    = Some (notice_call chat pid ([10060] ++ lit " File not found"))
  ∧ upload_count (events_since st (snd run)) = 0%nat
  ∧ fs (snd run) = rmtree d (fs st3).
Proof.
  intros Hdl Hmissing chat pid run sending told Hsent.
  subst chat pid run sending told.
  pose proof (handle_link_after_download E m st st3 d f platform Hdl) as H.
  cbv zeta in H.
  destruct (fst (sending_notice E m st st3)) as [j|x]; [|done].
  destruct H as (_ & Hfs & Hfs3 & ls & Hls & Hnotices & Hev).
  rewrite <- Hfs3 in Hmissing.
  pose proof (relay_file_missing E (chat_id m) (first_id E (chat_id m) st)
                f platform (snd (sending_notice E m st st3)) Hmissing)
    as Hrelay.
  cbv zeta in Hrelay. destruct Hrelay as (Hall & Hhd & Hsame).
  destruct (relay_file_own E d (chat_id m) (first_id E (chat_id m) st) f
              platform (snd (sending_notice E m st st3)))
    as [_ (lr & Hlr & _)].
  rewrite (events_since_app _ _ lr) in Hall, Hhd by done.
  destruct (Hev lr Hlr) as (Htold & _ & Hcount).
  rewrite Htold. split; [done|]. split; [done|]. split.
  - rewrite Hcount, <- upload_count_rev.
    by apply (upload_count_none _ (rev lr) notice_no_upload).
  - by rewrite Hfs, Hsame, Hfs3.
Qed.

Lemma missing_file_reported_witness :
  hd_error
    (events_since
       (snd (sending_notice renamed_env request no_tools
               (downloaded [(lit "7301.webm", 1000)])))
       (snd (handle_link renamed_env request no_tools)))
  = Some (notice_call 5 7 ([10060] ++ lit " File not found")).
Proof.
  refine (proj1 (proj2 (missing_file_reported renamed_env request no_tools
                          (downloaded [(lit "7301.webm", 1000)])
                          tmp video (lit "tiktok") _ _ eq_refl))).
  - exists short_link, with_tmp. repeat split; vm_compute; reflexivity.
  - vm_compute. reflexivity.
Defined.

(** ** The adapters: how they fail *)

Lemma startswith_self_app (p rest : pystr) : startswith p (p ++ rest) = true.
Proof. apply startswith_spec. by exists rest. Qed.

(** X13: the audio adapter raises nothing but [Exception], and its
    message always begins with one of the adapter's two headings, whatever
    went wrong inside: a failure of [os.makedirs], of the engine, of the
    fallback, or a file that was never created. *)
Theorem audio_adapter_failures (E : env) (url dest : pystr) (st st' : state)
    (e : exn) :
  download_soundcloud E url dest st = (Raise e, st') →
  kind e = Exception
  ∧ (startswith (lit "Error downloading from SoundCloud: ") (msg e) = true
     ∨ msg e = lit "yt-dlp not installed. Install: pip install yt-dlp").
Proof.
  unfold download_soundcloud. rewrite run_try_except.
  destruct (bind (makedirs dest) _ st) as [[a|x] st1]; [done|].
  unfold raise. destruct (kind x); intros [= <- _];
    (split; [reflexivity|]);
    first [ right; reflexivity
          | left; exact (startswith_self_app _ (msg x)) ].
Qed.

Lemma audio_adapter_failures_witness :
  kind (Exn Exception
            (lit "Error downloading from SoundCloud: yt-dlp error: "
             ++ lit "ERROR: Unable to download webpage"))
  = Exception.
Proof.
  refine (proj1 (audio_adapter_failures engine_down_env track_url tmp
                   empty_tmp _ _ _)).
  vm_compute. reflexivity.
Defined.

(** X14: the TikTok and YouTube adapters call the engine once, with the
    video options and the destination folder, and nothing else.  They raise
    exactly when that call raised, and then the same exception, with its
    kind and message unchanged. *)
Theorem video_adapters_pass_failure (E : env) (url dest : pystr) (st : state)
    (adapter : env -> pystr -> pystr -> M pystr) :
  adapter = download_tiktok ∨ adapter = download_youtube →
  let run := adapter E url dest st in
  events_since st (snd run) = [ExtractInfo url (YTDL_OPTS dest)]
  ∧ ∀ x, fst run = Raise x
         ↔ fails E (log st) (ExtractInfo url (YTDL_OPTS dest)) = Some x.
Proof.
  intros [-> | ->] run; subst run.
  all: unfold download_tiktok, download_youtube, extract_info; unfold_m; cbn.
  all: destruct (fails E (log st) _); cbn; since_log.
  all: split; [done|]; intros x; split; congruence.
Qed.

Lemma video_adapters_pass_failure_witness :
  fst (download_youtube engine_down_env other_url tmp empty_tmp)
  = Raise (Exn Exception (lit "ERROR: Unable to download webpage")).
Proof.
  refine (proj2 (proj2 (video_adapters_pass_failure engine_down_env other_url
                          tmp empty_tmp download_youtube _) _) _).
  - right. reflexivity.
  - reflexivity.
Defined.

(** X15: [run_yt_dlp] turns every outcome of the engine into a record.
    It calls the engine once, asking for mp3 extraction into the given
    folder.  The record has a file name and the metadata and no error text
    when the call returned, and only the text of the exception when the
    call raised, so that the caller can read the error text of every failed
    attempt. *)
Theorem run_yt_dlp_record (E : env) (url dest pattern : pystr) (st : state) :
  let run := run_yt_dlp E url dest pattern st in
  ∃ r opts,
    fst run = Ok r
    ∧ events_since st (snd run) = [ExtractInfo url opts]
    ∧ extract_audio_mp3 opts = true ∧ out_dir opts = dest
    ∧ out_template opts = pattern
    ∧ match fails E (log st) (ExtractInfo url opts) with
      | None =>
          success r = true ∧ is_Some (filename r) ∧ is_Some (result_info r)
          ∧ error r = None
      | Some x =>
          success r = false ∧ filename r = None ∧ result_info r = None
          ∧ error r = Some (msg x)
      end.
Proof.
  intros run. subst run.
  unfold run_yt_dlp, get_ffmpeg_path, extract_info. unfold_m. cbn.
  match goal with
  | |- context [fails E (log st) (ExtractInfo url ?o)] =>
      destruct (fails E (log st) (ExtractInfo url o)) eqn:Hf; eexists _, o
  end; cbn; since_log.
  all: split; [reflexivity|]; split; [reflexivity|].
  all: rewrite Hf; cbn; by eauto 10.
Qed.

(** ** The converter lookup and the cover art *)

(** X16: a converter in the tools directory wins over the one on the
    search path.  On Windows the name [ffmpeg.exe] is tried before
    [ffmpeg]; elsewhere only [ffmpeg] is tried, so a lone [ffmpeg.exe] in
    the tools directory is passed over.  The lookup never touches the log
    or the disk. *)
Theorem local_converter_preferred (E : env) (st : state) :
  path_exists (fs st) (TOOLS_PATH E) = true →
  let local name := join (TOOLS_PATH E) name in
  let found p := get_ffmpeg_path E st = (Ok (Some p), st) in
  (os_name_nt E = true →
   path_exists (fs st) (local (lit "ffmpeg.exe")) = true →
   found (local (lit "ffmpeg.exe")))
  ∧ (path_exists (fs st) (local (lit "ffmpeg")) = true →
     (os_name_nt E = true →
      path_exists (fs st) (local (lit "ffmpeg.exe")) = false) →
     found (local (lit "ffmpeg")))
  ∧ (os_name_nt E = false →
     path_exists (fs st) (local (lit "ffmpeg")) = false →
     get_ffmpeg_path E st
     = (Ok (match which E (lit "ffmpeg") with
            | Some p => if nonempty p then Some p else None
            | None => None
            end), st)).
Proof.
  intros Htools local found. subst local found.
  unfold get_ffmpeg_path, gets. rewrite Htools. cbn [negb].
  split; [|split].
  - intros -> Hexe. cbn [find]. by rewrite Hexe.
  - intros Hplain Hexe. destruct (os_name_nt E); cbn [find].
    + by rewrite (Hexe eq_refl), Hplain.
    + by rewrite Hplain.
  - intros -> Hplain. cbn [find]. by rewrite Hplain.
Qed.

Lemma local_converter_preferred_witness :
  get_ffmpeg_path windows_env both_names
  = (Ok (Some (join (lit "/app/tools") (lit "ffmpeg.exe"))), both_names).
Proof.
  refine (proj1 (local_converter_preferred windows_env both_names _) _ _).
  - vm_compute. reflexivity.
  - reflexivity.
  - vm_compute. reflexivity.
Defined.

(** X17: [check_ffmpeg_availability] says yes exactly when the lookup
    found a path and that path exists.  Without a tools directory it says
    no, whatever is on the search path; with the converter in the tools
    directory it says yes.  It never raises and changes nothing. *)
Theorem converter_availability (E : env) (st : state) :
  let local := join (TOOLS_PATH E) (lit "ffmpeg") in
  ∃ available,
    check_ffmpeg_availability E st = (Ok available, st)
    ∧ (available = true
       ↔ ∃ p, get_ffmpeg_path E st = (Ok (Some p), st)
              ∧ path_exists (fs st) p = true)
    ∧ (path_exists (fs st) (TOOLS_PATH E) = false → available = false)
    ∧ (path_exists (fs st) (TOOLS_PATH E) = true → os_name_nt E = false →
       path_exists (fs st) local = true → available = true).
Proof.
  cbv zeta. unfold check_ffmpeg_availability. rewrite run_bind.
  unfold get_ffmpeg_path at 1. unfold gets at 1. cbv beta.
  set (found := if negb (path_exists (fs st) (TOOLS_PATH E)) then None else _).
  assert (get_ffmpeg_path E st = (Ok found, st)) as Hget by reflexivity.
  unfold gets. eexists. split; [reflexivity|]. rewrite Hget. split; [|split].
  - split.
    + destruct found as [p|]; [|done]. intros Hp. by exists p.
    + intros (p & [= Hfound] & Hp). by rewrite Hfound.
  - intros Htools. subst found. by rewrite Htools.
  - intros Htools Hnt Hlocal. subst found.
    rewrite Htools, Hnt. cbn [negb find]. by rewrite Hlocal.
Qed.

Lemma converter_availability_witness :
  ∃ available,
    check_ffmpeg_availability search_path_env no_tools = (Ok available, no_tools)
    ∧ available = false.
Proof.
  destruct (converter_availability search_path_env no_tools)
    as (available & Hrun & _ & Hno & _).
  exists available. split; [exact Hrun|]. apply Hno. vm_compute. reflexivity.
Defined.

(** X18: [add_cover_art] never raises and leaves the disk alone.  It
    asks for the thumbnail first; it adds a frame only when that request
    succeeded with status 200, and then one front-cover frame marked
    [image/jpeg] with the bytes it read, whatever the image really is. *)
Theorem cover_art_only_on_200 (E : env) (thumbnail : value) (st : state) :
  let run := add_cover_art E thumbnail st in
  let calls := events_since st (snd run) in
  fst run = Ok tt
  ∧ fs (snd run) = fs st
  ∧ hd_error calls = Some (HttpGet thumbnail)
  ∧ (length calls ≤ 3)%nat
  ∧ ∀ f, TagAdd f ∈ calls →
         fails E (log st) (HttpGet thumbnail) = None
         ∧ http_status E (HttpGet thumbnail :: log st) = 200%Z
         ∧ last calls = Some (TagAdd f)
         ∧ f = APIC (lit "image/jpeg") 3 (lit "Cover")
                  (http_body E (HttpRead :: HttpGet thumbnail :: log st)).
Proof.
  intros run calls. subst run calls.
  unfold add_cover_art. unfold_m. cbn.
  case_fails;
    [|destruct (Z.eqb_spec (http_status E (HttpGet thumbnail :: log st)) 200)
        as [H200|H200]; cbn; [repeat case_fails|]].
  all: since_log.
  all: split; [done|]; split; [done|]; split; [done|]; split; [cbn; lia|].
  all: intros f Hf; set_unfold in Hf; destruct_or?; simplify_eq; try done.
  all: by repeat split.
Qed.

Lemma cover_art_only_on_200_witness :
  fst (add_cover_art no_cover_env
         (VStr (lit "https://i1.sndcdn.com/artworks.jpg")) small_file)
  = Ok tt.
Proof.
  exact (proj1 (cover_art_only_on_200 no_cover_env
                  (VStr (lit "https://i1.sndcdn.com/artworks.jpg"))
                  small_file)).
Defined.

(** ** The tagger and the disk *)

Lemma keeps_ret {A} (a : A) : keeps_fs (ret a).
Proof. done. Qed.

Lemma keeps_raise {A} (e : exn) : keeps_fs (raise (A:=A) e).
Proof. done. Qed.

Lemma keeps_gets {A} (f : state -> A) : keeps_fs (gets f).
Proof. done. Qed.

Lemma keeps_call (E : env) (ev : event) : keeps_fs (call E ev).
Proof. intros st. unfold call. by destruct (fails E (log st) ev). Qed.

Lemma keeps_bind {A B} (m : M A) (k : A -> M B) :
  keeps_fs m → (∀ a, keeps_fs (k a)) → keeps_fs (bind m k).
Proof.
  intros Hm Hk st. rewrite run_bind. specialize (Hm st).
  destruct (m st) as [[a|e] st1]; cbn in *; [|done].
  by rewrite Hk.
Qed.

Lemma keeps_try_except {A} (m : M A) (h : exn -> M A) :
  keeps_fs m → (∀ e, keeps_fs (h e)) → keeps_fs (try_except m h).
Proof.
  intros Hm Hh st. rewrite run_try_except. specialize (Hm st).
  destruct (m st) as [[a|e] st1]; cbn in *; [done|].
  by rewrite Hh.
Qed.

Lemma keeps_add_cover_art (E : env) (thumbnail : value) :
  keeps_fs (add_cover_art E thumbnail).
Proof.
  intros st.
  destruct (add_cover_art_returns E thumbnail st)
    as (cover & st' & Hrun & _ & _ & Hfs).
  by rewrite Hrun.
Qed.

Ltac keeps_step :=
  match goal with
  | |- keeps_fs (bind _ _) => apply keeps_bind; [|intros ?]
  | |- keeps_fs (try_except _ _) => apply keeps_try_except; [|intros ?]
  | |- keeps_fs (ret _) => apply keeps_ret
  | |- keeps_fs (raise _) => apply keeps_raise
  | |- keeps_fs (gets _) => apply keeps_gets
  | |- keeps_fs (reply _ _) => apply keeps_gets
  | |- keeps_fs (os_path_exists _) => apply keeps_gets
  | |- keeps_fs (call _ _) => apply keeps_call
  | |- keeps_fs (add_cover_art _ _) => apply keeps_add_cover_art
  | |- keeps_fs (if ?b then _ else _) => destruct b
  | |- keeps_fs (match ?x with _ => _ end) => destruct x
  end.

Lemma writes_bind (E : env) (filepath : pystr) {A} (m : M A) (k : A -> M bool) :
  keeps_fs m → (∀ a, writes_by_save E filepath (k a)) →
  writes_by_save E filepath (bind m k).
Proof.
  intros Hm Hk st. rewrite run_bind. specialize (Hm st).
  destruct (m st) as [[a|e] st1]; cbn in *.
  - destruct (Hk a st1) as [[Hr (before & Hl & Hf & Hfs)] | [Hr Hfs]].
    + left. split; [done|]. exists before. by rewrite <- Hm.
    + right. by rewrite <- Hm.
  - by right.
Qed.

Lemma writes_save (E : env) (filepath : pystr) :
  writes_by_save E filepath (save E filepath;; ret true).
Proof.
  intros st. unfold save. unfold_m. cbn.
  destruct (fails E (log st) (TagSave filepath)) eqn:Hf; cbn.
  - by right.
  - left. split; [done|]. by exists (log st).
Qed.

Lemma writes_try_except (E : env) (filepath : pystr) (m : M bool) :
  writes_by_save E filepath m →
  writes_by_save E filepath (try_except m (fun _ => ret false)).
Proof.
  intros Hm st. rewrite run_try_except.
  destruct (Hm st) as [[Hr Hs] | [Hr Hfs]];
    destruct (m st) as [[b|e] st1]; cbn in *; try done.
  - by left.
  - by right.
  - by right.
Qed.

Lemma add_metadata_to_mp3_writes (E : env) (filepath : pystr)
    (track_info : dict) :
  writes_by_save E filepath (add_metadata_to_mp3 E filepath track_info).
Proof.
  unfold add_metadata_to_mp3, value_strip.
  apply writes_try_except.
  apply writes_bind; [apply keeps_gets|]. intros present.
  destruct (negb present); [by right|].
  repeat first
    [ apply writes_save
    | apply writes_bind; [repeat keeps_step | intros ?] ].
Qed.

(** X19: the tagger writes to disk only through its final [save].  When
    it returns false, the disk is as it was; when it returns true, its last
    call was a successful save of the file, and all that changed on disk is
    the size of that file. *)
Theorem tagging_writes_by_save (E : env) (filepath : pystr) (track_info : dict)
    (st : state) :
  let run := add_metadata_to_mp3 E filepath track_info st in
  (fst run = Ok false → fs (snd run) = fs st)
  ∧ (fst run = Ok true → saved E filepath st (snd run))
  ∧ (fs (snd run) ≠ fs st → fst run = Ok true).
Proof.
  intros run. subst run.
  destruct (add_metadata_to_mp3_writes E filepath track_info st)
    as [[Hr Hs] | [Hr Hfs]].
  - rewrite Hr. split; [done|]. by split.
  - split; [done|]. split; [done|]. by intros [].
Qed.

Lemma tagging_writes_by_save_witness :
  fs (snd (add_metadata_to_mp3 no_cover_env
             (join tmp (lit "missing.mp3")) song small_file))
  = fs small_file.
Proof.
  refine (proj1 (tagging_writes_by_save no_cover_env
                   (join tmp (lit "missing.mp3")) song small_file) _).
  vm_compute. reflexivity.
Defined.

(** ** The start and help screens *)

Lemma process_help_shape (ui_fails : list ui_call -> ui_call -> option exn)
    (q : callback_query) :
  process_help ui_fails q = show_screen ui_fails q usage_text get_help_keyboard.
Proof. reflexivity. Qed.

Lemma process_back_shape (ui_fails : list ui_call -> ui_call -> option exn)
    (q : callback_query) :
  process_back ui_fails q = show_screen ui_fails q back_text get_start_keyboard.
Proof. reflexivity. Qed.

Ltac case_ui :=
  match goal with
  | |- context [match ?x with Some _ => _ | None => _ end] => destruct x eqn:?
  end.

Lemma show_screen_run (ui_fails : list ui_call -> ui_call -> option exn)
    (q : callback_query) (text : pystr) (markup : keyboard) (l : list ui_call) :
  let edit := EditText (message_chat q) (message_id q) text (Some markup) in
  let fresh := MessageAnswer (message_chat q) text (Some markup) in
  let ack := CallbackAnswer (query_id q) in
  let done_with shown :=
    (match ui_fails shown ack with Some z => Raise z | None => Ok tt end,
     ack :: shown) in
  show_screen ui_fails q text markup l
  = match ui_fails l edit with
    | None => done_with (edit :: l)
    | Some _ =>
        match ui_fails (edit :: l) fresh with
        | None => done_with (fresh :: edit :: l)
        | Some y => (Raise y, fresh :: edit :: l)
        end
    end.
Proof.
  cbv zeta. unfold show_screen, ui_bind, ui_try, ui_do.
  repeat case_ui; reflexivity.
Qed.

(** X20: the two callback handlers edit the message that carries the
    keyboard; if the edit raises they send the same text and keyboard as a
    new message to the same chat; then they acknowledge the query, last.
    If the new message cannot be sent either, the handler raises that
    exception and the query is never acknowledged. *)
Theorem callback_screens (ui_fails : list ui_call -> ui_call -> option exn)
    (q : callback_query) (l : list ui_call)
    (handler : callback_query -> UI unit) (text : pystr) (markup : keyboard) :
  (handler = process_help ui_fails ∧ text = usage_text
   ∧ markup = get_help_keyboard)
  ∨ (handler = process_back ui_fails ∧ text = back_text
     ∧ markup = get_start_keyboard) →
  let edit := EditText (message_chat q) (message_id q) text (Some markup) in
  let fresh := MessageAnswer (message_chat q) text (Some markup) in
  let ack := CallbackAnswer (query_id q) in
  let run := handler q l in
  (ui_fails l edit = None → snd run = [ack; edit] ++ l)
  ∧ (ui_fails l edit ≠ None → ui_fails (edit :: l) fresh = None →
     snd run = [ack; fresh; edit] ++ l)
  ∧ (∀ y, ui_fails l edit ≠ None → ui_fails (edit :: l) fresh = Some y →
          run = (Raise y, [fresh; edit] ++ l))
  ∧ (fst run = Ok tt → hd_error (snd run) = Some ack
                       ∧ ui_fails (tl (snd run)) ack = None).
Proof.
  intros Hhandler edit fresh ack run. subst edit fresh ack run.
  assert (handler q = show_screen ui_fails q text markup) as ->.
  { by destruct Hhandler as [(-> & -> & ->) | (-> & -> & ->)]. }
  rewrite show_screen_run. cbv zeta.
  destruct (ui_fails l _) as [x|] eqn:Hedit;
    [destruct (ui_fails (_ :: l) (MessageAnswer _ _ _)) as [y|] eqn:Hfresh|].
  all: repeat split; try done; try congruence; cbn [fst snd hd_error tl].
  all: try (intros; by simplify_eq).
  all: match goal with
       | H : fst (match ?x with Some _ => _ | None => _ end, _) = Ok tt |- _ =>
           by destruct x
       end.
Qed.

Lemma callback_screens_witness :
  snd (process_back (fun _ _ => None) (CallbackQuery 1 (lit "back_to_start") 5 9)
         [])
  = [CallbackAnswer 1; EditText 5 9 back_text (Some get_start_keyboard)] ++ [].
Proof.
  refine (proj1 (callback_screens (fun _ _ => None)
                   (CallbackQuery 1 (lit "back_to_start") 5 9) []
                   (process_back (fun _ _ => None)) back_text
                   get_start_keyboard _) _).
  - right. repeat split; reflexivity.
  - reflexivity.
Defined.

(** X21: every callback button on the two keyboards has a handler: the
    dispatcher sends its data to the handler that shows the other screen,
    [help] to the usage screen with the back button and [back_to_start] to
    the start keyboard; a query with any other data has no handler.  So the
    two screens lead to each other and nowhere else. *)
Theorem keyboard_navigation (ui_fails : list ui_call -> ui_call -> option exn)
    (q : callback_query) :
  (∀ b, b ∈ buttons get_start_keyboard → callback_data b = Some (data q) →
        dispatch_callback ui_fails q = Some (process_help ui_fails q))
  ∧ (∀ b, b ∈ buttons get_help_keyboard → callback_data b = Some (data q) →
          dispatch_callback ui_fails q = Some (process_back ui_fails q))
  ∧ (data q ≠ lit "help" → data q ≠ lit "back_to_start" →
     dispatch_callback ui_fails q = None)
  ∧ (is_Some (dispatch_callback ui_fails q)
     ↔ ∃ b, b ∈ buttons get_start_keyboard ++ buttons get_help_keyboard
            ∧ callback_data b = Some (data q)).
Proof.
  unfold dispatch_callback, callback_handlers. cbn [find fst snd].
  split; [|split; [|split]].
  - intros b Hb Hdata. set_unfold in Hb. destruct_or?; simplify_eq/=.
    rewrite <- Hdata. by vm_compute.
  - intros b Hb Hdata. set_unfold in Hb. destruct_or?; simplify_eq/=.
    rewrite <- Hdata. by vm_compute.
  - intros Hhelp Hback. by rewrite !bool_decide_eq_false_2.
  - split.
    + intros Hsome.
      destruct (decide (data q = lit "help")) as [Hhelp|Hhelp];
        [|destruct (decide (data q = lit "back_to_start")) as [Hback|Hback]].
      * exists (Button ([128161] ++ lit " How to Use") None (Some (lit "help"))).
        split; [|by rewrite Hhelp]. set_unfold. cbn. eauto 10.
      * exists (Button ([128281] ++ lit " Back") None
                       (Some (lit "back_to_start"))).
        split; [|by rewrite Hback]. set_unfold. cbn. eauto 10.
      * rewrite !bool_decide_eq_false_2 in Hsome by done. by destruct Hsome.
    + intros (b & Hb & Hdata). set_unfold in Hb. cbn in Hb.
      destruct_or?; simplify_eq/=; rewrite <- Hdata; vm_compute; by eexists.
Qed.

Lemma keyboard_navigation_witness :
  dispatch_callback (fun _ _ => None) (CallbackQuery 1 (lit "help") 5 9)
  = Some (process_help (fun _ _ => None) (CallbackQuery 1 (lit "help") 5 9)).
Proof.
  refine (proj1 (keyboard_navigation (fun _ _ => None)
                   (CallbackQuery 1 (lit "help") 5 9))
            (Button ([128161] ++ lit " How to Use") None (Some (lit "help")))
            _ _).
  - vm_compute. do 3 right. left.
  - reflexivity.
Defined.

(** X22: each example link on the start keyboard is a link the handler
    accepts as it stands, and the router sends it to the platform the
    button names: the TikTok example to the TikTok adapter, the YouTube
    example to the YouTube adapter, the SoundCloud example to the audio
    adapter.  A button of the start keyboard carries a link or callback
    data, never both. *)
Theorem example_links_are_routed (b : button) (u : pystr) :
  b ∈ buttons get_start_keyboard → link b = Some u →
  strip u = u
  ∧ startswith_any [lit "http://"; lit "https://"] u = true
  ∧ callback_data b = None
  ∧ ∃ k, detect_in_url u = Some k
         ∧ contains (platform_name k) (caption b) = true
         ∧ ∀ E dest chat pid,
             choose_downloader E u dest chat pid
             = route E (Some k) u dest chat pid.
Proof.
  intros Hb Hlink. set_unfold in Hb.
  destruct_or?; try done; subst b; cbn [link] in Hlink; try discriminate;
    injection Hlink as <-.
  all: split; [by vm_compute|]; split; [by vm_compute|]; split; [reflexivity|].
  - assert (detect_in_url (lit "https://vm.tiktok.com/ZM2jp5x8E/")
            = Some ShortVideo) as Hk by (by vm_compute).
    exists ShortVideo. split; [done|]. split; [by vm_compute|].
    intros. by rewrite choose_downloader_route, Hk.
  - assert (detect_in_url (lit "https://youtu.be/dQw4w9WgXcQ") = Some Video)
      as Hk by (by vm_compute).
    exists Video. split; [done|]. split; [by vm_compute|].
    intros. by rewrite choose_downloader_route, Hk.
  - assert (detect_in_url
              (lit "https://soundcloud.com/likewaterofficial/likewater")
            = Some Audio) as Hk by (by vm_compute).
    exists Audio. split; [done|]. split; [by vm_compute|].
    intros. by rewrite choose_downloader_route, Hk.
Qed.

Lemma example_links_are_routed_witness :
  strip (lit "https://youtu.be/dQw4w9WgXcQ") = lit "https://youtu.be/dQw4w9WgXcQ".
Proof.
  refine (proj1 (example_links_are_routed
                   (Button ([127909] ++ lit " YouTube Example")
                           (Some (lit "https://youtu.be/dQw4w9WgXcQ")) None)
                   (lit "https://youtu.be/dQw4w9WgXcQ") _ _)).
  - vm_compute. right. left.
  - reflexivity.
Defined.

(** X23: going to the usage screen and back does not restore the start
    screen as [/start] showed it.  The back handler puts the start keyboard
    on the screen again, but under a text that names the bot
    MediaDownloader Bot where the start command said Downloader Bot; the
    rest of the two texts is the same. *)
Theorem back_screen_renames_bot
    (ui_fails : list ui_call -> ui_call -> option exn) (chat : Z)
    (q : callback_query) (l : list ui_call) :
  last (snd (cmd_start ui_fails chat []))
  = Some (MessageAnswer chat start_text (Some get_start_keyboard))
  ∧ (∃ shown, snd (process_back ui_fails q l)
              = shown ++ EditText (message_chat q) (message_id q) back_text
                           (Some get_start_keyboard) :: l)
  ∧ back_text ≠ start_text
  ∧ ∃ rest,
      start_text = [10024] ++ lit " *Welcome to Downloader Bot!*" ++ rest
      ∧ back_text = [10024] ++ lit " *Welcome to MediaDownloader Bot!*" ++ rest.
Proof.
  split; [|split; [|split]].
  - unfold cmd_start, ui_do. by case_ui.
  - rewrite process_back_shape, show_screen_run. cbv zeta.
    repeat case_ui;
      first [ by eexists [_] | by eexists [_; _] | by eexists [_; _; _] ].
  - by vm_compute.
  - eexists. split; reflexivity.
Qed.
